(** * Blog controller: a shallow embedding of the request handlers

    The handlers of the blog controller ([getAllBlog], [getOneBlog],
    [createBlog], [updateBlog], [deleteBlog], [reactToblog],
    [getAuthorBlogs]) are embedded as functions from a request and the
    stored collections to a new store and an outcome.

    - The three collections (blogs, comments, users) are finite maps from
      ObjectId to document: [_id] is unique by construction.
    - ObjectIds, user ids ([req.user.id], [req.user._id]) and network
      addresses are strings. A string is held as the bytes of its UTF-8
      encoding.
    - The numbers the listing computes with are [JS.Number]s: the integers
      a double holds, the infinities and NaN, with the rounding of double
      arithmetic. Counters and sizes of stored documents are integers.
    - What lives outside the controller is a [Variable] of the section:
      the tag and reaction vocabularies, the regular-expression engine, the
      media host, the validators of the Blog schema, and what the database
      makes of a count that is an infinity or NaN. *)

From Stdlib Require Import ZArith Ascii String Lia.
From stdpp Require Import base option list gmap strings sorting fin_maps.

Local Open Scope string_scope.
Local Open Scope Z_scope.

(** ** JavaScript built-ins used by the handlers *)

Module JS.

(** [String.prototype.split(",")]: the empty string splits into one empty
    member, and a trailing separator yields a trailing empty member. *)
Fixpoint split (sep : ascii) (s : string) : list string :=
  match s with
  | EmptyString => [EmptyString]
  | String c s' =>
      if Ascii.eqb c sep then EmptyString :: split sep s'
      else match split sep s' with
           | [] => [String c EmptyString]
           | w :: ws => String c w :: ws
           end
  end.

(** Truthiness of an optional string: [undefined] and [""] are falsy. *)
Definition truthy (v : option string) : option string :=
  match v with
  | Some EmptyString => None
  | _ => v
  end.

(** [ToString] of a query value: [undefined] prints as "undefined". *)
Definition toString (v : option string) : string :=
  match v with
  | Some s => s
  | None => "undefined"
  end.

(** White space and line terminators, which [parseInt] skips, by the length
    of their UTF-8 encoding. One byte: U+0009 to U+000D and U+0020. *)
Definition isWhiteSpace (c : ascii) : bool :=
  let n := nat_of_ascii c in
  bool_decide (9 ≤ n ≤ 13 ∨ n = 32)%nat.

(** Two bytes: U+00A0. *)
Definition isWhiteSpace2 (c1 c2 : ascii) : bool :=
  bool_decide (nat_of_ascii c1 = 194 ∧ nat_of_ascii c2 = 160)%nat.

(** Three bytes: U+1680, U+2000 to U+200A, U+2028, U+2029, U+202F, U+205F,
    U+3000 and U+FEFF. *)
Definition isWhiteSpace3 (c1 c2 c3 : ascii) : bool :=
  let a := nat_of_ascii c1 in
  let b := nat_of_ascii c2 in
  let c := nat_of_ascii c3 in
  bool_decide
    ((a = 225 ∧ b = 154 ∧ c = 128)
     ∨ (a = 226 ∧ b = 128 ∧ (128 ≤ c ≤ 138 ∨ c = 168 ∨ c = 169 ∨ c = 175))
     ∨ (a = 226 ∧ b = 129 ∧ c = 159)
     ∨ (a = 227 ∧ b = 128 ∧ c = 128)
     ∨ (a = 239 ∧ b = 187 ∧ c = 191))%nat.

Fixpoint trimStart (s : string) : string :=
  match s with
  | String c1 s1 =>
      if isWhiteSpace c1 then trimStart s1
      else match s1 with
           | String c2 s2 =>
               if isWhiteSpace2 c1 c2 then trimStart s2
               else match s2 with
                    | String c3 s3 =>
                        if isWhiteSpace3 c1 c2 c3 then trimStart s3 else s
                    | EmptyString => s
                    end
           | EmptyString => s
           end
  | EmptyString => EmptyString
  end.

(** The value of a digit in the given radix, if it is one. *)
Definition digitValue (radix : Z) (c : ascii) : option Z :=
  let n := Z.of_nat (nat_of_ascii c) in
  let v := if bool_decide (48 ≤ n ≤ 57) then Some (n - 48)
           else if bool_decide (97 ≤ n ≤ 122) then Some (n - 87)
           else if bool_decide (65 ≤ n ≤ 90) then Some (n - 55)
           else None in
  match v with
  | Some d => if bool_decide (d < radix) then Some d else None
  | None => None
  end.

(** The longest prefix of digits, read in the radix; [acc] is [None] until
    the first digit has been seen. *)
Fixpoint parseDigits (radix : Z) (acc : option Z) (s : string) : option Z :=
  match s with
  | String c s' =>
      match digitValue radix c with
      | Some d => parseDigits radix (Some (radix * default 0 acc + d)) s'
      | None => acc
      end
  | EmptyString => acc
  end.

Definition stripSign (s : string) : Z * string :=
  match s with
  | String c r =>
      if Ascii.eqb c "-" then (-1, r)
      else if Ascii.eqb c "+" then (1, r)
      else (1, s)
  | EmptyString => (1, s)
  end.

Definition stripPrefix (s : string) : Z * string :=
  match s with
  | String c0 (String c1 r) =>
      if Ascii.eqb c0 "0" && (Ascii.eqb c1 "x" || Ascii.eqb c1 "X")
      then (16, r) else (10, s)
  | _ => (10, s)
  end.

(** A Number as the listing computes with it: an integer that a double
    holds, an infinity, or NaN. The sign of a zero is not kept; no handler
    tells the two zeros apart. *)
Inductive Number := Finite (z : Z) | Infinity (negative : bool) | NaN.

(** The double nearest to a non-negative integer: 53 significant bits, a
    tie going to the even significand. *)
Definition roundMagnitude (m : Z) : Z :=
  if bool_decide (m < 2 ^ 53) then m
  else
    let ulp := 2 ^ (Z.log2 m - 52) in
    let q := m / ulp in
    let r := m mod ulp in
    if bool_decide (2 * r < ulp) then q * ulp
    else if bool_decide (ulp < 2 * r) then (q + 1) * ulp
    else if Z.even q then q * ulp else (q + 1) * ulp.

(** The Number for a mathematical integer; what rounds past the largest
    double is an infinity. *)
Definition toNumber (z : Z) : Number :=
  let m := roundMagnitude (Z.abs z) in
  if bool_decide (2 ^ 1024 ≤ m) then Infinity (bool_decide (z < 0))
  else Finite (Z.sgn z * m).

(** [parseInt(string)] with no radix argument. *)
Definition parseInt (s : string) : Number :=
  let '(sign, s1) := stripSign (trimStart s) in
  let '(radix, s2) := stripPrefix s1 in
  match parseDigits radix None s2 with
  | Some n => toNumber (sign * n)
  | None => NaN
  end.

(** [n || d] on a number: [NaN] and zero are falsy. *)
Definition orElse (n d : Number) : Number :=
  match n with
  | Finite z => if bool_decide (z = 0) then d else n
  | Infinity _ => n
  | NaN => d
  end.

(** [a - b] and [a * b]. *)
Definition sub (a b : Number) : Number :=
  match a, b with
  | Finite x, Finite y => toNumber (x - y)
  | Infinity s, Finite _ => Infinity s
  | Finite _, Infinity s => Infinity (negb s)
  | Infinity s, Infinity t => if eqb s t then NaN else Infinity s
  | _, _ => NaN
  end.

Definition mul (a b : Number) : Number :=
  match a, b with
  | Finite x, Finite y => toNumber (x * y)
  | Infinity s, Finite y =>
      if bool_decide (y = 0) then NaN
      else Infinity (xorb s (bool_decide (y < 0)))
  | Finite x, Infinity s =>
      if bool_decide (x = 0) then NaN
      else Infinity (xorb (bool_decide (x < 0)) s)
  | Infinity s, Infinity t => Infinity (xorb s t)
  | _, _ => NaN
  end.

End JS.

(** ** Documents *)

Abbreviation ObjectId := string (only parsing).

Record Image := { public_id : string; url : string }.

(** Modelled from the spec: models/blog.model.js, the Blog schema, is
    missing. The fields are those of the data model's blog post; the
    handlers read and write all of them but the content. [_id] is the key
    under which the document is stored. *)
Record Blog := {
  title : string;
  content : string;
  tags : list string;
  author : ObjectId;
  coverImage : option Image;
  images : list Image;
  likes : list ObjectId;
  dislikes : list ObjectId;
  views : Z;
  viewedBy : list string;
  createdAt : Z
}.

(** Modelled from the spec: models/comment.model.js, the Comment schema,
    is missing. The fields are those of the data model's comment; [blog] is
    the post it belongs to. *)
Record Comment := {
  comment : string;
  user : ObjectId;
  c_likes : list ObjectId;
  blog : ObjectId
}.

(** Modelled from the spec: the user schema is missing. The fields are
    the author fields the listing attaches to a post. *)
Record User := {
  name : string;
  avatar : string;
  role : string;
  bio : string
}.

(** What [populate] keeps of an author when it selects name, avatar and
    role. *)
Record AuthorView := {
  a_name : string;
  a_avatar : string;
  a_role : string
}.

Definition selectAuthor (u : User) : AuthorView :=
  {| a_name := name u; a_avatar := avatar u; a_role := role u |}.

Global Instance Image_eq_dec : EqDecision Image.
Proof. solve_decision. Defined.
Global Instance Blog_eq_dec : EqDecision Blog.
Proof. solve_decision. Defined.
Global Instance Comment_eq_dec : EqDecision Comment.
Proof. solve_decision. Defined.
Global Instance User_eq_dec : EqDecision User.
Proof. solve_decision. Defined.

(** The stored collections. *)
Record Db := {
  blogs : gmap ObjectId Blog;
  comments : gmap ObjectId Comment;
  users : gmap ObjectId User
}.

(** ** Outcomes of a handler *)

(** Modelled from the spec: utils/ApiError.js is missing. An error carries
    a message and a status code; the handlers build it as
    [new ApiError(message, statusCode)], at times without the code. *)
Record ApiError := { message : string; statusCode : option Z }.

Inductive Outcome (A : Type) : Type :=
| Respond (status : Z) (body : A)   (* res.status(status).json(body) *)
| Next (e : ApiError)               (* return next(new ApiError(...)) *)
| Throw (what : string).            (* an exception, forwarded by TryCatch *)
Arguments Respond {A} status body.
Arguments Next {A} e.
Arguments Throw {A} what.

Definition NotFound (msg : string) : ApiError :=
  {| message := msg; statusCode := Some 404 |}.

(** ** The queries the handlers issue *)

(** A stored document together with its [_id]. *)
Abbreviation Doc := (ObjectId * Blog)%type (only parsing).

(** [sort({ field: -1 })]: descending on a numeric key. The order among
    documents with equal keys is whatever the merge leaves. *)
Definition descBy {A} (key : A → Z) : relation A := λ a b, key b ≤ key a.

Global Instance descBy_dec {A} (key : A → Z) : RelDecision (descBy key).
Proof. intros a b. unfold descBy. apply _. Defined.

Definition sortDesc {A} (key : A → Z) (l : list A) : list A :=
  merge_sort (descBy key) l.

(** [{ $size: "$likes" }] *)
Definition likesCount (d : Doc) : Z := Z.of_nat (length (likes d.2)).

(** The largest member, if any; descending sorts on an array field compare
    documents by it. *)
Definition maxMember (l : list string) : option string :=
  foldr (λ x acc, match acc with
                  | None => Some x
                  | Some y => if String.leb x y then Some y else Some x
                  end) None l.

Definition descByMaxLike : relation Doc := λ a b,
  match maxMember (likes b.2), maxMember (likes a.2) with
  | None, _ => True
  | Some _, None => False
  | Some y, Some x => String.leb y x = true
  end.

Global Instance descByMaxLike_dec : RelDecision descByMaxLike.
Proof.
  intros a b. unfold descByMaxLike.
  destruct (maxMember (likes b.2)), (maxMember (likes a.2)); apply _.
Defined.

Inductive SortQuery := SortViews | SortLikes | SortCreatedAt.

Definition applySort (sq : SortQuery) (l : list Doc) : list Doc :=
  match sq with
  | SortViews => sortDesc (λ d, views d.2) l
  | SortLikes => merge_sort descByMaxLike l
  | SortCreatedAt => sortDesc (λ d, createdAt d.2) l
  end.

(** [skip(n)] and [$skip]: the server refuses a negative count. *)
Definition skip {A} (n : Z) (l : list A) : option (list A) :=
  if bool_decide (n < 0) then None else Some (drop (Z.to_nat n) l).

(** [Query.limit(n)]: a negative count asks for its absolute value, and 0
    for no limit. *)
Definition limit {A} (n : Z) (l : list A) : list A :=
  if bool_decide (n = 0) then l else take (Z.to_nat (Z.abs n)) l.

(** [$limit] of an aggregation: the server refuses a count that is not
    positive. *)
Definition aggLimit {A} (n : Z) (l : list A) : option (list A) :=
  if bool_decide (n ≤ 0) then None else Some (take (Z.to_nat n) l).

(** The places where the listing hands the database a count. *)
Inductive Stage :=
| SkipOfFind     (* Query.skip *)
| LimitOfFind    (* Query.limit *)
| SkipStage      (* $skip *)
| LimitStage.    (* $limit *)

(** ** Requests and response bodies *)

(** [req.query] of the listing endpoint; an absent parameter is [None]. *)
Record ListQuery := {
  q_tags : option string;
  q_title : option string;
  q_sortBy : option string;
  q_page : option string;
  q_limit : option string
}.

(** A file received with the request. *)
Record File := { originalname : string }.

(** [req.body] of the create and update endpoints: the fields of the schema,
    each present or not. *)
Record BlogBody := {
  b_title : option string;
  b_content : option string;
  b_tags : option (list string);
  b_author : option ObjectId;
  b_coverImage : option Image;
  b_images : option (list Image);
  b_likes : option (list ObjectId);
  b_dislikes : option (list ObjectId);
  b_views : option Z;
  b_viewedBy : option (list string);
  b_createdAt : option Z
}.

(** A listed post: the document, the count the aggregation adds, and the
    author document joined in ([None] is [null]). *)
Record Listed := {
  l_doc : Doc;
  l_likesCount : option Z;
  l_author : option User
}.

Record ListBody (A : Type) := { results : nat; data : list A }.
Arguments results {A} _.
Arguments data {A} _.

Record OneBody := {
  o_likes : nat;
  o_dislikes : nat;
  o_views : Z;
  o_data : Doc;
  o_author : option AuthorView;
  o_comments : list (ObjectId * Comment)
}.

Record MessageBody := { msg : string; m_data : option Doc }.

Record ReactBody := {
  r_likes : list ObjectId;
  r_dislikes : list ObjectId;
  isLiked : bool;
  isDisliked : bool
}.

Record OneReq := {
  one_id : ObjectId;               (* req.params.id *)
  one_user : option ObjectId;      (* req.user.id, when authenticated *)
  one_ip : string                  (* req.ip *)
}.

Record CreateReq := {
  cr_body : BlogBody;
  cr_user : ObjectId;              (* req.user._id *)
  cr_file : option File;
  cr_files : list File
}.

Record UpdateReq := {
  up_id : ObjectId;                (* req.params.id *)
  up_user : ObjectId;              (* req.user.id *)
  up_body : BlogBody;
  up_file : option File;
  up_files : list File
}.

Record DeleteReq := {
  del_id : ObjectId;
  del_user : ObjectId
}.

Record ReactReq := {
  re_blogId : ObjectId;
  re_reaction : option string;     (* req.body.reaction *)
  re_user : ObjectId               (* req.user._id *)
}.

(** ** Field updates *)

Definition withBlogs (db : Db) (m : gmap ObjectId Blog) : Db :=
  {| blogs := m; comments := comments db; users := users db |}.

Definition withView (b : Blog) (who : string) : Blog :=
  {| title := title b; content := content b; tags := tags b;
     author := author b; coverImage := coverImage b; images := images b;
     likes := likes b; dislikes := dislikes b;
     views := views b + 1; viewedBy := viewedBy b ++ [who];
     createdAt := createdAt b |}.

Definition withCoverImage (b : Blog) (i : Image) : Blog :=
  {| title := title b; content := content b; tags := tags b;
     author := author b; coverImage := Some i; images := images b;
     likes := likes b; dislikes := dislikes b;
     views := views b; viewedBy := viewedBy b; createdAt := createdAt b |}.

Definition pushImages (b : Blog) (more : list Image) : Blog :=
  {| title := title b; content := content b; tags := tags b;
     author := author b; coverImage := coverImage b;
     images := images b ++ more;
     likes := likes b; dislikes := dislikes b;
     views := views b; viewedBy := viewedBy b; createdAt := createdAt b |}.

Definition withReactions (b : Blog) (ls ds : list ObjectId) : Blog :=
  {| title := title b; content := content b; tags := tags b;
     author := author b; coverImage := coverImage b; images := images b;
     likes := ls; dislikes := ds;
     views := views b; viewedBy := viewedBy b; createdAt := createdAt b |}.

Definition bodyWithAuthor (body : BlogBody) (a : ObjectId) : BlogBody :=
  {| b_title := b_title body; b_content := b_content body;
     b_tags := b_tags body; b_author := Some a;
     b_coverImage := b_coverImage body; b_images := b_images body;
     b_likes := b_likes body; b_dislikes := b_dislikes body;
     b_views := b_views body; b_viewedBy := b_viewedBy body;
     b_createdAt := b_createdAt body |}.

Definition bodyWithCoverImage (body : BlogBody) (i : Image) : BlogBody :=
  {| b_title := b_title body; b_content := b_content body;
     b_tags := b_tags body; b_author := b_author body;
     b_coverImage := Some i; b_images := b_images body;
     b_likes := b_likes body; b_dislikes := b_dislikes body;
     b_views := b_views body; b_viewedBy := b_viewedBy body;
     b_createdAt := b_createdAt body |}.

(** The update document [req.body] applied to a stored post: every field
    that is present replaces the stored one. *)
Definition applyBody (body : BlogBody) (b : Blog) : Blog :=
  {| title := default (title b) (b_title body);
     content := default (content b) (b_content body);
     tags := default (tags b) (b_tags body);
     author := default (author b) (b_author body);
     coverImage := match b_coverImage body with
                   | Some i => Some i
                   | None => coverImage b
                   end;
     images := default (images b) (b_images body);
     likes := default (likes b) (b_likes body);
     dislikes := default (dislikes b) (b_dislikes body);
     views := default (views b) (b_views body);
     viewedBy := default (viewedBy b) (b_viewedBy body);
     createdAt := default (createdAt b) (b_createdAt body) |}.

(** [$addToSet] and [$pull] on an array field. *)
Definition addToSet (x : ObjectId) (l : list ObjectId) : list ObjectId :=
  if bool_decide (x ∈ l) then l else l ++ [x].

Definition pull (x : ObjectId) (l : list ObjectId) : list ObjectId :=
  filter (λ y, y ≠ x) l.

(** The update operators [reactToblog] builds. *)
Inductive React :=
| LikeUpdate        (* { $addToSet: { likes }, $pull: { dislikes } } *)
| DislikeUpdate.    (* { $addToSet: { dislikes }, $pull: { likes } } *)

(** [findByIdAndUpdate] applies an update that is [undefined] as the empty
    update. *)
Definition applyReact (react : option React) (who : ObjectId) (b : Blog) : Blog :=
  match react with
  | Some LikeUpdate =>
      withReactions b (addToSet who (likes b)) (pull who (dislikes b))
  | Some DislikeUpdate =>
      withReactions b (pull who (likes b)) (addToSet who (dislikes b))
  | None => b
  end.

(** ** Notions the statements use *)

(** A numeric value, as the listing endpoint's description uses the word: a
    non-empty run of decimal digits. *)
Definition isDigit (c : ascii) : bool :=
  bool_decide (48 ≤ Z.of_nat (nat_of_ascii c) ≤ 57).

Fixpoint allDigits (s : string) : bool :=
  match s with
  | EmptyString => true
  | String c r => isDigit c && allDigits r
  end.

Definition isNumeric (s : string) : bool :=
  match s with
  | EmptyString => false
  | String _ _ => allDigits s
  end.

(** The number a run of decimal digits denotes, most significant first. *)
Fixpoint decimalValue (acc : Z) (s : string) : Z :=
  match s with
  | EmptyString => acc
  | String c r => decimalValue (10 * acc + (Z.of_nat (nat_of_ascii c) - 48)) r
  end.

(** A value begins with an integer when, after leading white space and an
    optional sign, its first character is a decimal digit. *)
Definition beginsWithInteger (s : string) : bool :=
  match (JS.stripSign (JS.trimStart s)).2 with
  | String c _ => isDigit c
  | EmptyString => false
  end.

(** What follows a numeral without being read: nothing, or a character
    that is no digit and does not turn a leading "0" into a hexadecimal
    prefix. *)
Definition endsNumeral (s rest : string) : Prop :=
  match rest with
  | String c _ => isDigit c = false ∧ (s = "0" → c ≠ "x"%char ∧ c ≠ "X"%char)
  | EmptyString => True
  end.

(** A hexadecimal numeral, the number it denotes, and what ends it. *)
Definition isHexDigit (c : ascii) : bool :=
  let n := Z.of_nat (nat_of_ascii c) in
  bool_decide (48 ≤ n ≤ 57 ∨ 97 ≤ n ≤ 102 ∨ 65 ≤ n ≤ 70).

Fixpoint allHexDigits (s : string) : bool :=
  match s with
  | EmptyString => true
  | String c r => isHexDigit c && allHexDigits r
  end.

Definition hexDigit (c : ascii) : Z :=
  let n := Z.of_nat (nat_of_ascii c) in
  if bool_decide (n ≤ 57) then n - 48
  else if bool_decide (97 ≤ n) then n - 87
  else n - 55.

Fixpoint hexValue (acc : Z) (s : string) : Z :=
  match s with
  | EmptyString => acc
  | String c r => hexValue (16 * acc + hexDigit c) r
  end.

Definition endsHexNumeral (rest : string) : Prop :=
  match rest with
  | String c _ => isHexDigit c = false
  | EmptyString => True
  end.

(** The string whose UTF-8 bytes are given. *)
Definition utf8 (bytes : list nat) : string :=
  foldr (λ n s, String (ascii_of_nat n) s) EmptyString bytes.

(** The white space and line terminators of the language: U+0009 to U+000D,
    U+0020, U+00A0, U+1680, U+2000 to U+200A, U+2028, U+2029, U+202F, U+205F,
    U+3000 and U+FEFF. *)
Definition whiteSpace : list string :=
  utf8 <$> [ [9]; [10]; [11]; [12]; [13]; [32]; [194; 160]; [225; 154; 128];
             [226; 128; 128]; [226; 128; 129]; [226; 128; 130];
             [226; 128; 131]; [226; 128; 132]; [226; 128; 133];
             [226; 128; 134]; [226; 128; 135]; [226; 128; 136];
             [226; 128; 137]; [226; 128; 138]; [226; 128; 168];
             [226; 128; 169]; [226; 128; 175]; [226; 129; 159];
             [227; 128; 128]; [239; 187; 191] ]%nat.

(** A number below zero: a negative integer or the negative infinity. *)
Definition isNegative (n : JS.Number) : bool :=
  match n with
  | JS.Finite z => bool_decide (z < 0)
  | JS.Infinity negative => negative
  | JS.NaN => false
  end.

(** How often a viewer is recorded in [viewedBy]. *)
Definition occurrences (who : string) (l : list string) : nat :=
  length (filter (λ x, x = who) l).

(** The view counter of a post agrees with its record of viewers: nobody
    is recorded twice and there are as many views as viewers. *)
Definition viewsConsistent (b : Blog) : Prop :=
  NoDup (viewedBy b) ∧ views b = Z.of_nat (length (viewedBy b)).

(** [Array.prototype.join(sep)], the inverse of [split] on its results. *)
Fixpoint joinWith (sep : ascii) (l : list string) : string :=
  match l with
  | [] => EmptyString
  | [w] => w
  | w :: ws => String.append w (String sep (joinWith sep ws))
  end.

(** The separator does not occur in the string. *)
Fixpoint lacks (sep : ascii) (s : string) : bool :=
  match s with
  | EmptyString => true
  | String c r => negb (Ascii.eqb c sep) && lacks sep r
  end.

(** No user is in both reaction sets of a post. *)
Definition exclusiveReactions (b : Blog) : Prop :=
  ∀ u, ¬ (u ∈ likes b ∧ u ∈ dislikes b).

(** ** Sample data

    A small store, a few requests and stand-ins for what lives outside the
    controller, used to run the handlers on concrete inputs. *)

Module Sample.

Definition BLOG_TAGS : list string := ["tech"; "life"; "travel"].
Definition REACTIONS : list string := ["like"; "dislike"].

(** A stand-in engine: every source is a pattern, matched as a prefix of
    the title. *)
Definition RegExp_i (source : string) : option (string → bool) :=
  Some (λ t, String.prefix source t).

(** A media host that loses every file named "broken.png". *)
Definition upload (f : File) : option Image :=
  if String.eqb (originalname f) "broken.png" then None
  else Some {| public_id := originalname f;
               url := "https://media.example/" +:+ originalname f |}.

Definition deleteFile (public_id : string) : bool := true.

(** A schema without validators; absent fields take empty defaults. *)
Definition Blog_new (body : BlogBody) : option Blog :=
  Some {| title := default "" (b_title body);
          content := default "" (b_content body);
          tags := default [] (b_tags body);
          author := default "" (b_author body);
          coverImage := b_coverImage body;
          images := default [] (b_images body);
          likes := default [] (b_likes body);
          dislikes := default [] (b_dislikes body);
          views := default 0 (b_views body);
          viewedBy := default [] (b_viewedBy body);
          createdAt := default 0 (b_createdAt body) |}.

Definition Blog_updateValid (body : BlogBody) : bool := true.

(** A database that refuses a count that is no integer. *)
Definition nonFiniteCount (stage : Stage) (n : JS.Number) : option Z := None.

(** A body with a title and a text. *)
Definition draft : BlogBody :=
  {| b_title := Some "post"; b_content := Some "text"; b_tags := None;
     b_author := None; b_coverImage := None; b_images := None;
     b_likes := None; b_dislikes := None; b_views := None;
     b_viewedBy := None; b_createdAt := None |}.

Definition fans : list ObjectId :=
  ["u01"; "u02"; "u03"; "u04"; "u05"; "u06";
   "u07"; "u08"; "u09"; "u10"; "u11"; "u12"].

(** A post by [who] with the given tags, [n] likes and creation time. *)
Definition post (who : ObjectId) (ts : list string) (n : nat) (at_ : Z) : Blog :=
  {| title := "post"; content := "text"; tags := ts; author := who;
     coverImage := None; images := []; likes := take n fans; dislikes := [];
     views := 0; viewedBy := []; createdAt := at_ |}.

Definition person (n : string) : User :=
  {| name := n; avatar := ""; role := "user"; bio := "" |}.

Definition people : gmap ObjectId User :=
  list_to_map [("alice", person "Alice"); ("bob", person "Bob")].

(** Twelve posts with like counts 3, 7, 1, 12, 5, 9, 2, 11, 4, 8, 6, 10. *)
Definition twelve : Db :=
  {| blogs := list_to_map
       [("b01", post "alice" ["tech"] 3 101);
        ("b02", post "bob" ["life"] 7 102);
        ("b03", post "alice" ["tech"] 1 103);
        ("b04", post "bob" ["travel"] 12 104);
        ("b05", post "alice" ["tech"; "life"] 5 105);
        ("b06", post "bob" ["life"] 9 106);
        ("b07", post "alice" ["travel"] 2 107);
        ("b08", post "bob" ["tech"] 11 108);
        ("b09", post "alice" ["life"] 4 109);
        ("b10", post "bob" ["travel"] 8 110);
        ("b11", post "alice" ["tech"] 6 111);
        ("b12", post "bob" ["life"] 10 112)];
     comments := ∅;
     users := people |}.

(** Two posts; the author of the more liked one is not a stored user. *)
Definition orphaned : Db :=
  {| blogs := list_to_map
       [("b01", post "carol" ["tech"] 5 101);
        ("b02", post "alice" ["tech"] 2 102)];
     comments := ∅;
     users := people |}.

(** One post by alice, seen by nobody, with two comments; another post and
    its comment. *)
Definition small : Db :=
  {| blogs := list_to_map
       [("b01", post "alice" ["tech"] 2 101);
        ("b02", post "bob" ["life"] 0 102)];
     comments := list_to_map
       [("c01", {| comment := "nice"; user := "bob"; c_likes := [];
                   blog := "b01" |});
        ("c02", {| comment := "thanks"; user := "alice"; c_likes := [];
                   blog := "b01" |});
        ("c03", {| comment := "hello"; user := "alice"; c_likes := [];
                   blog := "b02" |})];
     users := people |}.

Definition listQuery (ts sortBy page lim : option string) : ListQuery :=
  {| q_tags := ts; q_title := None; q_sortBy := sortBy;
     q_page := page; q_limit := lim |}.

(** A stand-in engine that refuses the source "(" as the real one does. *)
Definition RegExp_checked (source : string) : option (string → bool) :=
  if String.eqb source "(" then None
  else Some (λ t, String.prefix source t).

Definition sea : File := {| originalname := "sea.png" |}.
Definition sky : File := {| originalname := "sky.png" |}.
Definition broken : File := {| originalname := "broken.png" |}.

(** Requests for post b01 by bob, by an anonymous caller, and by alice. *)
Definition viewers : list OneReq :=
  [ {| one_id := "b01"; one_user := Some "bob"; one_ip := "10.0.0.7" |};
    {| one_id := "b01"; one_user := None; one_ip := "10.0.0.7" |};
    {| one_id := "b01"; one_user := Some "bob"; one_ip := "10.0.0.9" |};
    {| one_id := "b01"; one_user := Some "alice"; one_ip := "10.0.0.7" |} ].

End Sample.

(** ** The handlers *)

Section Controller.

(** constants/blogConstants.js *)
Variable BLOG_TAGS : list string.
Variable REACTIONS : list string.

(** [new RegExp(source, "i")]: the test it compiles to, or [None] when the
    source is not a pattern and the constructor throws. *)
Variable RegExp_i : string → option (string → bool).

(** utils/features.js: the media host; [None] and [false] are a rejected
    promise. *)
Variable uploadFileToCloudinary : File → option Image.
Variable uploadMultipleFilesToCloudinary : File → option Image.
Variable deleteFileFromCloudinary : string → bool.

(** models/blog.model.js: the document [Blog.create] builds from a body
    (casting, defaults and validators; [None] when they reject it), and the
    validators that [runValidators] applies to an update. *)
Variable Blog_new : BlogBody → option Blog.
Variable Blog_updateValid : BlogBody → bool.

(** The database: what it makes of an infinity or NaN handed to it as a
    count of documents, the integer it reads instead or [None] when it
    refuses the query. *)
Variable nonFiniteCount : Stage → JS.Number → option Z.

(** A lemma depends on the collaborators its statement names, no others. *)
Set Default Proof Using "Type".

(** *** getAllBlog *)

Record FilterQuery := {
  f_tags : option (list string);      (* { tags: { $in: tagArray } } *)
  f_title : option (string → bool)    (* { title: { $regex: ... } } *)
}.

Definition InvalidTags : ApiError :=
  {| message := "Invalid tags"; statusCode := None |}.

(** Lines 15-29: the filter, or the outcome that ends the handler before
    any query. *)
Definition buildFilter (q : ListQuery)
  : Outcome (ListBody Listed) + FilterQuery :=
  let tagPart : Outcome (ListBody Listed) + option (list string) :=
    match JS.truthy (q_tags q) with
    | Some tags =>
        let tagArray := JS.split "," tags in
        let isValidTag :=
          forallb (λ tag, bool_decide (tag ∈ BLOG_TAGS)) tagArray in
        if negb isValidTag then inl (Next InvalidTags)
        else inr (Some tagArray)
    | None => inr None
    end in
  match tagPart with
  | inl out => inl out
  | inr ts =>
      match JS.truthy (q_title q) with
      | Some t =>
          match RegExp_i t with
          | Some re => inr {| f_tags := ts; f_title := Some re |}
          | None => inl (Throw "SyntaxError")
          end
      | None => inr {| f_tags := ts; f_title := None |}
      end
  end.

Definition matchesFilter (f : FilterQuery) (d : Doc) : bool :=
  match f_tags f with
  | Some tagArray => existsb (λ t, bool_decide (t ∈ tagArray)) (tags d.2)
  | None => true
  end
  && match f_title f with
     | Some re => re (title d.2)
     | None => true
     end.

(** [Blog.find(filterQuery)] and the [$match] stage. *)
Definition Blog_find (db : Db) (f : FilterQuery) : list Doc :=
  filter (λ d, matchesFilter f d) (map_to_list (blogs db)).

Definition sortQueryOf (sortBy : option string) : SortQuery :=
  match sortBy with
  | Some s =>
      if String.eqb s "mostViewed" then SortViews
      else if String.eqb s "mostLiked" then SortLikes
      else SortCreatedAt
  | None => SortCreatedAt
  end.

Definition pagination (q : ListQuery) : JS.Number :=
  JS.orElse (JS.parseInt (JS.toString (q_page q))) (JS.Finite 1).

Definition limitation (q : ListQuery) : JS.Number :=
  JS.orElse (JS.parseInt (JS.toString (q_limit q))) (JS.Finite 10).

Definition startIndex (q : ListQuery) : JS.Number :=
  JS.mul (JS.sub (pagination q) (JS.Finite 1)) (limitation q).

(** The count the database reads at a stage. *)
Definition countOf (stage : Stage) (n : JS.Number) : option Z :=
  match n with
  | JS.Finite z => Some z
  | _ => nonFiniteCount stage n
  end.

Definition isMostLiked (q : ListQuery) : bool :=
  match q_sortBy q with
  | Some s => String.eqb s "mostLiked"
  | None => false
  end.

(** [$lookup] of the author followed by [$unwind]: one result per author
    document found. *)
Definition lookupUnwind (db : Db) (d : Doc) : list Listed :=
  match users db !! author d.2 with
  | Some u => [ {| l_doc := d; l_likesCount := Some (likesCount d);
                   l_author := Some u |} ]
  | None => []
  end.

(** [populate("author")]: the author document, or [null]. *)
Definition populateAuthor (db : Db) (d : Doc) : Listed :=
  {| l_doc := d; l_likesCount := None;
     l_author := users db !! author d.2 |}.

(** The ranking the aggregation computes before it cuts the page:
    [$match], [$addFields], [$sort]. *)
Definition rankedByLikes (db : Db) (f : FilterQuery) : list Doc :=
  sortDesc likesCount (Blog_find db f).

(** Lines 51-66. [None] is a pipeline the server refuses. *)
Definition Blog_aggregate (db : Db) (f : FilterQuery) (q : ListQuery)
  : option (list Listed) :=
  start ← countOf SkipStage (startIndex q);
  skipped ← skip start (rankedByLikes db f);
  size ← countOf LimitStage (limitation q);
  limited ← aggLimit size skipped;
  Some (limited ≫= lookupUnwind db).

(** Lines 68-75. *)
Definition Blog_find_page (db : Db) (f : FilterQuery) (q : ListQuery)
  : option (list Listed) :=
  start ← countOf SkipOfFind (startIndex q);
  skipped ← skip start (applySort (sortQueryOf (q_sortBy q)) (Blog_find db f));
  size ← countOf LimitOfFind (limitation q);
  Some (populateAuthor db <$> limit size skipped).

Definition getAllBlog (db : Db) (q : ListQuery) : Outcome (ListBody Listed) :=
  match buildFilter q with
  | inl out => out
  | inr filterQuery =>
      let blog :=
        if isMostLiked q then Blog_aggregate db filterQuery q
        else Blog_find_page db filterQuery q in
      match blog with
      | None => Throw "MongoServerError"
      | Some blog =>
          if bool_decide (length blog = 0%nat)
          then Next (NotFound "No blog found")
          else Respond 200 {| results := length blog; data := blog |}
      end
  end.

(** *** getOneBlog *)

Definition userIdentifier (r : OneReq) : string :=
  match one_user r with
  | Some id => id
  | None => one_ip r
  end.

(** The comments that refer to a post, for [populate("comments")]. *)
Definition commentsOf (db : Db) (id : ObjectId) : list (ObjectId * Comment) :=
  filter (λ c, blog c.2 = id) (map_to_list (comments db)).

Definition getOneBlog (db : Db) (r : OneReq) : Db * Outcome OneBody :=
  match blogs db !! one_id r with
  | None => (db, Next (NotFound "No Blog found with this id"))
  | Some blog =>
      let '(db', blog') :=
        if negb (bool_decide (userIdentifier r ∈ viewedBy blog))
        then let blog' := withView blog (userIdentifier r) in
             (withBlogs db (<[one_id r := blog']> (blogs db)), blog')
        else (db, blog) in
      (db', Respond 200
              {| o_likes := length (likes blog');
                 o_dislikes := length (dislikes blog');
                 o_views := views blog';
                 o_data := (one_id r, blog');
                 o_author := selectAuthor <$> users db !! author blog';
                 o_comments := commentsOf db (one_id r) |})
  end.

(** *** createBlog *)

Definition UploadError (msg : string) : ApiError :=
  {| message := msg; statusCode := Some 500 |}.

(** Lines 152-175 and 205-227: every gallery file is uploaded on its own,
    and a failed upload is dropped. *)
Definition successfulUploads (files : list File) : list Image :=
  omap uploadMultipleFilesToCloudinary files.

Definition appendGallery (blog : Blog) (files : list File) : Blog :=
  let uploaded := successfulUploads files in
  if bool_decide (0 < length uploaded)%nat then pushImages blog uploaded
  else blog.

(** [newId] is the [_id] of the document [Blog.create] inserts; the insert
    is refused when a document already has it. *)
Definition createBlog (db : Db) (newId : ObjectId) (r : CreateReq)
  : Db * Outcome MessageBody :=
  let body := bodyWithAuthor (cr_body r) (cr_user r) in
  match Blog_new body with
  | None => (db, Throw "ValidationError")
  | Some blog0 =>
      match blogs db !! newId with
      | Some _ => (db, Throw "MongoServerError")
      | None =>
          let db1 := withBlogs db (<[newId := blog0]> (blogs db)) in
          let cover : Db * Outcome MessageBody + Db * Blog :=
            match cr_file r with
            | Some file =>
                match uploadFileToCloudinary file with
                | Some result =>
                    let blog1 := withCoverImage blog0 result in
                    inr (withBlogs db1 (<[newId := blog1]> (blogs db1)), blog1)
                | None =>
                    inl (withBlogs db1 (delete newId (blogs db1)),
                         Next (UploadError
                                 "Error uploading cover image to Cloudinary"))
                end
            | None => inr (db1, blog0)
            end in
          match cover with
          | inl failed => failed
          | inr (db2, blog1) =>
              let '(db3, blog2) :=
                if bool_decide (0 < length (cr_files r))%nat
                then let blog2 := appendGallery blog1 (cr_files r) in
                     (withBlogs db2 (<[newId := blog2]> (blogs db2)), blog2)
                else (db2, blog1) in
              (db3, Respond 201 {| msg := "created successfully";
                                   m_data := Some (newId, blog2) |})
          end
      end
  end.

(** *** updateBlog *)

Definition UpdateNotFound : ApiError :=
  NotFound "No comment found with this id or you are not authorized to update this comment".

(** Lines 190-204: the cover image. Reading [blog.coverImage] of a post
    that was not found throws inside the [try], like a failed deletion or
    upload. The result is the update payload, or [None] for the [catch]. *)
Definition replaceCover (blog : option Blog) (body : BlogBody) (file : File)
  : option BlogBody :=
  b ← blog;
  let deleted :=
    match coverImage b with
    | Some old =>
        if bool_decide (public_id old ≠ "")
        then deleteFileFromCloudinary (public_id old)
        else true
    | None => true
    end in
  if deleted then bodyWithCoverImage body <$> uploadFileToCloudinary file
  else None.

(** [Blog.findOneAndUpdate({ _id, author }, body, { new, runValidators })]:
    the validators run before the query is sent. *)
Definition findOneAndUpdate (db : Db) (id userId : ObjectId) (body : BlogBody)
  : Db * Outcome MessageBody :=
  if negb (Blog_updateValid body) then (db, Throw "ValidationError")
  else match blogs db !! id with
       | Some stored =>
           if bool_decide (author stored = userId)
           then let blogToUpdate := applyBody body stored in
                (withBlogs db (<[id := blogToUpdate]> (blogs db)),
                 Respond 200 {| msg := "updated successfully";
                                m_data := Some (id, blogToUpdate) |})
           else (db, Next UpdateNotFound)
       | None => (db, Next UpdateNotFound)
       end.

Definition updateBlog (db : Db) (r : UpdateReq) : Db * Outcome MessageBody :=
  let userId := up_user r in
  let id := up_id r in
  let blog := blogs db !! id in
  let cover : option BlogBody :=
    match up_file r with
    | Some file => replaceCover blog (up_body r) file
    | None => Some (up_body r)
    end in
  match cover with
  | None => (db, Next (UploadError "Error uploading image to Cloudinary"))
  | Some body =>
      if bool_decide (0 < length (up_files r))%nat
      then match blog with
           | Some b =>
               (* blog.images.push(...successfulUploads); blog.save() *)
               let db1 :=
                 withBlogs db (<[id := appendGallery b (up_files r)]> (blogs db)) in
               findOneAndUpdate db1 id userId body
           | None => (db, Throw "TypeError")
           end
      else findOneAndUpdate db id userId body
  end.

(** *** deleteBlog *)

Definition DeleteNotFound : ApiError :=
  NotFound "No blog found with this id or you are not authorized to delete this blog".

(** [Comment.deleteMany({ blog: id })] *)
Definition Comment_deleteMany (cs : gmap ObjectId Comment) (id : ObjectId)
  : gmap ObjectId Comment :=
  filter (λ c, blog c.2 ≠ id) cs.

Definition deleteBlog (db : Db) (r : DeleteReq) : Db * Outcome MessageBody :=
  let userId := del_user r in
  let id := del_id r in
  match blogs db !! id with
  | Some b =>
      if bool_decide (author b = userId)
      then ({| blogs := delete id (blogs db);
               comments := Comment_deleteMany (comments db) id;
               users := users db |},
            Respond 200 {| msg := "deleted successfully"; m_data := None |})
      else (db, Next DeleteNotFound)
  | None => (db, Next DeleteNotFound)
  end.

(** *** reactToblog *)

Definition InvalidReactions : ApiError :=
  {| message := "Invalid reactions"; statusCode := None |}.

(** [REACTIONS.includes(reaction)]; a missing reaction is [undefined],
    which no list of strings includes. *)
Definition validReaction (reaction : option string) : bool :=
  match reaction with
  | Some s => bool_decide (s ∈ REACTIONS)
  | None => false
  end.

(** Lines 285-290; [None] is [react] left [undefined]. *)
Definition reactOf (reaction : option string) : option React :=
  match reaction with
  | Some s =>
      if String.eqb s "like" then Some LikeUpdate
      else if String.eqb s "dislike" then Some DislikeUpdate
      else None
  | None => None
  end.

Definition reactToblog (db : Db) (r : ReactReq) : Db * Outcome ReactBody :=
  let blogId := re_blogId r in
  let userId := re_user r in
  if negb (validReaction (re_reaction r)) then (db, Next InvalidReactions)
  else
    let react := reactOf (re_reaction r) in
    match blogs db !! blogId with
    | None => (db, Next (NotFound "No blog found with this id"))
    | Some stored =>
        let updatedBlog := applyReact react userId stored in
        (withBlogs db (<[blogId := updatedBlog]> (blogs db)),
         Respond 200
           {| r_likes := likes updatedBlog;
              r_dislikes := dislikes updatedBlog;
              isLiked := bool_decide (userId ∈ likes updatedBlog);
              isDisliked := bool_decide (userId ∈ dislikes updatedBlog) |})
    end.

(** *** getAuthorBlogs *)

(** [Blog.find({ author: authorId })] *)
Definition Blog_findByAuthor (db : Db) (authorId : ObjectId) : list Doc :=
  filter (λ d, author d.2 = authorId) (map_to_list (blogs db)).

Definition getAuthorBlogs (db : Db) (blogId : ObjectId)
  : Outcome (ListBody Doc) :=
  match blogs db !! blogId with
  | None => Next (NotFound "Blog not found")
  | Some blog =>
      let authorId := author blog in
      let authorBlogs :=
        limit 4 (applySort SortCreatedAt (Blog_findByAuthor db authorId)) in
      if bool_decide (length authorBlogs = 0%nat)
      then Next (NotFound "No other blogs found by this author")
      else Respond 200 {| results := length authorBlogs;
                          data := authorBlogs |}
  end.

(** A sequence of reaction requests, handled one after the other. *)
Definition reactAll (db : Db) (rs : list ReactReq) : Db :=
  foldl (λ db r, (reactToblog db r).1) db rs.

(** A sequence of requests for single posts, handled one after the other. *)
Definition viewAll (db : Db) (rs : list OneReq) : Db :=
  foldl (λ db r, (getOneBlog db r).1) db rs.

(** ** Properties of the JavaScript built-ins *)

Lemma pow_53_1024 : 2 ^ 53 < 2 ^ 1024.
Proof. apply Z.pow_lt_mono_r; lia. Qed.

Lemma roundMagnitude_small m : m < 2 ^ 53 → JS.roundMagnitude m = m.
Proof. intros H. unfold JS.roundMagnitude. by rewrite bool_decide_true. Qed.

(** An integer below 2^53 in magnitude is a double. *)
Lemma toNumber_small z : Z.abs z < 2 ^ 53 → JS.toNumber z = JS.Finite z.
Proof.
  intros H. unfold JS.toNumber. rewrite roundMagnitude_small by done.
  pose proof pow_53_1024.
  rewrite bool_decide_false by lia. f_equal. lia.
Qed.

Lemma roundMagnitude_pos m : 0 < m → 0 < JS.roundMagnitude m.
Proof.
  intros Hm. unfold JS.roundMagnitude. case_bool_decide as Hsmall; [done|].
  assert (0 ≤ Z.log2 m - 52) as He.
  { assert (53 ≤ Z.log2 m); [|lia]. apply Z.log2_le_pow2; lia. }
  set (ulp := 2 ^ (Z.log2 m - 52)).
  assert (0 < ulp) as Hu by (apply Z.pow_pos_nonneg; lia).
  assert (ulp ≤ m) as Hle.
  { pose proof (Z.log2_spec m Hm) as [Hlo _].
    etrans; [|exact Hlo]. apply Z.pow_le_mono_r; lia. }
  assert (1 ≤ m / ulp) as Hq.
  { apply Z.div_le_lower_bound; lia. }
  repeat case_bool_decide; try destruct (Z.even _); nia.
Qed.

(** Rounding keeps the sign, and only zero rounds to zero. *)
Lemma toNumber_negative z : z < 0 → isNegative (JS.toNumber z) = true.
Proof.
  intros Hz. unfold JS.toNumber.
  pose proof (roundMagnitude_pos (Z.abs z)) as Hpos.
  case_bool_decide; simpl; apply bool_decide_eq_true_2; [done|].
  assert (Z.sgn z = -1) as -> by lia. lia.
Qed.

Lemma toNumber_zero z : JS.toNumber z = JS.Finite 0 → z = 0.
Proof.
  unfold JS.toNumber. pose proof (roundMagnitude_pos (Z.abs z)) as Hpos.
  case_bool_decide; [done|]. intros [= Hz]. lia.
Qed.

Lemma toNumber_not_NaN z : JS.toNumber z ≠ JS.NaN.
Proof. unfold JS.toNumber. by case_bool_decide. Qed.

(** [toNumber z || d] *)
Lemma orElse_toNumber z d :
  JS.orElse (JS.toNumber z) d
  = if bool_decide (z = 0) then d else JS.toNumber z.
Proof.
  case_bool_decide as Hz.
  - subst z. by rewrite toNumber_small.
  - pose proof (toNumber_zero z) as H0. pose proof (toNumber_not_NaN z) as Hn.
    destruct (JS.toNumber z) as [n| |]; simpl; [|done..].
    case_bool_decide; [|done]. subst n. by destruct Hz, H0.
Qed.

Lemma orElse_nonzero n d :
  d ≠ JS.Finite 0 → d ≠ JS.NaN →
  JS.orElse n d ≠ JS.Finite 0 ∧ JS.orElse n d ≠ JS.NaN.
Proof.
  intros H0 Hn. destruct n as [z| |]; simpl; [|done..].
  case_bool_decide; [done|]. split; congruence.
Qed.

Lemma parseDigits_acc_Some radix acc s :
  is_Some acc → is_Some (JS.parseDigits radix acc s).
Proof.
  revert acc. induction s as [|c s IH]; intros acc Hacc; simpl; [done|].
  destruct (JS.digitValue radix c); [apply IH; eauto | done].
Qed.

Lemma digitValue_10_digit c :
  isDigit c = true →
  JS.digitValue 10 c = Some (Z.of_nat (nat_of_ascii c) - 48).
Proof.
  unfold isDigit, JS.digitValue. intros H%bool_decide_eq_true.
  rewrite bool_decide_true by done. rewrite bool_decide_true by lia. done.
Qed.

Lemma digitValue_10_other c :
  isDigit c = false → JS.digitValue 10 c = None.
Proof.
  unfold isDigit, JS.digitValue. intros H%bool_decide_eq_false.
  rewrite bool_decide_false by done.
  repeat case_bool_decide; try done; lia.
Qed.

Lemma digitValue_16_digit c :
  isHexDigit c = true → JS.digitValue 16 c = Some (hexDigit c).
Proof.
  unfold isHexDigit, JS.digitValue, hexDigit. intros H%bool_decide_eq_true.
  repeat case_bool_decide; try done; try lia; f_equal; lia.
Qed.

Lemma digitValue_16_other c :
  isHexDigit c = false → JS.digitValue 16 c = None.
Proof.
  unfold isHexDigit, JS.digitValue. intros H%bool_decide_eq_false.
  repeat case_bool_decide; try done; lia.
Qed.

Lemma parseDigits_allDigits acc s :
  allDigits s = true →
  JS.parseDigits 10 (Some acc) s = Some (decimalValue acc s).
Proof.
  revert acc. induction s as [|c s IH]; intros acc; simpl; [done|].
  intros [Hc Hs]%andb_true_iff. rewrite digitValue_10_digit by done.
  simpl. by apply IH.
Qed.

Lemma isDigit_not_space c : isDigit c = true → JS.isWhiteSpace c = false.
Proof.
  unfold isDigit, JS.isWhiteSpace. intros H%bool_decide_eq_true.
  apply bool_decide_eq_false. lia.
Qed.

(** Nothing is trimmed before a byte below 128 that is no white space. *)
Lemma trimStart_ascii c s :
  (nat_of_ascii c < 128)%nat → JS.isWhiteSpace c = false →
  JS.trimStart (String c s) = String c s.
Proof.
  intros Hc Hw. simpl. rewrite Hw.
  destruct s as [|c2 s]; [done|].
  unfold JS.isWhiteSpace2. rewrite bool_decide_false by lia.
  destruct s as [|c3 s]; [done|].
  unfold JS.isWhiteSpace3. by rewrite bool_decide_false by lia.
Qed.

Lemma trimStart_digit c s :
  isDigit c = true → JS.trimStart (String c s) = String c s.
Proof.
  intros Hc. apply trimStart_ascii; [|by apply isDigit_not_space].
  unfold isDigit in Hc. apply bool_decide_eq_true_1 in Hc. lia.
Qed.

(** One white-space character at the head of a value is skipped. *)
Lemma trimStart_whiteSpace w s :
  w ∈ whiteSpace → JS.trimStart (String.append w s) = JS.trimStart s.
Proof.
  unfold whiteSpace. intros Hw.
  repeat (apply elem_of_cons in Hw as [->|Hw]; [reflexivity|]).
  by apply elem_of_nil in Hw.
Qed.

Lemma stripSign_digit c s :
  isDigit c = true → JS.stripSign (String c s) = (1, String c s).
Proof.
  intros Hc. unfold JS.stripSign.
  assert (Ascii.eqb c "-" = false ∧ Ascii.eqb c "+" = false) as [-> ->]; [|done].
  split; apply Ascii.eqb_neq; intros ->; done.
Qed.

Lemma stripPrefix_allDigits s :
  allDigits s = true → JS.stripPrefix s = (10, s).
Proof.
  destruct s as [|c0 [|c1 s]]; [done..|]. simpl.
  intros [_ [Hc1 _]%andb_true_iff]%andb_true_iff.
  assert (Ascii.eqb c1 "x" = false ∧ Ascii.eqb c1 "X" = false) as [-> ->].
  { split; apply Ascii.eqb_neq; intros ->; done. }
  by rewrite andb_false_r.
Qed.

Lemma stripPrefix_not_digit c s :
  isDigit c = false → JS.stripPrefix (String c s) = (10, String c s).
Proof.
  intros Hc. destruct s as [|c1 s]; [done|]. simpl.
  assert (Ascii.eqb c "0" = false) as ->; [|done].
  apply Ascii.eqb_neq. intros ->. done.
Qed.

(** A run of decimal digits is read as the number it denotes, rounded. *)
Lemma parseInt_numeric s :
  isNumeric s = true → JS.parseInt s = JS.toNumber (decimalValue 0 s).
Proof.
  destruct s as [|c s]; [done|]. intros Hs.
  change (allDigits (String c s) = true) in Hs.
  pose proof Hs as [Hc Hs']%andb_true_iff.
  unfold JS.parseInt.
  rewrite (trimStart_digit c s Hc), (stripSign_digit c s Hc).
  rewrite (stripPrefix_allDigits _ Hs). simpl JS.parseDigits.
  rewrite digitValue_10_digit by done. simpl default.
  rewrite parseDigits_allDigits by done.
  f_equal. simpl decimalValue. lia.
Qed.

(** A value that does not begin with an integer reads as [NaN]. *)
Lemma parseInt_not_integer s :
  beginsWithInteger s = false → JS.parseInt s = JS.NaN.
Proof.
  unfold beginsWithInteger, JS.parseInt.
  destruct (JS.stripSign (JS.trimStart s)) as [sign s1]. simpl.
  destruct s1 as [|c0 s1]; [done|]. intros Hc0.
  rewrite (stripPrefix_not_digit _ _ Hc0).
  simpl. by rewrite digitValue_10_other.
Qed.

Lemma parseInt_undefined : JS.parseInt (JS.toString None) = JS.NaN.
Proof. reflexivity. Qed.

Lemma parseDigits_leading acc s rest :
  allDigits s = true →
  match rest with
  | String c _ => isDigit c = false
  | EmptyString => True
  end →
  JS.parseDigits 10 (Some acc) (String.append s rest)
  = Some (decimalValue acc s).
Proof.
  revert acc. induction s as [|c s IH]; intros acc Hs Hrest; simpl.
  - destruct rest as [|c rest]; [done|]. simpl.
    by rewrite digitValue_10_other.
  - apply andb_true_iff in Hs as [Hc Hs].
    rewrite digitValue_10_digit by done. simpl. by apply IH.
Qed.

Lemma parseDigits_hex acc h rest :
  allHexDigits h = true → endsHexNumeral rest →
  JS.parseDigits 16 acc (String.append h rest)
  = match h with
    | EmptyString => acc
    | String _ _ => Some (hexValue (default 0 acc) h)
    end.
Proof.
  revert acc. induction h as [|c h IH]; intros acc Hh Hrest; simpl.
  - destruct rest as [|c rest]; [done|]. simpl.
    by rewrite digitValue_16_other.
  - apply andb_true_iff in Hh as [Hc Hh].
    rewrite digitValue_16_digit by done. rewrite IH by done.
    by destruct h.
Qed.

Lemma stripPrefix_leading s rest :
  isNumeric s = true → endsNumeral s rest →
  JS.stripPrefix (String.append s rest) = (10, String.append s rest).
Proof.
  destruct s as [|c0 s]; [done|]. intros Hs Hrest. simpl in Hs.
  apply andb_true_iff in Hs as [Hc0 Hs].
  destruct s as [|c1 s]; simpl.
  - destruct rest as [|c rest]; [done|]. simpl.
    destruct Hrest as [_ Hx].
    destruct (Ascii.eqb_spec c0 "0") as [->|]; [|done].
    destruct (Hx eq_refl) as [Hx1 Hx2].
    apply Ascii.eqb_neq in Hx1, Hx2. by rewrite Hx1, Hx2.
  - simpl in Hs. apply andb_true_iff in Hs as [Hc1 _].
    assert (Ascii.eqb c1 "x" = false ∧ Ascii.eqb c1 "X" = false) as [-> ->].
    { split; apply Ascii.eqb_neq; intros ->; done. }
    by rewrite andb_false_r.
Qed.

(** A value that begins with a numeral is read as that numeral, rounded,
    whatever follows it. *)
Lemma parseInt_leading s rest :
  isNumeric s = true → endsNumeral s rest →
  JS.parseInt (String.append s rest) = JS.toNumber (decimalValue 0 s).
Proof.
  intros Hs Hrest. unfold JS.parseInt.
  pose proof (stripPrefix_leading s rest Hs Hrest) as Hpre.
  destruct s as [|c s]; [done|].
  change (allDigits (String c s) = true) in Hs.
  pose proof Hs as [Hc Hs']%andb_true_iff.
  change (String.append (String c s) rest) with (String c (String.append s rest)) in *.
  rewrite (trimStart_digit c _ Hc), (stripSign_digit c _ Hc), Hpre.
  simpl JS.parseDigits. rewrite digitValue_10_digit by done. simpl default.
  rewrite parseDigits_leading; [|done|].
  - f_equal. simpl decimalValue. lia.
  - destruct rest; [done|]. apply Hrest.
Qed.

(** A value that begins with "0x" or "0X" is read as the hexadecimal
    numeral that follows, rounded, and as [NaN] when none follows. *)
Lemma parseInt_hex x h rest :
  x = "x"%char ∨ x = "X"%char → allHexDigits h = true → endsHexNumeral rest →
  JS.parseInt (String "0" (String x (String.append h rest)))
  = match h with
    | EmptyString => JS.NaN
    | String _ _ => JS.toNumber (hexValue 0 h)
    end.
Proof.
  intros Hx Hh Hrest. unfold JS.parseInt.
  rewrite (trimStart_digit "0" _ eq_refl), (stripSign_digit "0" _ eq_refl).
  assert (JS.stripPrefix (String "0" (String x (String.append h rest)))
          = (16, String.append h rest)) as ->.
  { by destruct Hx as [-> | ->]. }
  rewrite parseDigits_hex by done.
  destruct h; [done|]. f_equal. simpl default. lia.
Qed.

(** ** Sorting *)

Global Instance descBy_total {A} (key : A → Z) : Total (descBy key).
Proof. intros a b. unfold descBy. lia. Qed.

Global Instance descBy_trans {A} (key : A → Z) : Transitive (descBy key).
Proof. intros a b c. unfold descBy. lia. Qed.

Lemma sortDesc_perm {A} (key : A → Z) (l : list A) : sortDesc key l ≡ₚ l.
Proof. apply merge_sort_Permutation. Qed.

Lemma sortDesc_sorted {A} (key : A → Z) (l : list A) :
  StronglySorted (descBy key) (sortDesc key l).
Proof. apply StronglySorted_merge_sort; apply _. Qed.

Lemma StronglySorted_take {A} (R : relation A) n l :
  StronglySorted R l → StronglySorted R (take n l).
Proof.
  intros H. rewrite <- (take_drop n l) in H.
  by apply StronglySorted_app in H as (_ & ? & _).
Qed.

Lemma StronglySorted_drop {A} (R : relation A) n l :
  StronglySorted R l → StronglySorted R (drop n l).
Proof.
  intros H. rewrite <- (take_drop n l) in H.
  by apply StronglySorted_app in H as (_ & _ & ?).
Qed.

(** ** Listing: pagination *)

Lemma skip_nonneg {A} n (l : list A) :
  0 ≤ n → skip n l = Some (drop (Z.to_nat n) l).
Proof. intros. unfold skip. by rewrite bool_decide_false by lia. Qed.

Lemma skip_neg {A} n (l : list A) : n < 0 → skip n l = None.
Proof. intros. unfold skip. by rewrite bool_decide_true by lia. Qed.

Lemma aggLimit_pos {A} n (l : list A) :
  0 < n → aggLimit n l = Some (take (Z.to_nat n) l).
Proof. intros. unfold aggLimit. by rewrite bool_decide_false by lia. Qed.

Lemma limit_nonzero {A} n (l : list A) :
  n ≠ 0 → limit n l = take (Z.to_nat (Z.abs n)) l.
Proof. intros. unfold limit. by rewrite bool_decide_false. Qed.

Lemma sublist_limit {A} n (l : list A) : limit n l `sublist_of` l.
Proof. unfold limit. case_bool_decide; [done|apply sublist_take]. Qed.

(** Page and limit are never read as 0 or NaN. *)
Lemma pagination_nonzero q :
  pagination q ≠ JS.Finite 0 ∧ pagination q ≠ JS.NaN.
Proof. by apply orElse_nonzero. Qed.

Lemma limitation_nonzero q :
  limitation q ≠ JS.Finite 0 ∧ limitation q ≠ JS.NaN.
Proof. by apply orElse_nonzero. Qed.

Lemma Blog_find_page_nonneg db f q start size :
  startIndex q = JS.Finite start → limitation q = JS.Finite size →
  0 ≤ start →
  Blog_find_page db f q
  = Some (populateAuthor db <$>
            take (Z.to_nat (Z.abs size))
              (drop (Z.to_nat start)
                 (applySort (sortQueryOf (q_sortBy q)) (Blog_find db f)))).
Proof.
  intros Hs Hl H. unfold Blog_find_page. rewrite Hs, Hl. simpl.
  rewrite skip_nonneg by done. simpl. rewrite limit_nonzero; [done|].
  intros ->. by apply (proj1 (limitation_nonzero q)).
Qed.

Lemma Blog_aggregate_nonneg db f q start size :
  startIndex q = JS.Finite start → limitation q = JS.Finite size →
  0 ≤ start → 0 < size →
  Blog_aggregate db f q
  = Some (take (Z.to_nat size)
            (drop (Z.to_nat start) (rankedByLikes db f))
          ≫= lookupUnwind db).
Proof.
  intros Hs Hl H1 H2. unfold Blog_aggregate. rewrite Hs, Hl. simpl.
  rewrite skip_nonneg by done. simpl. by rewrite aggLimit_pos.
Qed.

(** What a successful [find] page is made of. *)
Lemma Blog_find_page_inv db f q items :
  Blog_find_page db f q = Some items →
  ∃ start size,
    countOf SkipOfFind (startIndex q) = Some start
    ∧ countOf LimitOfFind (limitation q) = Some size
    ∧ 0 ≤ start
    ∧ items = populateAuthor db <$>
                limit size
                  (drop (Z.to_nat start)
                     (applySort (sortQueryOf (q_sortBy q)) (Blog_find db f))).
Proof.
  unfold Blog_find_page.
  destruct (countOf SkipOfFind _) as [start|]; [|done].
  destruct (countOf LimitOfFind _) as [size|]; simpl; unfold skip;
    case_bool_decide; try done.
  simpl. intros [= <-]. exists start, size.
  split; [done|]. split; [done|]. split; [lia|done].
Qed.

(** What a successful aggregation is made of. *)
Lemma Blog_aggregate_inv db f q items :
  Blog_aggregate db f q = Some items →
  ∃ start size,
    countOf SkipStage (startIndex q) = Some start
    ∧ countOf LimitStage (limitation q) = Some size
    ∧ 0 ≤ start ∧ 0 < size
    ∧ items = take (Z.to_nat size)
                (drop (Z.to_nat start) (rankedByLikes db f))
              ≫= lookupUnwind db.
Proof.
  unfold Blog_aggregate.
  destruct (countOf SkipStage _) as [start|]; [|done].
  destruct (countOf LimitStage _) as [size|]; simpl; unfold skip, aggLimit;
    repeat case_bool_decide; simpl; try done.
  intros [= <-]. exists start, size.
  split; [done|]. split; [done|]. split; [lia|]. split; [lia|done].
Qed.

(** The offset is the exact product while the operands stay small. *)
Lemma startIndex_exact q p l :
  pagination q = JS.Finite p → limitation q = JS.Finite l →
  Z.abs (p - 1) < 2 ^ 53 → Z.abs ((p - 1) * l) < 2 ^ 53 →
  startIndex q = JS.Finite ((p - 1) * l).
Proof.
  intros Hp Hl H1 H2. unfold startIndex. rewrite Hp, Hl. simpl.
  rewrite toNumber_small by done. simpl. by rewrite toNumber_small.
Qed.

(** C9, as amended: the offset handed to the query is (page-1)*limit in
    double arithmetic, the exact product while page-1 and the product stay
    below 2^53 in magnitude. Page and limit are 1 and 10 when the parameter is
    absent, when its value after white space and a sign does not begin with a
    digit, or when it reads as 0. A value that begins with a decimal numeral
    is read as that numeral, rounded to the nearest double and exact below
    2^53, whatever follows it, unless the numeral is a lone 0 followed by x or
    X; a value that begins with 0x or 0X is read as the hexadecimal numeral
    that follows, and falls back to the default when none follows. With an
    offset that is a non-negative integer and a limit that is an integer, the
    sorted matches are dropped up to the offset and cut at |limit|, the limit
    being positive for the sort key "mostLiked". *)
Theorem getAllBlog_offset (db : Db) (q : ListQuery) :
  startIndex q = JS.mul (JS.sub (pagination q) (JS.Finite 1)) (limitation q)
  ∧ (∀ p l, pagination q = JS.Finite p → limitation q = JS.Finite l →
       Z.abs (p - 1) < 2 ^ 53 → Z.abs ((p - 1) * l) < 2 ^ 53 →
       startIndex q = JS.Finite ((p - 1) * l))
  ∧ (q_page q = None → pagination q = JS.Finite 1)
  ∧ (q_limit q = None → limitation q = JS.Finite 10)
  ∧ (∀ v, q_page q = Some v → beginsWithInteger v = false →
       pagination q = JS.Finite 1)
  ∧ (∀ v, q_limit q = Some v → beginsWithInteger v = false →
       limitation q = JS.Finite 10)
  ∧ (∀ s rest, q_page q = Some (String.append s rest) →
       isNumeric s = true → endsNumeral s rest →
       pagination q = if bool_decide (decimalValue 0 s = 0) then JS.Finite 1
                      else JS.toNumber (decimalValue 0 s))
  ∧ (∀ s rest, q_limit q = Some (String.append s rest) →
       isNumeric s = true → endsNumeral s rest →
       limitation q = if bool_decide (decimalValue 0 s = 0) then JS.Finite 10
                      else JS.toNumber (decimalValue 0 s))
  ∧ (∀ x h rest,
       q_page q = Some (String "0" (String x (String.append h rest))) →
       x = "x"%char ∨ x = "X"%char →
       allHexDigits h = true → endsHexNumeral rest →
       pagination q = if bool_decide (hexValue 0 h = 0) then JS.Finite 1
                      else JS.toNumber (hexValue 0 h))
  ∧ (∀ x h rest,
       q_limit q = Some (String "0" (String x (String.append h rest))) →
       x = "x"%char ∨ x = "X"%char →
       allHexDigits h = true → endsHexNumeral rest →
       limitation q = if bool_decide (hexValue 0 h = 0) then JS.Finite 10
                      else JS.toNumber (hexValue 0 h))
  ∧ (∀ n, Z.abs n < 2 ^ 53 → JS.toNumber n = JS.Finite n)
  ∧ (∀ f start size,
       startIndex q = JS.Finite start → limitation q = JS.Finite size →
       0 ≤ start →
       Blog_find_page db f q
       = Some (populateAuthor db <$>
                 take (Z.to_nat (Z.abs size))
                   (drop (Z.to_nat start)
                      (applySort (sortQueryOf (q_sortBy q)) (Blog_find db f))))
       ∧ (0 < size →
          Blog_aggregate db f q
          = Some (take (Z.to_nat size)
                    (drop (Z.to_nat start) (rankedByLikes db f))
                  ≫= lookupUnwind db))).
Proof.
  assert (∀ x h rest d, x = "x"%char ∨ x = "X"%char →
            allHexDigits h = true → endsHexNumeral rest →
            JS.orElse
              (JS.parseInt (String "0" (String x (String.append h rest)))) d
            = if bool_decide (hexValue 0 h = 0) then d
              else JS.toNumber (hexValue 0 h)) as Hhex.
  { intros x h rest d Hx Hh Hrest. rewrite parseInt_hex by done.
    destruct h as [|c h]; [done|]. apply orElse_toNumber. }
  split; [done|].
  split; [apply startIndex_exact|].
  unfold pagination, limitation.
  split; [by intros ->|].
  split; [by intros ->|].
  split; [intros v -> Hv; simpl; by rewrite parseInt_not_integer|].
  split; [intros v -> Hv; simpl; by rewrite parseInt_not_integer|].
  split.
  { intros s rest -> Hs Hr. simpl JS.toString.
    rewrite parseInt_leading by done. apply orElse_toNumber. }
  split.
  { intros s rest -> Hs Hr. simpl JS.toString.
    rewrite parseInt_leading by done. apply orElse_toNumber. }
  split; [intros x h rest -> Hx Hh Hr; by apply Hhex|].
  split; [intros x h rest -> Hx Hh Hr; by apply Hhex|].
  split; [apply toNumber_small|].
  intros f start size Hstart Hsize Hnonneg. split.
  - by apply Blog_find_page_nonneg.
  - intros Hlim. by apply Blog_aggregate_nonneg.
Qed.

(** ** Listing: the tag filter *)

Lemma truthy_nonempty v : v ≠ "" → JS.truthy (Some v) = Some v.
Proof. by destruct v. Qed.

Lemma isValidTag_true (tagArray : list string) :
  forallb (λ tag, bool_decide (tag ∈ BLOG_TAGS)) tagArray = true
  ↔ ∀ t, t ∈ tagArray → t ∈ BLOG_TAGS.
Proof.
  rewrite forallb_forall. split.
  - intros H t Ht. apply list_elem_of_In in Ht.
    by apply (bool_decide_eq_true_1 _ (H t Ht)).
  - intros H t Ht. apply list_elem_of_In in Ht.
    by apply bool_decide_eq_true_2, H.
Qed.

(** The filter a request with acceptable tags builds keeps those tags. *)
Lemma buildFilter_tags q ts f :
  q_tags q = Some ts → ts ≠ "" →
  buildFilter q = inr f → f_tags f = Some (JS.split "," ts).
Proof.
  intros Hq Hne. unfold buildFilter. rewrite Hq, truthy_nonempty by done.
  destruct (negb _); [done|].
  destruct (JS.truthy (q_title q)) as [t|]; [destruct (RegExp_i t)|];
    intros [= <-]; done.
Qed.

Lemma matchesFilter_tags f d tagArray :
  f_tags f = Some tagArray → matchesFilter f d = true →
  ∃ t, t ∈ tags d.2 ∧ t ∈ tagArray.
Proof.
  unfold matchesFilter. intros -> [H _]%andb_true_iff.
  apply existsb_exists in H as (t & Ht & Hin).
  exists t. split; [by apply list_elem_of_In|by apply bool_decide_eq_true_1 in Hin].
Qed.

Lemma elem_of_Blog_find db f d :
  d ∈ Blog_find db f ↔ blogs db !! d.1 = Some d.2 ∧ matchesFilter f d = true.
Proof.
  unfold Blog_find. rewrite list_elem_of_filter, Is_true_true.
  destruct d as [k b]. rewrite elem_of_map_to_list. simpl.
  split; intros [? ?]; by split.
Qed.

Lemma elem_of_applySort sq (l : list (ObjectId * Blog)) d :
  d ∈ applySort sq l ↔ d ∈ l.
Proof.
  destruct sq; simpl; unfold sortDesc; by rewrite merge_sort_Permutation.
Qed.

Lemma elem_of_limit {A} n (l : list A) x : x ∈ limit n l → x ∈ l.
Proof. unfold limit. case_bool_decide; [done|apply subseteq_take]. Qed.

Lemma elem_of_lookupUnwind db d item :
  item ∈ lookupUnwind db d →
  l_doc item = d ∧ l_likesCount item = Some (likesCount d)
  ∧ l_author item = users db !! author d.2 ∧ is_Some (users db !! author d.2).
Proof.
  unfold lookupUnwind. destruct (users db !! author d.2) as [u|] eqn:Hu.
  - intros ->%list_elem_of_singleton. simpl. eauto.
  - by intros ?%elem_of_nil.
Qed.

(** Every listed post is a stored post that matches the filter. *)
Lemma Blog_find_page_matches db f q items item :
  Blog_find_page db f q = Some items → item ∈ items →
  l_doc item ∈ Blog_find db f.
Proof.
  intros (start & size & _ & _ & _ & ->)%Blog_find_page_inv Hin.
  apply list_elem_of_fmap in Hin as (d & -> & Hd). simpl.
  apply elem_of_limit, subseteq_drop in Hd.
  by apply elem_of_applySort in Hd.
Qed.

Lemma Blog_aggregate_matches db f q items item :
  Blog_aggregate db f q = Some items → item ∈ items →
  l_doc item ∈ Blog_find db f.
Proof.
  intros (start & size & _ & _ & _ & _ & ->)%Blog_aggregate_inv Hin.
  apply list_elem_of_bind in Hin as (d & Hitem & Hd).
  apply elem_of_lookupUnwind in Hitem as (-> & _).
  apply subseteq_take, subseteq_drop in Hd.
  unfold rankedByLikes, sortDesc in Hd.
  by rewrite merge_sort_Permutation in Hd.
Qed.

Lemma getAllBlog_data_matches db q f status body item :
  buildFilter q = inr f →
  getAllBlog db q = Respond status body → item ∈ data body →
  l_doc item ∈ Blog_find db f.
Proof.
  unfold getAllBlog. intros -> H Hin.
  destruct (isMostLiked q).
  - destruct (Blog_aggregate db f q) as [items|] eqn:Hq; [|done].
    case_bool_decide; [done|]. injection H as _ <-.
    by eapply Blog_aggregate_matches.
  - destruct (Blog_find_page db f q) as [items|] eqn:Hq; [|done].
    case_bool_decide; [done|]. injection H as _ <-.
    by eapply Blog_find_page_matches.
Qed.

(** C6: a tags parameter with a member outside the vocabulary ends the
    handler with the error "Invalid tags" while the filter is built, whatever
    the store holds; when every member is in the vocabulary, every post of a
    successful response carries at least one of the given tags. *)
Theorem getAllBlog_tags (db : Db) (q : ListQuery) (ts : string) :
  q_tags q = Some ts → ts ≠ "" →
  ((∃ t, t ∈ JS.split "," ts ∧ t ∉ BLOG_TAGS) →
     buildFilter q = inl (Next InvalidTags)
     ∧ getAllBlog db q = Next InvalidTags)
  ∧ ((∀ t, t ∈ JS.split "," ts → t ∈ BLOG_TAGS) →
     ∀ status body, getAllBlog db q = Respond status body →
     ∀ item, item ∈ data body →
     ∃ t, t ∈ tags (l_doc item).2 ∧ t ∈ JS.split "," ts).
Proof.
  intros Hq Hne. split.
  - intros (t & Hin & Hout).
    assert (buildFilter q = inl (Next InvalidTags)) as Hb.
    { unfold buildFilter. rewrite Hq, truthy_nonempty by done.
      destruct (forallb _ _) eqn:Hall; [|done].
      destruct Hout. by apply (proj1 (isValidTag_true _) Hall). }
    split; [done|]. unfold getAllBlog. by rewrite Hb.
  - intros Hall status body Hres item Hin.
    destruct (buildFilter q) as [out|f] eqn:Hb.
    { exfalso. unfold getAllBlog in Hres. rewrite Hb in Hres.
      unfold buildFilter in Hb. rewrite Hq, truthy_nonempty in Hb by done.
      apply isValidTag_true in Hall. rewrite Hall in Hb. simpl in Hb.
      destruct (JS.truthy (q_title q)) as [t|]; [destruct (RegExp_i t)|];
        simplify_eq. }
    pose proof (getAllBlog_data_matches _ _ _ _ _ _ Hb Hres Hin) as Hm.
    apply elem_of_Blog_find in Hm as [_ Hm].
    eapply matchesFilter_tags; [|done]. by eapply buildFilter_tags.
Qed.

(** ** Listing: the most-liked ranking *)

(** The [find] branch never sorts on the likes array: the sort key that
    would ask for it sends the handler to the aggregation. *)
Lemma sortLikes_only_aggregates q :
  isMostLiked q = false → sortQueryOf (q_sortBy q) ≠ SortLikes.
Proof.
  unfold isMostLiked, sortQueryOf. destruct (q_sortBy q) as [s|]; [|done].
  intros ->. by destruct (String.eqb s "mostViewed").
Qed.

Lemma StronglySorted_lookup {A} (R : relation A) l i j a b :
  StronglySorted R l → (i < j)%nat →
  l !! i = Some a → l !! j = Some b → R a b.
Proof.
  intros Hs. revert i j. induction Hs as [|x l Hs IH Hall]; intros i j Hij Hi Hj.
  - done.
  - destruct j as [|j]; [lia|]. destruct i as [|i]; simpl in *.
    + injection Hi as ->. rewrite Forall_forall in Hall.
      apply Hall. by eapply list_elem_of_lookup_2.
    + eapply (IH i j); [lia|done..].
Qed.

Lemma rankedByLikes_perm db f : rankedByLikes db f ≡ₚ Blog_find db f.
Proof. apply sortDesc_perm. Qed.

Lemma rankedByLikes_sorted db f i j (a b : ObjectId * Blog) :
  (i < j)%nat →
  rankedByLikes db f !! i = Some a → rankedByLikes db f !! j = Some b →
  (length (likes b.2) ≤ length (likes a.2))%nat.
Proof.
  intros Hij Hi Hj.
  pose proof (StronglySorted_lookup _ _ _ _ _ _
                (sortDesc_sorted likesCount (Blog_find db f)) Hij Hi Hj) as H.
  unfold descBy, likesCount in H. lia.
Qed.

(** The join keeps the posts whose author is stored, in their order. *)
Lemma lookupUnwind_docs db (l : list (ObjectId * Blog)) :
  l_doc <$> (l ≫= lookupUnwind db)
  = filter (λ d, is_Some (users db !! author d.2)) l.
Proof.
  induction l as [|d l IH]; [done|].
  rewrite bind_cons, fmap_app, IH, filter_cons.
  unfold lookupUnwind at 1.
  destruct (users db !! author d.2) as [u|] eqn:Hu.
  - rewrite decide_True by eauto. done.
  - rewrite decide_False by (by intros [? ?]). done.
Qed.

Lemma lookupUnwind_all db (l : list (ObjectId * Blog)) :
  Forall (λ d, is_Some (users db !! author d.2)) l →
  l_doc <$> (l ≫= lookupUnwind db) = l.
Proof.
  intros H. rewrite lookupUnwind_docs.
  induction H as [|d l Hd Hl IH]; [done|].
  rewrite filter_cons, decide_True by done. by rewrite IH.
Qed.

Lemma isMostLiked_true q : q_sortBy q = Some "mostLiked" → isMostLiked q = true.
Proof. unfold isMostLiked. by intros ->. Qed.

(** The ranking by likes, when every post of the page was written by a
    stored user: with the sort key "mostLiked", an offset that is a
    non-negative integer and a positive limit, the matching posts are ranked
    by the size of their likes sets, largest first, and the response carries
    the posts of that ranking from the offset on, at most limit of them, each
    with the count taken from its likes set; with page 2 and limit 5 over 12
    matching posts these are the posts ranked 6th to 10th. *)
Theorem getAllBlog_mostLiked
    (db : Db) (q : ListQuery) (f : FilterQuery) (start size : Z) :
  q_sortBy q = Some "mostLiked" →
  buildFilter q = inr f →
  startIndex q = JS.Finite start → limitation q = JS.Finite size →
  0 ≤ start → 0 < size →
  let ranked := rankedByLikes db f in
  let page := take (Z.to_nat size) (drop (Z.to_nat start) ranked) in
  Forall (λ d, is_Some (users db !! author d.2)) page →
  ranked ≡ₚ Blog_find db f
  ∧ (∀ i j a b, (i < j)%nat → ranked !! i = Some a → ranked !! j = Some b →
       (length (likes b.2) ≤ length (likes a.2))%nat)
  ∧ (page = [] → getAllBlog db q = Next (NotFound "No blog found"))
  ∧ (page ≠ [] →
     ∃ items,
       getAllBlog db q
       = Respond 200 {| results := length page; data := items |}
       ∧ l_doc <$> items = page
       ∧ ∀ item, item ∈ items →
           l_likesCount item
           = Some (Z.of_nat (length (likes (l_doc item).2))))
  ∧ (q_page q = Some "2" → q_limit q = Some "5" →
     length (Blog_find db f) = 12%nat →
     length page = 5%nat
     ∧ ∀ i, (i < 5)%nat → page !! i = ranked !! (5 + i)%nat).
Proof.
  intros Hsort Hb Hs Hl Hstart Hlim ranked page Hauthors.
  assert (l_doc <$> (page ≫= lookupUnwind db) = page) as Hdocs
    by (by apply lookupUnwind_all).
  assert (length (page ≫= lookupUnwind db) = length page) as Hlen.
  { by rewrite <- Hdocs at 2; rewrite length_fmap. }
  assert (getAllBlog db q
          = if bool_decide (length page = 0%nat)
            then Next (NotFound "No blog found")
            else Respond 200 {| results := length page;
                                data := page ≫= lookupUnwind db |}) as Hget.
  { unfold getAllBlog. rewrite Hb, (isMostLiked_true q Hsort).
    rewrite (Blog_aggregate_nonneg db f q start size) by done.
    fold ranked. fold page. by rewrite Hlen. }
  split; [apply rankedByLikes_perm|].
  split; [apply rankedByLikes_sorted|].
  split.
  { intros Hnil. rewrite Hget, Hnil. done. }
  split.
  { intros Hne. exists (page ≫= lookupUnwind db). rewrite Hget.
    rewrite bool_decide_false by (by destruct page).
    split; [done|]. split; [done|].
    intros item (d & Hitem & _)%list_elem_of_bind.
    by apply elem_of_lookupUnwind in Hitem as (-> & -> & _). }
  intros Hp Hl5 H12.
  assert (size = 5) as ->.
  { unfold limitation in Hl. rewrite Hl5 in Hl. vm_compute in Hl. congruence. }
  assert (start = 5) as ->.
  { unfold startIndex, pagination, limitation in Hs. rewrite Hp, Hl5 in Hs.
    vm_compute in Hs. congruence. }
  assert (length ranked = 12%nat) as Hr12.
  { unfold ranked. by rewrite rankedByLikes_perm. }
  unfold page. split.
  - rewrite length_take, length_drop, Hr12. done.
  - intros i Hi. rewrite lookup_take_lt by lia.
    by rewrite lookup_drop.
Qed.

(** ** Views *)

Lemma occurrences_fresh who l :
  who ∉ l → occurrences who (l ++ [who]) = 1%nat.
Proof.
  unfold occurrences. intros Hnot. rewrite filter_app, length_app.
  rewrite filter_cons, decide_True by done. simpl.
  induction l as [|x l IH]; [done|].
  apply not_elem_of_cons in Hnot as [Hx Hl].
  rewrite filter_cons, decide_False by done. by apply IH.
Qed.

Lemma occurrences_other who x l :
  x ≠ who → occurrences who (l ++ [x]) = occurrences who l.
Proof.
  unfold occurrences. intros Hne. rewrite filter_app, length_app.
  rewrite filter_cons, decide_False by done. simpl. lia.
Qed.

(** A first view: the counter goes up by one and the viewer is recorded. *)
Lemma getOneBlog_new db r b :
  blogs db !! one_id r = Some b → userIdentifier r ∉ viewedBy b →
  getOneBlog db r
  = (withBlogs db (<[one_id r := withView b (userIdentifier r)]> (blogs db)),
     Respond 200
       {| o_likes := length (likes b);
          o_dislikes := length (dislikes b);
          o_views := views b + 1;
          o_data := (one_id r, withView b (userIdentifier r));
          o_author := selectAuthor <$> users db !! author b;
          o_comments := commentsOf db (one_id r) |}).
Proof.
  intros Hb Hnew. unfold getOneBlog. rewrite Hb.
  by rewrite bool_decide_false by done.
Qed.

(** A repeated view: the store is left as it is. *)
Lemma getOneBlog_seen db r b :
  blogs db !! one_id r = Some b → userIdentifier r ∈ viewedBy b →
  (getOneBlog db r).1 = db.
Proof.
  intros Hb Hseen. unfold getOneBlog. rewrite Hb.
  by rewrite bool_decide_true by done.
Qed.

(** C2: for every stored post and every viewer identity, a second call
    with the same identity leaves the store as the first call left it. When
    the post has not recorded the identity, the two calls raise views by
    exactly 1 in total and record the identity once (when it has, they change
    nothing); and a call by a second, distinct and unrecorded identity raises
    views by exactly 1 more and records that identity once too. *)
Theorem getOneBlog_views (db : Db) (r : OneReq) (b : Blog) :
  blogs db !! one_id r = Some b →
  let db1 := (getOneBlog db r).1 in
  let db2 := (getOneBlog db1 r).1 in
  db2 = db1
  ∧ (userIdentifier r ∈ viewedBy b → db1 = db)
  ∧ (userIdentifier r ∉ viewedBy b →
     (∃ b1, blogs db1 !! one_id r = Some b1 ∧ views b1 = views b + 1)
     ∧ (∃ b2, blogs db2 !! one_id r = Some b2
              ∧ views b2 = views b + 1
              ∧ occurrences (userIdentifier r) (viewedBy b2) = 1%nat)
     ∧ (∀ r', one_id r' = one_id r →
              userIdentifier r' ≠ userIdentifier r →
              userIdentifier r' ∉ viewedBy b →
              ∃ b3, blogs (getOneBlog db1 r').1 !! one_id r = Some b3
                    ∧ views b3 = views b + 1 + 1
                    ∧ occurrences (userIdentifier r) (viewedBy b3) = 1%nat
                    ∧ occurrences (userIdentifier r') (viewedBy b3) = 1%nat)).
Proof.
  intros Hb db1 db2.
  destruct (decide (userIdentifier r ∈ viewedBy b)) as [Hseen|Hnew].
  { assert (db1 = db) as Hdb1 by by apply (getOneBlog_seen db r b).
    split; [|split; [done|done]].
    unfold db2. rewrite Hdb1. by apply (getOneBlog_seen db r b). }
  set (b1 := withView b (userIdentifier r)).
  assert (db1 = withBlogs db (<[one_id r := b1]> (blogs db))) as Hdb1.
  { unfold db1. by rewrite (getOneBlog_new db r b). }
  assert (blogs db1 !! one_id r = Some b1) as Hb1.
  { rewrite Hdb1. simpl. apply lookup_insert_eq. }
  assert (db2 = db1) as Hdb2.
  { unfold db2. apply (getOneBlog_seen db1 r b1 Hb1).
    simpl. apply elem_of_app. right. apply list_elem_of_singleton. done. }
  split; [done|]. split; [done|]. intros _.
  split; [by exists b1|]. split.
  { exists b1. rewrite Hdb2. split; [done|]. split; [done|].
    simpl. by apply occurrences_fresh. }
  intros r' Hid Hne Hnew'.
  assert (userIdentifier r' ∉ viewedBy b1) as Hnew1.
  { simpl. intros [?| ?%list_elem_of_singleton]%elem_of_app; done. }
  rewrite <- Hid in Hb1.
  exists (withView b1 (userIdentifier r')).
  rewrite (getOneBlog_new db1 r' b1 Hb1 Hnew1). simpl.
  rewrite Hid, lookup_insert_eq. split; [done|]. split; [done|]. split.
  - rewrite occurrences_other by done. by apply occurrences_fresh.
  - apply occurrences_fresh.
    intros [?| ?%list_elem_of_singleton]%elem_of_app; done.
Qed.

(** ** Reactions *)

Lemma elem_of_addToSet v u l : v ∈ addToSet u l ↔ v = u ∨ v ∈ l.
Proof.
  unfold addToSet. case_bool_decide.
  - split; [by right|]. by intros [->|].
  - rewrite elem_of_app, list_elem_of_singleton.
    split; (intros [?|?]; [by right|by left]).
Qed.

Lemma elem_of_pull v u l : v ∈ pull u l ↔ v ≠ u ∧ v ∈ l.
Proof. unfold pull. apply (list_elem_of_filter (λ y, y ≠ u)). Qed.

Lemma addToSet_member u l : u ∈ l → addToSet u l = l.
Proof. intros. unfold addToSet. by rewrite bool_decide_true. Qed.

Lemma pull_absent u l : u ∉ l → pull u l = l.
Proof.
  unfold pull. induction l as [|x l IH]; [done|].
  intros [Hx Hl]%not_elem_of_cons.
  rewrite filter_cons, decide_True by done. by rewrite IH.
Qed.

Lemma applyReact_exclusive react who b :
  exclusiveReactions b → exclusiveReactions (applyReact react who b).
Proof.
  intros Hex v. destruct react as [[]|]; simpl; [..|apply Hex].
  - rewrite elem_of_addToSet, elem_of_pull.
    intros [[->|Hl] [Hne Hd]]; [done|]. by apply (Hex v).
  - rewrite elem_of_addToSet, elem_of_pull.
    intros [[Hne Hl] [->|Hd]]; [done|]. by apply (Hex v).
Qed.

Lemma applyReact_idem react who b :
  applyReact react who (applyReact react who b) = applyReact react who b.
Proof.
  destruct react as [[]|]; simpl; [..|done]; unfold withReactions; simpl;
    f_equal.
  - apply addToSet_member, elem_of_addToSet. by left.
  - apply pull_absent. rewrite elem_of_pull. by intros [? _].
  - apply pull_absent. rewrite elem_of_pull. by intros [? _].
  - apply addToSet_member, elem_of_addToSet. by left.
Qed.

(** What a request does to the stored posts. *)
Lemma reactToblog_blogs db r :
  blogs (reactToblog db r).1
  = if validReaction (re_reaction r)
    then match blogs db !! re_blogId r with
         | Some stored =>
             <[re_blogId r :=
                 applyReact (reactOf (re_reaction r)) (re_user r) stored]>
               (blogs db)
         | None => blogs db
         end
    else blogs db.
Proof.
  unfold reactToblog. destruct (validReaction _); simpl; [|done].
  by destruct (blogs db !! re_blogId r).
Qed.

Lemma reactToblog_preserves db r id b :
  blogs db !! id = Some b → exclusiveReactions b →
  ∃ b', blogs (reactToblog db r).1 !! id = Some b' ∧ exclusiveReactions b'.
Proof.
  intros Hb Hex. rewrite reactToblog_blogs.
  destruct (validReaction _); [|eauto].
  destruct (blogs db !! re_blogId r) as [stored|] eqn:Hs; [|eauto].
  destruct (decide (re_blogId r = id)) as [Heq|Hne].
  - rewrite Heq in *. rewrite lookup_insert_eq. eexists. split; [done|].
    apply applyReact_exclusive. rewrite Hb in Hs. by injection Hs as <-.
  - rewrite lookup_insert_ne by done. eauto.
Qed.

Lemma reactAll_preserves rs : ∀ db id b,
  blogs db !! id = Some b → exclusiveReactions b →
  ∃ b', blogs (reactAll db rs) !! id = Some b' ∧ exclusiveReactions b'.
Proof.
  induction rs as [|r rs IH]; intros db id b Hb Hex; [by eauto|].
  destruct (reactToblog_preserves db r id b Hb Hex) as (b1 & Hb1 & Hex1).
  simpl. by apply (IH _ id b1).
Qed.

(** C3: from a post in which no user is in both sets, no sequence of
    reaction requests leads to a post in which some user is; and one accepted
    request puts the caller into the set of the reaction and takes the caller
    out of the opposite set. *)
Theorem reactToblog_exclusive (db : Db) (id : ObjectId) (b : Blog) :
  blogs db !! id = Some b →
  exclusiveReactions b →
  (∀ rs, ∃ b', blogs (reactAll db rs) !! id = Some b' ∧ exclusiveReactions b')
  ∧ (∀ r, re_blogId r = id → validReaction (re_reaction r) = true →
       ∃ b', blogs (reactToblog db r).1 !! id = Some b'
             ∧ (re_reaction r = Some "like" →
                  likes b' = addToSet (re_user r) (likes b)
                  ∧ dislikes b' = pull (re_user r) (dislikes b)
                  ∧ re_user r ∈ likes b' ∧ re_user r ∉ dislikes b')
             ∧ (re_reaction r = Some "dislike" →
                  dislikes b' = addToSet (re_user r) (dislikes b)
                  ∧ likes b' = pull (re_user r) (likes b)
                  ∧ re_user r ∈ dislikes b' ∧ re_user r ∉ likes b')).
Proof.
  intros Hb Hex. split.
  - intros rs. by apply (reactAll_preserves rs db id b).
  - intros r <- Hvalid. rewrite reactToblog_blogs, Hvalid, Hb.
    rewrite lookup_insert_eq. eexists. split; [done|].
    split; intros ->; simpl; (split; [done|]); (split; [done|]);
      rewrite elem_of_addToSet, elem_of_pull; split; auto; by intros [? _].
Qed.

(** C10: handling the same reaction request a second time changes nothing:
    the store and the response are those of the first time, so the likes and
    dislikes of the post are those one application left. *)
Theorem reactToblog_idempotent (db : Db) (r : ReactReq) :
  reactToblog (reactToblog db r).1 r = reactToblog db r
  ∧ ∀ b1, blogs (reactToblog db r).1 !! re_blogId r = Some b1 →
      ∃ b2, blogs (reactToblog (reactToblog db r).1 r).1 !! re_blogId r = Some b2
            ∧ likes b2 = likes b1 ∧ dislikes b2 = dislikes b1.
Proof.
  assert (reactToblog (reactToblog db r).1 r = reactToblog db r) as Heq.
  { unfold reactToblog. destruct (validReaction (re_reaction r)); [|done].
    simpl. destruct (blogs db !! re_blogId r) as [stored|] eqn:Hs; simpl.
    - rewrite lookup_insert_eq, applyReact_idem. unfold withBlogs. simpl.
      by rewrite insert_insert_eq.
    - by rewrite Hs. }
  split; [done|]. intros b1 Hb1. rewrite Heq. eauto.
Qed.

(** ** Creating a post *)

Lemma withBlogs_same db : withBlogs db (blogs db) = db.
Proof. by destruct db. Qed.

Lemma withBlogs_withBlogs db m1 m2 :
  withBlogs (withBlogs db m1) m2 = withBlogs db m2.
Proof. done. Qed.

(** C4: when the post of a create request has been inserted and the upload
    of the request's cover image fails, the handler ends with the upload
    error of status 500 and the store is the one before the request: the
    post is not in it. *)
Theorem createBlog_cover_rollback
    (db : Db) (newId : ObjectId) (r : CreateReq) (file : File) (created : Blog) :
  Blog_new (bodyWithAuthor (cr_body r) (cr_user r)) = Some created →
  blogs db !! newId = None →
  cr_file r = Some file →
  uploadFileToCloudinary file = None →
  createBlog db newId r
  = (db, Next {| message := "Error uploading cover image to Cloudinary";
                 statusCode := Some 500 |})
  ∧ blogs (createBlog db newId r).1 !! newId = None.
Proof.
  intros Hnew Hfresh Hfile Hupload.
  assert (createBlog db newId r
          = (db, Next (UploadError "Error uploading cover image to Cloudinary")))
    as Heq.
  { unfold createBlog. rewrite Hnew, Hfresh, Hfile, Hupload. simpl.
    rewrite withBlogs_withBlogs, delete_insert_eq, delete_id by done.
    by rewrite withBlogs_same. }
  split; [done|]. by rewrite Heq.
Qed.

(** ** Deleting a post *)

Lemma deleteBlog_match db r b :
  blogs db !! del_id r = Some b → author b = del_user r →
  deleteBlog db r
  = ({| blogs := delete (del_id r) (blogs db);
        comments := Comment_deleteMany (comments db) (del_id r);
        users := users db |},
     Respond 200 {| msg := "deleted successfully"; m_data := None |}).
Proof.
  intros Hb Ha. unfold deleteBlog. rewrite Hb.
  by rewrite bool_decide_true by done.
Qed.

Lemma deleteBlog_no_match db r :
  ¬ (∃ b, blogs db !! del_id r = Some b ∧ author b = del_user r) →
  deleteBlog db r = (db, Next DeleteNotFound).
Proof.
  intros Hno. unfold deleteBlog.
  destruct (blogs db !! del_id r) as [b|] eqn:Hb; [|done].
  case_bool_decide; [|done]. destruct Hno. eauto.
Qed.

Lemma lookup_Comment_deleteMany cs id k c :
  Comment_deleteMany cs id !! k = Some c ↔ cs !! k = Some c ∧ blog c ≠ id.
Proof. unfold Comment_deleteMany. by rewrite map_lookup_filter_Some. Qed.

(** C7: when the post with the request's id is stored and its author is the
    requesting user, the handler answers 200, removes that post and no other,
    and keeps exactly the comments whose blog field is another id; otherwise
    it ends with the 404 error and the store is unchanged. Whatever the
    request, a post that is gone afterwards had the request's id and the
    requesting user as author. *)
Theorem deleteBlog_cascade (db : Db) (r : DeleteReq) :
  ((∃ b, blogs db !! del_id r = Some b ∧ author b = del_user r) →
     (deleteBlog db r).2
     = Respond 200 {| msg := "deleted successfully"; m_data := None |}
     ∧ blogs (deleteBlog db r).1 = delete (del_id r) (blogs db)
     ∧ (∀ k c, comments (deleteBlog db r).1 !! k = Some c
               ↔ comments db !! k = Some c ∧ blog c ≠ del_id r)
     ∧ users (deleteBlog db r).1 = users db)
  ∧ (¬ (∃ b, blogs db !! del_id r = Some b ∧ author b = del_user r) →
     deleteBlog db r
     = (db, Next {| message := "No blog found with this id or you are not authorized to delete this blog";
                    statusCode := Some 404 |}))
  ∧ (∀ k b, blogs db !! k = Some b → blogs (deleteBlog db r).1 !! k = None →
            k = del_id r ∧ author b = del_user r).
Proof.
  split; [|split].
  - intros (b & Hb & Ha). rewrite (deleteBlog_match db r b Hb Ha). simpl.
    split; [done|]. split; [done|]. split; [|done].
    intros k c. apply lookup_Comment_deleteMany.
  - apply deleteBlog_no_match.
  - intros k b Hk Hgone.
    destruct (blogs db !! del_id r) as [b0|] eqn:Hb0.
    + destruct (decide (author b0 = del_user r)) as [Ha|Ha].
      * rewrite (deleteBlog_match db r b0 Hb0 Ha) in Hgone. simpl in Hgone.
        apply lookup_delete_None in Hgone as [Hk'|Hnone]; [|congruence].
        rewrite <- Hk', Hb0 in Hk. injection Hk as <-. done.
      * rewrite deleteBlog_no_match in Hgone; [simpl in Hgone; congruence|].
        intros (b' & Hb' & Ha'). congruence.
    + rewrite deleteBlog_no_match in Hgone; [simpl in Hgone; congruence|].
      intros (b' & Hb' & _). congruence.
Qed.

(** ** An author's recent posts *)

Lemma elem_of_Blog_findByAuthor db a (d : ObjectId * Blog) :
  d ∈ Blog_findByAuthor db a ↔ blogs db !! d.1 = Some d.2 ∧ author d.2 = a.
Proof.
  unfold Blog_findByAuthor.
  rewrite (list_elem_of_filter (λ d : ObjectId * Blog, author d.2 = a)).
  destruct d as [k b]. rewrite elem_of_map_to_list. simpl.
  split; intros [? ?]; by split.
Qed.

Lemma NoDup_Blog_findByAuthor db a : NoDup (Blog_findByAuthor db a).
Proof. apply NoDup_filter, NoDup_map_to_list. Qed.

Lemma limit_4 {A} (l : list A) : limit 4 l = take 4 l.
Proof. done. Qed.

(** In a list sorted with the most recent first and without repetition, an
    element is among the first [n] as soon as fewer than [n] other elements
    are at least as recent. *)
Lemma recent_in_take (key : ObjectId * Blog → Z) (l sorted : list (ObjectId * Blog))
    (x : ObjectId * Blog) (n : nat) :
  sorted ≡ₚ l → StronglySorted (descBy key) sorted → NoDup l → x ∈ l →
  (length (filter (λ d, d ≠ x ∧ (key x ≤ key d)%Z) l) < n)%nat →
  x ∈ take n sorted.
Proof.
  intros Hperm Hsorted Hnodup Hx Hfew.
  rewrite <- Hperm in Hx, Hnodup.
  apply list_elem_of_split in Hx as (before & after & ->).
  apply StronglySorted_app in Hsorted as (Hrel & _ & _).
  apply NoDup_app in Hnodup as (Hnd1 & Hnotin & _).
  assert (before ⊆+ filter (λ d, d ≠ x ∧ key x ≤ key d) l) as Hsub.
  { apply NoDup_submseteq; [done|]. intros d Hd.
    apply (list_elem_of_filter (λ d, d ≠ x ∧ key x ≤ key d)).
    split; [split|].
    - intros ->. apply (Hnotin x Hd). by left.
    - apply (Hrel d x Hd). by left.
    - rewrite <- Hperm. apply elem_of_app. by left. }
  apply submseteq_length in Hsub.
  apply elem_of_take. exists (length before). split; [|lia].
  by rewrite lookup_app_r, Nat.sub_diag by lia.
Qed.

(** C8: a seed post that is not stored gives the 404 error; for a stored
    seed post the handler answers 200 with at most 4 posts, the most recent
    first, all stored with the author of the seed post, none of them older
    than a post of the author that was left out, and with the seed post among
    them whenever fewer than 4 other posts of the author are at least as
    recent. The handler also answers 404 when the query for the author's
    posts comes back empty. *)
Theorem getAuthorBlogs_recent (db : Db) (blogId : ObjectId) :
  (blogs db !! blogId = None →
     getAuthorBlogs db blogId
     = Next {| message := "Blog not found"; statusCode := Some 404 |})
  ∧ (∀ seed, blogs db !! blogId = Some seed →
     ∃ posts,
       getAuthorBlogs db blogId
       = Respond 200 {| results := length posts; data := posts |}
       ∧ (0 < length posts ≤ 4)%nat
       ∧ (∀ i j a b, (i < j)%nat → posts !! i = Some a → posts !! j = Some b →
            createdAt b.2 ≤ createdAt a.2)
       ∧ (∀ d, d ∈ posts →
            blogs db !! d.1 = Some d.2 ∧ author d.2 = author seed)
       ∧ (∀ d p, blogs db !! d.1 = Some d.2 → author d.2 = author seed →
            d ∉ posts → p ∈ posts → createdAt d.2 ≤ createdAt p.2)
       ∧ ((length (filter (λ d, d ≠ (blogId, seed)
                                ∧ (createdAt seed ≤ createdAt d.2)%Z)
                     (Blog_findByAuthor db (author seed))) < 4)%nat →
          (blogId, seed) ∈ posts))
  ∧ (∀ seed, blogs db !! blogId = Some seed →
     Blog_findByAuthor db (author seed) = [] →
     getAuthorBlogs db blogId
     = Next {| message := "No other blogs found by this author";
               statusCode := Some 404 |}).
Proof.
  split; [|split].
  - intros Hnone. unfold getAuthorBlogs. by rewrite Hnone.
  - intros seed Hseed.
    set (found := Blog_findByAuthor db (author seed)).
    set (sorted := sortDesc (λ d : ObjectId * Blog, createdAt d.2) found).
    assert (sorted ≡ₚ found) as Hperm by apply sortDesc_perm.
    assert (StronglySorted (descBy (λ d : ObjectId * Blog, createdAt d.2)) sorted)
      as Hsorted by apply sortDesc_sorted.
    assert ((blogId, seed) ∈ found) as Hin.
    { by apply elem_of_Blog_findByAuthor. }
    assert (getAuthorBlogs db blogId
            = if bool_decide (length (take 4 sorted) = 0%nat)
              then Next (NotFound "No other blogs found by this author")
              else Respond 200 {| results := length (take 4 sorted);
                                  data := take 4 sorted |}) as Hget.
    { unfold getAuthorBlogs. rewrite Hseed. done. }
    clearbody sorted.
    assert (0 < length sorted)%nat as Hlen.
    { rewrite Hperm. destruct found; [by apply elem_of_nil in Hin|simpl; lia]. }
    exists (take 4 sorted).
    split.
    { rewrite Hget, bool_decide_false; [done|]. rewrite length_take. lia. }
    split.
    { rewrite length_take. lia. }
    split.
    { intros i j a b Hij Hi Hj.
      apply (StronglySorted_lookup _ _ i j a b (StronglySorted_take _ 4 _ Hsorted) Hij Hi Hj). }
    split.
    { intros d Hd. apply subseteq_take in Hd. rewrite Hperm in Hd.
      by apply elem_of_Blog_findByAuthor in Hd. }
    split.
    { intros d p Hd Ha Hout Hp.
      assert (d ∈ sorted) as Hds.
      { rewrite Hperm. by apply elem_of_Blog_findByAuthor. }
      rewrite <- (take_drop 4 sorted) in Hds, Hsorted.
      apply elem_of_app in Hds as [?|Hds]; [done|].
      apply StronglySorted_app in Hsorted as (Hrel & _ & _).
      apply (Hrel p d Hp Hds). }
    intros Hfew.
    apply (recent_in_take (λ d, createdAt d.2) found sorted); try done.
    apply NoDup_Blog_findByAuthor.
  - intros seed Hseed Hempty. unfold getAuthorBlogs. rewrite Hseed. simpl.
    by rewrite Hempty.
Qed.

(** ** Updating a post *)

Lemma findOneAndUpdate_no_match db id userId body :
  Blog_updateValid body = true →
  ¬ (∃ b, blogs db !! id = Some b ∧ author b = userId) →
  findOneAndUpdate db id userId body = (db, Next UpdateNotFound).
Proof.
  intros Hvalid Hno. unfold findOneAndUpdate. rewrite Hvalid. simpl.
  destruct (blogs db !! id) as [b|] eqn:Hb; [|done].
  case_bool_decide; [|done]. destruct Hno. eauto.
Qed.

(** Without files, a request that matches no post of the user changes
    nothing and ends with the 404 error. *)
Lemma updateBlog_plain_no_match db r :
  up_file r = None → up_files r = [] →
  Blog_updateValid (up_body r) = true →
  ¬ (∃ b, blogs db !! up_id r = Some b ∧ author b = up_user r) →
  updateBlog db r = (db, Next UpdateNotFound).
Proof.
  intros Hfile Hfiles Hvalid Hno. unfold updateBlog.
  rewrite Hfile, Hfiles. simpl. by apply findOneAndUpdate_no_match.
Qed.

(** With gallery files, the post found by id alone receives the uploaded
    images before the query that checks the author ends with the 404
    error. *)
Lemma updateBlog_gallery_other_author db r b :
  blogs db !! up_id r = Some b → author b ≠ up_user r →
  up_file r = None → up_files r ≠ [] →
  Blog_updateValid (up_body r) = true →
  updateBlog db r
  = (withBlogs db (<[up_id r := appendGallery b (up_files r)]> (blogs db)),
     Next UpdateNotFound).
Proof.
  intros Hb Hauthor Hfile Hfiles Hvalid. unfold updateBlog.
  rewrite Hfile, Hb. rewrite bool_decide_true by (destruct (up_files r); [done|simpl; lia]).
  apply findOneAndUpdate_no_match; [done|]. simpl.
  rewrite lookup_insert_eq. intros (b' & [= <-] & Ha).
  apply Hauthor. rewrite <- Ha. unfold appendGallery.
  by case_bool_decide.
Qed.

(** With a cover file, a post that is not stored makes the handler end with
    the upload error. *)
Lemma updateBlog_cover_missing_post db r file :
  blogs db !! up_id r = None → up_file r = Some file →
  updateBlog db r = (db, Next (UploadError "Error uploading image to Cloudinary")).
Proof.
  intros Hb Hfile. unfold updateBlog. by rewrite Hfile, Hb.
Qed.

(** Proofs about the store alone set the collaborators aside before the
    solvers run, so that none of them ends up in the proof. *)
Ltac store_only :=
  try clear Blog_updateValid; try clear Blog_new;
  try clear deleteFileFromCloudinary;
  try clear uploadMultipleFilesToCloudinary;
  try clear uploadFileToCloudinary;
  try clear RegExp_i; try clear REACTIONS; try clear BLOG_TAGS;
  try clear nonFiniteCount.

(** ** Listing: what every response has in common *)

Lemma NoDup_Blog_find db f : NoDup (Blog_find db f).
Proof. apply NoDup_filter, NoDup_map_to_list. Qed.

Lemma applySort_perm sq (l : list (ObjectId * Blog)) : applySort sq l ≡ₚ l.
Proof. destruct sq; simpl; unfold sortDesc; apply merge_sort_Permutation. Qed.

Lemma populateAuthor_docs db (l : list (ObjectId * Blog)) :
  l_doc <$> (populateAuthor db <$> l) = l.
Proof.
  rewrite <- list_fmap_compose. rewrite <- (list_fmap_id l) at 2.
  by apply list_fmap_ext.
Qed.

(** A response is the non-empty result of one of the two queries. *)
Lemma getAllBlog_inv db q status body :
  getAllBlog db q = Respond status body →
  ∃ f items,
    buildFilter q = inr f
    ∧ (if isMostLiked q then Blog_aggregate db f q
       else Blog_find_page db f q) = Some items
    ∧ items ≠ [] ∧ status = 200
    ∧ body = {| results := length items; data := items |}.
Proof.
  unfold getAllBlog. destruct (buildFilter q) as [out|f] eqn:Hb.
  { intros ->. unfold buildFilter in Hb.
    destruct (JS.truthy (q_tags q)); [destruct (negb _)|];
      destruct (JS.truthy (q_title q)) as [t|]; try destruct (RegExp_i t);
      simplify_eq. }
  destruct (if isMostLiked q then _ else _) as [items|] eqn:Hq; [|done].
  case_bool_decide as Hlen; [done|]. intros [= <- <-].
  exists f, items. repeat split; [done|]. by intros ->.
Qed.

Lemma sublist_page {A} n m (l : list A) :
  take n (drop m l) `sublist_of` l.
Proof. etrans; [apply sublist_take|apply sublist_drop]. Qed.

(** X1: a response of the listing has status 200, announces as many results
    as it carries, carries at least one and, when the limit is an integer, at
    most |limit| of them, and lists no post twice. *)
Theorem getAllBlog_page_size (db : Db) (q : ListQuery) status body :
  getAllBlog db q = Respond status body →
  status = 200
  ∧ results body = length (data body)
  ∧ (0 < results body)%nat
  ∧ (∀ size, limitation q = JS.Finite size →
       Z.of_nat (results body) ≤ Z.abs size)
  ∧ NoDup (l_doc <$> data body).
Proof.
  intros (f & items & _ & Hq & Hne & -> & ->)%getAllBlog_inv. simpl.
  split; [done|]. split; [done|].
  split; [destruct items; [done|simpl; lia]|].
  destruct (isMostLiked q).
  - apply Blog_aggregate_inv in Hq as (start & n & _ & Hn & _ & Hlim & ->).
    pose proof (f_equal length (lookupUnwind_docs db
      (take (Z.to_nat n)
         (drop (Z.to_nat start) (rankedByLikes db f))))) as Hlen.
    rewrite length_fmap in Hlen. rewrite lookupUnwind_docs. split.
    + intros size Hsize. rewrite Hsize in Hn. injection Hn as ->.
      rewrite Hlen.
      pose proof (length_filter
        (λ d : ObjectId * Blog, is_Some (users db !! author d.2))
        (take (Z.to_nat n)
           (drop (Z.to_nat start) (rankedByLikes db f)))) as Hle.
      rewrite length_take in Hle. lia.
    + eapply sublist_NoDup; [|apply sublist_filter; apply _].
      eapply sublist_NoDup; [|apply sublist_page].
      rewrite rankedByLikes_perm. apply NoDup_Blog_find.
  - apply Blog_find_page_inv in Hq as (start & n & _ & Hn & _ & ->).
    rewrite populateAuthor_docs, length_fmap. split.
    + intros size Hsize. rewrite Hsize in Hn. injection Hn as ->.
      rewrite limit_nonzero, length_take; [lia|].
      intros ->. by apply (proj1 (limitation_nonzero q)).
    + eapply sublist_NoDup; [|etrans; [apply sublist_limit|apply sublist_drop]].
      rewrite applySort_perm. apply NoDup_Blog_find.
Qed.

Lemma sortQueryOf_mostViewed q :
  q_sortBy q = Some "mostViewed" → sortQueryOf (q_sortBy q) = SortViews.
Proof. by intros ->. Qed.

Lemma sortQueryOf_default q :
  isMostLiked q = false → q_sortBy q ≠ Some "mostViewed" →
  sortQueryOf (q_sortBy q) = SortCreatedAt.
Proof.
  unfold isMostLiked, sortQueryOf. destruct (q_sortBy q) as [s|]; [|done].
  intros -> Hne. destruct (String.eqb_spec s "mostViewed") as [->|]; done.
Qed.

Lemma StronglySorted_page {A} (R : relation A) n m l :
  StronglySorted R l → StronglySorted R (limit n (drop m l)).
Proof.
  intros. unfold limit. case_bool_decide.
  - by apply StronglySorted_drop.
  - by apply StronglySorted_take, StronglySorted_drop.
Qed.

(** X2: with a sort key other than "mostLiked", the response lists the
    matching posts from the offset on, up to the limit, as the database reads
    the two counts (as themselves when they are integers), in descending order
    of views for "mostViewed" and of creation time for every other key, drops
    none of them, and attaches to each the stored author of the post, or none
    when the author is not stored. *)
Theorem getAllBlog_find_order (db : Db) (q : ListQuery) status body :
  isMostLiked q = false →
  getAllBlog db q = Respond status body →
  (∃ f start size,
     buildFilter q = inr f
     ∧ countOf SkipOfFind (startIndex q) = Some start
     ∧ countOf LimitOfFind (limitation q) = Some size
     ∧ 0 ≤ start
     ∧ l_doc <$> data body
       = limit size
           (drop (Z.to_nat start)
              (applySort (sortQueryOf (q_sortBy q)) (Blog_find db f)))
     ∧ (∀ n m, startIndex q = JS.Finite n → limitation q = JS.Finite m →
          l_doc <$> data body
          = take (Z.to_nat (Z.abs m))
              (drop (Z.to_nat n)
                 (applySort (sortQueryOf (q_sortBy q)) (Blog_find db f)))))
  ∧ (∀ i j a b, (i < j)%nat →
       data body !! i = Some a → data body !! j = Some b →
       if bool_decide (q_sortBy q = Some "mostViewed")
       then views (l_doc b).2 ≤ views (l_doc a).2
       else createdAt (l_doc b).2 ≤ createdAt (l_doc a).2)
  ∧ (∀ item, item ∈ data body →
       l_author item = users db !! author (l_doc item).2
       ∧ l_likesCount item = None).
Proof.
  intros Hml (f & items & Hb & Hq & _ & -> & ->)%getAllBlog_inv.
  rewrite Hml in Hq.
  apply Blog_find_page_inv in Hq as (start & size & Hs & Hl & Hstart & ->).
  simpl. split.
  { exists f, start, size. split; [done|]. split; [done|]. split; [done|].
    split; [done|]. split; [apply populateAuthor_docs|].
    intros n m Hn Hm. rewrite Hn in Hs. rewrite Hm in Hl.
    injection Hs as ->. injection Hl as ->.
    rewrite populateAuthor_docs. apply limit_nonzero.
    intros ->. by apply (proj1 (limitation_nonzero q)). }
  split.
  - intros i j a b Hij Hi Hj.
    rewrite list_lookup_fmap in Hi, Hj.
    destruct (_ !! i) as [da|] eqn:Hda; [|done].
    destruct (_ !! j) as [db'|] eqn:Hdb; [|done].
    simpl in Hi, Hj. injection Hi as <-. injection Hj as <-. simpl.
    case_bool_decide as Hsort.
    + rewrite (sortQueryOf_mostViewed q Hsort) in Hda, Hdb.
      apply (StronglySorted_lookup _ _ i j da db'
               (StronglySorted_page _ _ _ _ (sortDesc_sorted _ _)) Hij Hda Hdb).
    + rewrite (sortQueryOf_default q Hml Hsort) in Hda, Hdb.
      apply (StronglySorted_lookup _ _ i j da db'
               (StronglySorted_page _ _ _ _ (sortDesc_sorted _ _)) Hij Hda Hdb).
  - intros item (d & -> & _)%list_elem_of_fmap. done.
Qed.

(** X3: with the sort key "mostLiked", an offset that is a non-negative
    integer and a positive limit, the response lists exactly the posts of the
    ranked page whose author is a stored user, in the order of the ranking and
    each with its author; when no post of the page has a stored author the
    handler ends with the 404 error. *)
Theorem getAllBlog_mostLiked_listed
    (db : Db) (q : ListQuery) (f : FilterQuery) (start size : Z) :
  q_sortBy q = Some "mostLiked" →
  buildFilter q = inr f →
  startIndex q = JS.Finite start → limitation q = JS.Finite size →
  0 ≤ start → 0 < size →
  let page :=
    take (Z.to_nat size) (drop (Z.to_nat start) (rankedByLikes db f)) in
  let kept := filter (λ d, is_Some (users db !! author d.2)) page in
  (kept = [] → getAllBlog db q = Next (NotFound "No blog found"))
  ∧ (kept ≠ [] →
     ∃ items,
       getAllBlog db q
       = Respond 200 {| results := length kept; data := items |}
       ∧ l_doc <$> items = kept
       ∧ ∀ item, item ∈ items →
           ∃ u, users db !! author (l_doc item).2 = Some u
                ∧ l_author item = Some u).
Proof.
  intros Hsort Hb Hs Hl Hstart Hlim page kept.
  assert (l_doc <$> (page ≫= lookupUnwind db) = kept) as Hdocs
    by apply lookupUnwind_docs.
  assert (length (page ≫= lookupUnwind db) = length kept) as Hlen.
  { by rewrite <- Hdocs, length_fmap. }
  assert (getAllBlog db q
          = if bool_decide (length kept = 0%nat)
            then Next (NotFound "No blog found")
            else Respond 200 {| results := length kept;
                                data := page ≫= lookupUnwind db |}) as Hget.
  { unfold getAllBlog. rewrite Hb, (isMostLiked_true q Hsort).
    rewrite (Blog_aggregate_nonneg db f q start size) by done.
    fold page. by rewrite Hlen. }
  split.
  - intros Hnil. by rewrite Hget, Hnil.
  - intros Hne. exists (page ≫= lookupUnwind db). rewrite Hget.
    rewrite bool_decide_false by (by destruct kept).
    split; [done|]. split; [done|].
    intros item (d & Hitem & _)%list_elem_of_bind.
    apply elem_of_lookupUnwind in Hitem as (-> & _ & -> & [u Hu]). eauto.
Qed.

(** X4: when the filter is accepted, the limit is an integer and the offset
    is an integer at or past the number of matching posts, the handler ends
    with the 404 error "No blog found" instead of an empty list; the one
    exception is the sort key "mostLiked" with a limit that is not positive,
    where the database refuses the pipeline and the handler ends with its
    exception. *)
Theorem getAllBlog_past_end
    (db : Db) (q : ListQuery) (f : FilterQuery) (start size : Z) :
  buildFilter q = inr f →
  startIndex q = JS.Finite start → limitation q = JS.Finite size →
  Z.of_nat (length (Blog_find db f)) ≤ start →
  getAllBlog db q
  = if isMostLiked q && bool_decide (size ≤ 0)
    then Throw "MongoServerError"
    else Next (NotFound "No blog found").
Proof.
  intros Hb Hs Hl Hpast. unfold getAllBlog. rewrite Hb.
  assert (0 ≤ start) as Hstart by lia.
  destruct (isMostLiked q); simpl.
  - case_bool_decide as Hsize.
    + unfold Blog_aggregate. rewrite Hs, Hl. simpl.
      rewrite skip_nonneg by done. simpl. unfold aggLimit.
      by rewrite bool_decide_true.
    + rewrite (Blog_aggregate_nonneg db f q start size) by (done || lia).
      rewrite drop_ge; [by rewrite take_nil|]. rewrite rankedByLikes_perm. lia.
  - rewrite (Blog_find_page_nonneg db f q start size) by done.
    rewrite drop_ge; [by rewrite take_nil|]. rewrite applySort_perm. lia.
Qed.

(** X5: page and limit are never read as 0 or NaN, and a filter that was
    accepted with an offset that is a negative integer makes the query fail
    with an exception instead of an answer. *)
Theorem getAllBlog_negative_offset (db : Db) (q : ListQuery) (f : FilterQuery) :
  pagination q ≠ JS.Finite 0 ∧ pagination q ≠ JS.NaN
  ∧ limitation q ≠ JS.Finite 0 ∧ limitation q ≠ JS.NaN
  ∧ (buildFilter q = inr f →
     ∀ start, startIndex q = JS.Finite start → start < 0 →
     getAllBlog db q = Throw "MongoServerError").
Proof.
  split; [apply pagination_nonzero|]. split; [apply pagination_nonzero|].
  split; [apply limitation_nonzero|]. split; [apply limitation_nonzero|].
  intros Hb start Hs Hneg. unfold getAllBlog. rewrite Hb.
  unfold Blog_aggregate, Blog_find_page. rewrite Hs. simpl.
  rewrite !skip_neg by done.
  by destruct (isMostLiked q).
Qed.

(** X6: a title that is not a pattern ends the handler before any query:
    with the tag error when the tags name a tag outside the vocabulary, since
    the tags are checked first, and with the exception of the pattern when the
    tags are absent, empty or all in the vocabulary. With a title that is a
    pattern, the title of every listed post passes its test. *)
Theorem getAllBlog_title (db : Db) (q : ListQuery) (t : string) :
  q_title q = Some t → t ≠ "" →
  (RegExp_i t = None →
     (∀ ts, q_tags q = Some ts → ts ≠ "" →
        (∃ tag, tag ∈ JS.split "," ts ∧ tag ∉ BLOG_TAGS) →
        getAllBlog db q = Next InvalidTags)
     ∧ (q_tags q = None ∨ q_tags q = Some ""
        ∨ (∃ ts, q_tags q = Some ts
                 ∧ ∀ tag, tag ∈ JS.split "," ts → tag ∈ BLOG_TAGS) →
        getAllBlog db q = Throw "SyntaxError"))
  ∧ (∀ re, RegExp_i t = Some re →
     ∀ status body, getAllBlog db q = Respond status body →
     ∀ item, item ∈ data body → re (title (l_doc item).2) = true).
Proof.
  intros Hq Hne. split.
  - intros Hre. split.
    + intros ts Hts Hts' (tag & Hin & Hout).
      unfold getAllBlog, buildFilter. rewrite Hts, truthy_nonempty by done.
      destruct (forallb _ _) eqn:Hall; [|done].
      destruct Hout. by apply (proj1 (isValidTag_true _) Hall).
    + unfold getAllBlog, buildFilter.
      rewrite Hq, (truthy_nonempty t Hne), Hre.
      intros [-> | [-> | (ts & -> & Hall)]]; [done..|].
      destruct (decide (ts = "")) as [->|Hts]; [done|].
      rewrite truthy_nonempty by done.
      apply isValidTag_true in Hall. by rewrite Hall.
  - intros re Hre status body Hres item Hin.
    apply getAllBlog_inv in Hres as Hinv.
    destruct Hinv as (f & items & Hb & _).
    pose proof (getAllBlog_data_matches _ _ _ _ _ _ Hb Hres Hin) as Hm.
    apply elem_of_Blog_find in Hm as [_ Hm].
    unfold buildFilter in Hb. rewrite Hq, truthy_nonempty, Hre in Hb by done.
    destruct (JS.truthy (q_tags q)); [destruct (negb _)|]; simplify_eq;
      unfold matchesFilter in Hm; simpl in Hm;
      first [done|by apply andb_true_iff in Hm as [_ Hm]].
Qed.

(** ** Views: what a request for one post leaves alone *)

Lemma getOneBlog_missing db r :
  blogs db !! one_id r = None →
  getOneBlog db r = (db, Next (NotFound "No Blog found with this id")).
Proof. intros Hb. unfold getOneBlog. by rewrite Hb. Qed.

(** The store after a request for a stored post. *)
Lemma getOneBlog_store db r b :
  blogs db !! one_id r = Some b →
  (getOneBlog db r).1
  = withBlogs db
      (<[one_id r := if bool_decide (userIdentifier r ∈ viewedBy b) then b
                     else withView b (userIdentifier r)]> (blogs db)).
Proof.
  intros Hb. case_bool_decide as Hseen.
  - rewrite (getOneBlog_seen db r b Hb Hseen), insert_id by done.
    by rewrite withBlogs_same.
  - by rewrite (getOneBlog_new db r b Hb Hseen).
Qed.

(** X7: a request for one post changes nothing but the views and viewedBy
    of that post: an id that is not stored gives the 404 error and the same
    store; comments, users, the set of stored posts and every other post stay
    as they are; and the post itself is either unchanged or has one more view
    with the viewer appended. *)
Theorem getOneBlog_frame (db : Db) (r : OneReq) :
  (blogs db !! one_id r = None →
     getOneBlog db r = (db, Next {| message := "No Blog found with this id";
                                    statusCode := Some 404 |}))
  ∧ comments (getOneBlog db r).1 = comments db
  ∧ users (getOneBlog db r).1 = users db
  ∧ dom (blogs (getOneBlog db r).1) = dom (blogs db)
  ∧ (∀ k, k ≠ one_id r → blogs (getOneBlog db r).1 !! k = blogs db !! k)
  ∧ (∀ b, blogs db !! one_id r = Some b →
       ∃ b', blogs (getOneBlog db r).1 !! one_id r = Some b'
             ∧ (b' = b ∨ b' = withView b (userIdentifier r))
             ∧ likes b' = likes b ∧ dislikes b' = dislikes b
             ∧ author b' = author b ∧ images b' = images b
             ∧ coverImage b' = coverImage b ∧ title b' = title b).
Proof.
  split; [apply getOneBlog_missing|].
  destruct (blogs db !! one_id r) as [b|] eqn:Hb.
  - rewrite (getOneBlog_store db r b Hb). simpl.
    split; [done|]. split; [done|].
    split; [apply dom_insert_lookup_L; eauto|].
    split; [intros k Hk; by rewrite lookup_insert_ne|].
    intros ? [= <-]. rewrite lookup_insert_eq. eexists. split; [done|].
    case_bool_decide; simpl; auto 10.
  - rewrite (getOneBlog_missing db r Hb). simpl.
    repeat (split; [done|]). done.
Qed.

(** ** Views: counting distinct viewers *)

Lemma viewsConsistent_withView b who :
  who ∉ viewedBy b → viewsConsistent b → viewsConsistent (withView b who).
Proof.
  intros Hnew [Hnd Hviews]. split; simpl.
  - apply NoDup_app. split; [done|]. split; [|apply NoDup_singleton].
    intros x Hx ->%list_elem_of_singleton. done.
  - rewrite length_app. simpl. lia.
Qed.

Lemma size_add_fresh (u : string) (X : gset string) :
  u ∉ X → size ({[u]} ∪ X) = S (size X).
Proof.
  intros Hu. rewrite size_union, size_singleton; [done|].
  intros x ->%elem_of_singleton. done.
Qed.

Lemma difference_empty_absorb (X : gset string) : ∅ ∖ X = ∅.
Proof.
  apply set_eq. intros x. rewrite elem_of_difference.
  split; [by intros [? _]|]. by intros ?%not_elem_of_empty.
Qed.

Lemma viewAll_cons db r rs :
  viewAll db (r :: rs) = viewAll (getOneBlog db r).1 rs.
Proof. done. Qed.

(** X8: after any sequence of requests for one stored post, the post
    records exactly the viewers it recorded before and the identities of the
    requests, and its views have grown by the number of distinct identities
    among the requests that it had not recorded; a post whose counter agreed
    with its record of viewers still has one that does. *)
Theorem viewAll_counts (rs : list OneReq) : ∀ (db : Db) (id : ObjectId) (b : Blog),
  blogs db !! id = Some b →
  Forall (λ r, one_id r = id) rs →
  ∃ b', blogs (viewAll db rs) !! id = Some b'
        ∧ (∀ x, x ∈ viewedBy b'
                ↔ x ∈ viewedBy b ∨ x ∈ userIdentifier <$> rs)
        ∧ views b'
          = views b
            + Z.of_nat (size (list_to_set (userIdentifier <$> rs)
                                ∖ list_to_set (viewedBy b) : gset string))
        ∧ (viewsConsistent b → viewsConsistent b').
Proof.
  store_only.
  induction rs as [|r rs IH]; intros db id b Hb Hall.
  { exists b. split; [done|]. split.
    - intros x. rewrite fmap_nil, elem_of_nil. tauto.
    - split; [|done]. simpl.
      rewrite difference_empty_absorb, size_empty. lia. }
  apply Forall_cons in Hall as [Hid Hall]. rewrite viewAll_cons.
  rewrite <- Hid in Hb. rewrite (getOneBlog_store db r b Hb).
  rewrite Hid in *. clear Hid.
  set (u := userIdentifier r). rewrite fmap_cons, list_to_set_cons. fold u.
  case_bool_decide as Hseen.
  - rewrite insert_id, withBlogs_same by done.
    destruct (IH db id b Hb Hall) as (b' & Hb' & Hmem & Hviews & Hcons).
    exists b'. split; [done|]. split.
    + intros x. rewrite Hmem, elem_of_cons.
      split; [tauto|]. intros [?|[->|?]]; tauto.
    + split; [|done]. rewrite Hviews. do 3 f_equal.
      apply set_eq. intros x.
      rewrite !elem_of_difference, elem_of_union, elem_of_singleton,
        !elem_of_list_to_set.
      split; [tauto|]. intros [[->|?] ?]; tauto.
  - destruct (IH (withBlogs db (<[id := withView b u]> (blogs db))) id
                (withView b u)) as (b' & Hb' & Hmem & Hviews & Hcons);
      [simpl; apply lookup_insert_eq|done|].
    exists b'. split; [done|]. split.
    + intros x. rewrite Hmem. simpl.
      rewrite elem_of_app, list_elem_of_singleton, elem_of_cons. tauto.
    + split.
      * rewrite Hviews. simpl.
        replace (({[u]} ∪ list_to_set (userIdentifier <$> rs))
                   ∖ list_to_set (viewedBy b) : gset string)
          with ({[u]} ∪ (list_to_set (userIdentifier <$> rs)
                           ∖ list_to_set (viewedBy b ++ [u])) : gset string).
        { rewrite size_add_fresh; [lia|].
          rewrite elem_of_difference, !elem_of_list_to_set, elem_of_app,
            list_elem_of_singleton.
          tauto. }
        apply set_eq. intros x.
        rewrite elem_of_union, !elem_of_difference, elem_of_union,
          elem_of_singleton, !elem_of_list_to_set, elem_of_app,
          list_elem_of_singleton.
        destruct (decide (x = u)) as [->|]; tauto.
      * intros Hc. by apply Hcons, viewsConsistent_withView.
Qed.

(** ** Reactions: switching, and what a reaction leaves alone *)

Lemma NoDup_addToSet u l : NoDup l → NoDup (addToSet u l).
Proof.
  intros Hl. unfold addToSet. case_bool_decide as Hu; [done|].
  apply NoDup_app. split; [done|]. split; [|apply NoDup_singleton].
  intros x Hx ->%list_elem_of_singleton. done.
Qed.

Lemma NoDup_pull u l : NoDup l → NoDup (pull u l).
Proof. apply NoDup_filter. Qed.

Lemma validReaction_Some s : s ∈ REACTIONS → validReaction (Some s) = true.
Proof. intros. by apply bool_decide_eq_true_2. Qed.

(** The stored post after an accepted reaction. *)
Lemma reactToblog_lookup db r b :
  blogs db !! re_blogId r = Some b → validReaction (re_reaction r) = true →
  blogs (reactToblog db r).1 !! re_blogId r
  = Some (applyReact (reactOf (re_reaction r)) (re_user r) b).
Proof.
  intros Hb Hvalid. rewrite reactToblog_blogs, Hvalid, Hb.
  apply lookup_insert_eq.
Qed.

(** X9: a like followed by a dislike of the same user leaves the user in
    dislikes and out of likes, a dislike followed by a like leaves the user
    in likes and out of dislikes, and neither changes where any other user
    stands. *)
Theorem reactToblog_toggle (db : Db) (id : ObjectId) (b : Blog) (u : ObjectId) :
  blogs db !! id = Some b →
  "like" ∈ REACTIONS → "dislike" ∈ REACTIONS →
  let like := {| re_blogId := id; re_reaction := Some "like"; re_user := u |} in
  let dislike :=
    {| re_blogId := id; re_reaction := Some "dislike"; re_user := u |} in
  (∃ b2, blogs (reactToblog ((reactToblog db like).1) dislike).1 !! id = Some b2
         ∧ u ∈ dislikes b2 ∧ (u ∉ likes b2)
         ∧ (∀ v, v ≠ u →
              (v ∈ likes b2 ↔ v ∈ likes b)
              ∧ (v ∈ dislikes b2 ↔ v ∈ dislikes b)))
  ∧ (∃ b2, blogs (reactToblog ((reactToblog db dislike).1) like).1 !! id = Some b2
           ∧ u ∈ likes b2 ∧ (u ∉ dislikes b2)
           ∧ (∀ v, v ≠ u →
                (v ∈ likes b2 ↔ v ∈ likes b)
                ∧ (v ∈ dislikes b2 ↔ v ∈ dislikes b))).
Proof.
  store_only. intros Hb Hlike Hdislike like dislike.
  pose proof (validReaction_Some _ Hlike) as Hvl.
  pose proof (validReaction_Some _ Hdislike) as Hvd.
  split.
  - pose proof (reactToblog_lookup db like b Hb Hvl) as H1.
    pose proof (reactToblog_lookup _ dislike _ H1 Hvd) as H2.
    eexists. split; [exact H2|]. simpl.
    rewrite !elem_of_addToSet, !elem_of_pull, !elem_of_addToSet.
    split; [by left|]. split; [by intros [? _]|].
    intros v Hv. rewrite !elem_of_addToSet, !elem_of_pull, elem_of_addToSet.
    split; split; tauto.
  - pose proof (reactToblog_lookup db dislike b Hb Hvd) as H1.
    pose proof (reactToblog_lookup _ like _ H1 Hvl) as H2.
    eexists. split; [exact H2|]. simpl.
    rewrite !elem_of_addToSet, !elem_of_pull, !elem_of_addToSet.
    split; [by left|]. split; [by intros [? _]|].
    intros v Hv. rewrite !elem_of_addToSet, !elem_of_pull, elem_of_addToSet.
    split; split; tauto.
Qed.

(** X10: a reaction request changes nothing but the likes and dislikes of
    the post it names: comments, users, the set of stored posts, every other
    post and every other field stay as they are. A reaction outside the
    vocabulary is refused before the post is looked up, and whenever the
    handler ends with an error the store is unchanged. *)
Theorem reactToblog_frame (db : Db) (r : ReactReq) :
  comments (reactToblog db r).1 = comments db
  ∧ users (reactToblog db r).1 = users db
  ∧ dom (blogs (reactToblog db r).1) = dom (blogs db)
  ∧ (∀ k, k ≠ re_blogId r → blogs (reactToblog db r).1 !! k = blogs db !! k)
  ∧ (∀ b, blogs db !! re_blogId r = Some b →
       ∃ b', blogs (reactToblog db r).1 !! re_blogId r = Some b'
             ∧ views b' = views b ∧ viewedBy b' = viewedBy b
             ∧ author b' = author b ∧ images b' = images b
             ∧ coverImage b' = coverImage b ∧ title b' = title b
             ∧ content b' = content b ∧ tags b' = tags b
             ∧ createdAt b' = createdAt b)
  ∧ (validReaction (re_reaction r) = false →
       reactToblog db r
       = (db, Next {| message := "Invalid reactions"; statusCode := None |}))
  ∧ (∀ e, (reactToblog db r).2 = Next e → (reactToblog db r).1 = db).
Proof.
  store_only. unfold reactToblog.
  destruct (validReaction (re_reaction r)); simpl.
  - destruct (blogs db !! re_blogId r) as [b|] eqn:Hb; simpl.
    + split; [done|]. split; [done|].
      split; [apply dom_insert_lookup_L; eauto|].
      split; [intros k Hk; by rewrite lookup_insert_ne|].
      split; [|split; [done|done]].
      intros ? [= <-]. rewrite lookup_insert_eq. eexists. split; [done|].
      by destruct (reactOf (re_reaction r)) as [[]|].
    + repeat (split; [done|]). done.
  - repeat (split; [done|]). split; [|done].
    intros b Hb. eexists. split; [done|]. auto 10.
Qed.

(** X11: an accepted reaction on a stored post is answered with status 200
    and the sets as stored; the answer to a like says liked and not disliked,
    the answer to a dislike the reverse; sets without repetition stay without
    repetition, and liking grows the likes by one exactly when the user was
    not in them. *)
Theorem reactToblog_response (db : Db) (r : ReactReq) (b : Blog) :
  blogs db !! re_blogId r = Some b →
  validReaction (re_reaction r) = true →
  ∃ b' body,
    blogs (reactToblog db r).1 !! re_blogId r = Some b'
    ∧ (reactToblog db r).2 = Respond 200 body
    ∧ r_likes body = likes b' ∧ r_dislikes body = dislikes b'
    ∧ (NoDup (likes b) → NoDup (likes b'))
    ∧ (NoDup (dislikes b) → NoDup (dislikes b'))
    ∧ (re_reaction r = Some "like" →
         isLiked body = true ∧ isDisliked body = false
         ∧ length (likes b')
           = (length (likes b)
              + if bool_decide (re_user r ∈ likes b) then 0 else 1)%nat)
    ∧ (re_reaction r = Some "dislike" →
         isLiked body = false ∧ isDisliked body = true
         ∧ length (dislikes b')
           = (length (dislikes b)
              + if bool_decide (re_user r ∈ dislikes b) then 0 else 1)%nat).
Proof.
  intros Hb Hvalid.
  exists (applyReact (reactOf (re_reaction r)) (re_user r) b).
  eexists. split; [by apply reactToblog_lookup|].
  unfold reactToblog. rewrite Hvalid, Hb. simpl.
  split; [done|]. split; [done|]. split; [done|].
  split; [|split; [|split]].
  - intros Hnd. destruct (reactOf _) as [[]|]; simpl;
      auto using NoDup_addToSet, NoDup_pull.
  - intros Hnd. destruct (reactOf _) as [[]|]; simpl;
      auto using NoDup_addToSet, NoDup_pull.
  - intros ->. simpl.
    rewrite bool_decide_eq_true_2 by (apply elem_of_addToSet; by left).
    rewrite bool_decide_eq_false_2 by (rewrite elem_of_pull; by intros [? _]).
    split; [done|]. split; [done|].
    unfold addToSet. case_bool_decide; [lia|]. rewrite length_app. simpl. lia.
  - intros ->. simpl.
    rewrite bool_decide_eq_false_2 by (rewrite elem_of_pull; by intros [? _]).
    rewrite bool_decide_eq_true_2 by (apply elem_of_addToSet; by left).
    split; [done|]. split; [done|].
    unfold addToSet. case_bool_decide; [lia|]. rewrite length_app. simpl. lia.
Qed.

(** ** Creating a post: author, attachments and atomicity *)

(** The author of a new post is the authenticated user: an author field
    sent in the body of the request has no effect on the outcome. *)
Lemma createBlog_author_from_session
    (db : Db) (newId : ObjectId) (r : CreateReq) (forged : ObjectId) :
  createBlog db newId
    {| cr_body := bodyWithAuthor (cr_body r) forged; cr_user := cr_user r;
       cr_file := cr_file r; cr_files := cr_files r |}
  = createBlog db newId r.
Proof. done. Qed.

Lemma length_omap_le {A B} (g : A → option B) (l : list A) :
  (length (omap g l) ≤ length l)%nat.
Proof.
  induction l as [|x l IH]; [done|].
  change (omap g (x :: l))
    with (match g x with Some y => y :: omap g l | None => omap g l end).
  destruct (g x); simpl; lia.
Qed.

Lemma images_appendGallery blog files :
  images (appendGallery blog files)
  = (images blog ++ omap uploadMultipleFilesToCloudinary files)%list.
Proof.
  unfold appendGallery, successfulUploads. case_bool_decide as Hlen; [done|].
  destruct (omap _ files); [by rewrite app_nil_r|simpl in Hlen; lia].
Qed.

Lemma appendGallery_fields blog files :
  title (appendGallery blog files) = title blog
  ∧ content (appendGallery blog files) = content blog
  ∧ tags (appendGallery blog files) = tags blog
  ∧ author (appendGallery blog files) = author blog
  ∧ coverImage (appendGallery blog files) = coverImage blog
  ∧ likes (appendGallery blog files) = likes blog
  ∧ dislikes (appendGallery blog files) = dislikes blog
  ∧ views (appendGallery blog files) = views blog
  ∧ viewedBy (appendGallery blog files) = viewedBy blog
  ∧ createdAt (appendGallery blog files) = createdAt blog.
Proof. unfold appendGallery. by case_bool_decide. Qed.

Lemma appendGallery_nil blog : appendGallery blog [] = blog.
Proof. done. Qed.

(** The outcome of a create request whose post is inserted and whose cover
    image, if any, is uploaded. *)
Lemma createBlog_created db newId r created :
  Blog_new (bodyWithAuthor (cr_body r) (cr_user r)) = Some created →
  blogs db !! newId = None →
  (∀ file, cr_file r = Some file → is_Some (uploadFileToCloudinary file)) →
  let covered :=
    match cr_file r ≫= uploadFileToCloudinary with
    | Some result => withCoverImage created result
    | None => created
    end in
  let stored := appendGallery covered (cr_files r) in
  createBlog db newId r
  = (withBlogs db (<[newId := stored]> (blogs db)),
     Respond 201 {| msg := "created successfully";
                    m_data := Some (newId, stored) |}).
Proof.
  intros Hnew Hfresh Hcover covered stored. unfold createBlog.
  rewrite Hnew, Hfresh. unfold stored, covered.
  destruct (cr_file r) as [file|]; simpl.
  - destruct (Hcover file eq_refl) as [result Hresult]. rewrite Hresult. simpl.
    rewrite insert_insert_eq.
    case_bool_decide as Hfiles; simpl.
    + by rewrite insert_insert_eq.
    + destruct (cr_files r); [done|simpl in Hfiles; lia].
  - case_bool_decide as Hfiles; simpl.
    + by rewrite insert_insert_eq.
    + destruct (cr_files r); [done|simpl in Hfiles; lia].
Qed.

(** X12: when the post of a create request is inserted and its cover
    image, if any, is uploaded, the request is answered with status 201
    whatever happens to the gallery files: the stored post has the images of
    the new document followed by the gallery images whose upload succeeded,
    in the order of the files, the uploaded cover image if one was sent, and
    every other field as the new document had it. *)
Theorem createBlog_attachments
    (db : Db) (newId : ObjectId) (r : CreateReq) (created : Blog) :
  Blog_new (bodyWithAuthor (cr_body r) (cr_user r)) = Some created →
  blogs db !! newId = None →
  (∀ file, cr_file r = Some file → is_Some (uploadFileToCloudinary file)) →
  ∃ stored,
    createBlog db newId r
    = (withBlogs db (<[newId := stored]> (blogs db)),
       Respond 201 {| msg := "created successfully";
                      m_data := Some (newId, stored) |})
    ∧ images stored
      = (images created
         ++ omap uploadMultipleFilesToCloudinary (cr_files r))%list
    ∧ (length (images stored)
       ≤ length (images created) + length (cr_files r))%nat
    ∧ coverImage stored
      = match cr_file r with
        | Some file => uploadFileToCloudinary file
        | None => coverImage created
        end
    ∧ title stored = title created ∧ content stored = content created
    ∧ tags stored = tags created ∧ author stored = author created
    ∧ likes stored = likes created ∧ dislikes stored = dislikes created
    ∧ views stored = views created ∧ viewedBy stored = viewedBy created
    ∧ createdAt stored = createdAt created.
Proof.
  intros Hnew Hfresh Hcover. eexists.
  split; [by apply createBlog_created|].
  rewrite images_appendGallery.
  pose proof (appendGallery_fields
    (match cr_file r ≫= uploadFileToCloudinary with
     | Some result => withCoverImage created result
     | None => created
     end) (cr_files r)) as (-> & -> & -> & -> & -> & -> & -> & -> & -> & ->).
  pose proof (length_omap_le uploadMultipleFilesToCloudinary (cr_files r))
    as Hlen.
  destruct (cr_file r) as [file|]; simpl.
  - destruct (Hcover file eq_refl) as [result Hresult]. rewrite Hresult. simpl.
    rewrite length_app. repeat (split; [done || lia|]). done.
  - rewrite length_app. repeat (split; [done || lia|]). done.
Qed.

(** Either nothing is stored and the outcome is no answer, or the post is
    stored under a fresh id and the answer carries it. *)
Lemma createBlog_cases db newId r :
  (∃ out, createBlog db newId r = (db, out)
          ∧ ∀ status body, out ≠ Respond status body)
  ∨ (∃ stored,
       blogs db !! newId = None
       ∧ createBlog db newId r
         = (withBlogs db (<[newId := stored]> (blogs db)),
            Respond 201 {| msg := "created successfully";
                           m_data := Some (newId, stored) |})).
Proof.
  destruct (Blog_new (bodyWithAuthor (cr_body r) (cr_user r)))
    as [created|] eqn:Hnew.
  2: { left. eexists. unfold createBlog. rewrite Hnew. done. }
  destruct (blogs db !! newId) as [old|] eqn:Hfresh.
  { left. eexists. unfold createBlog. rewrite Hnew, Hfresh. done. }
  destruct (cr_file r ≫= λ file,
              if uploadFileToCloudinary file is Some _ then None else Some file)
    as [file|] eqn:Hfile.
  - left. destruct (cr_file r) as [file'|] eqn:Hcr; [|done]. simpl in Hfile.
    destruct (uploadFileToCloudinary file') as [?|] eqn:Hup; [done|].
    eexists. unfold createBlog. rewrite Hnew, Hfresh, Hcr, Hup. simpl.
    rewrite delete_insert_eq, delete_id by done.
    by destruct db.
  - right. eexists. split; [done|]. apply createBlog_created; [done..|].
    intros file' Hcr. rewrite Hcr in Hfile. simpl in Hfile.
    by destruct (uploadFileToCloudinary file').
Qed.

(** X13: a create request never touches a comment, a user or a post stored
    under another id, and never replaces a stored post; it leaves a post in
    the store exactly when it answers, with status 201 and that post: after
    every other outcome the store is the one before the request. *)
Theorem createBlog_atomic (db : Db) (newId : ObjectId) (r : CreateReq) :
  comments (createBlog db newId r).1 = comments db
  ∧ users (createBlog db newId r).1 = users db
  ∧ (∀ k, k ≠ newId → blogs (createBlog db newId r).1 !! k = blogs db !! k)
  ∧ (is_Some (blogs db !! newId) → (createBlog db newId r).1 = db)
  ∧ (∀ status body,
       (createBlog db newId r).2 = Respond status body →
       status = 201 ∧ blogs db !! newId = None
       ∧ ∃ stored, blogs (createBlog db newId r).1 !! newId = Some stored
                   ∧ m_data body = Some (newId, stored))
  ∧ ((∀ status body, (createBlog db newId r).2 ≠ Respond status body) →
       (createBlog db newId r).1 = db).
Proof.
  destruct (createBlog_cases db newId r)
    as [(out & -> & Hout)|(stored & Hfresh & ->)]; simpl.
  - repeat (split; [done|]). split; [|done].
    intros status body ->. by destruct (Hout status body).
  - split; [done|]. split; [done|].
    split; [intros k Hk; by rewrite lookup_insert_ne|].
    split; [rewrite Hfresh; by intros [? ?]|].
    split; [|intros Hno; by destruct (Hno _ _ eq_refl)].
    intros ? ? [= <- <-]. split; [done|]. split; [done|].
    eexists. by rewrite lookup_insert_eq.
Qed.

(** ** Updating a post: failures, the author's update, and the frame *)

Lemma replaceCover_upload_fails blog body file :
  uploadFileToCloudinary file = None → replaceCover blog body file = None.
Proof.
  intros Hup. unfold replaceCover. destruct blog as [b|]; [|done]. simpl.
  rewrite Hup. by repeat case_match.
Qed.

(** X14: when a cover file is sent and its upload fails, or the old cover
    image cannot be deleted from the media host, the handler ends with the
    upload error of status 500 and the store is unchanged, whoever asks,
    whatever the body and whatever gallery files come with the request. *)
Theorem updateBlog_cover_failure (db : Db) (r : UpdateReq) (file : File) :
  up_file r = Some file →
  (uploadFileToCloudinary file = None →
     updateBlog db r
     = (db, Next {| message := "Error uploading image to Cloudinary";
                    statusCode := Some 500 |}))
  ∧ (∀ b old, blogs db !! up_id r = Some b → coverImage b = Some old →
       public_id old ≠ "" → deleteFileFromCloudinary (public_id old) = false →
       updateBlog db r
       = (db, Next {| message := "Error uploading image to Cloudinary";
                      statusCode := Some 500 |})).
Proof.
  intros Hfile. split.
  - intros Hup. unfold updateBlog.
    by rewrite Hfile, replaceCover_upload_fails.
  - intros b old Hb Hold Hid Hdel. unfold updateBlog, replaceCover.
    rewrite Hfile, Hb. simpl. rewrite Hold.
    by rewrite bool_decide_eq_true_2, Hdel by done.
Qed.

Lemma findOneAndUpdate_match db id userId body b :
  Blog_updateValid body = true →
  blogs db !! id = Some b → author b = userId →
  findOneAndUpdate db id userId body
  = (withBlogs db (<[id := applyBody body b]> (blogs db)),
     Respond 200 {| msg := "updated successfully";
                    m_data := Some (id, applyBody body b) |}).
Proof.
  intros Hvalid Hb Ha. unfold findOneAndUpdate.
  rewrite Hvalid, Hb. simpl. by rewrite bool_decide_eq_true_2.
Qed.

(** The outcome of the author's update without a cover file. *)
Lemma updateBlog_own_result db r b :
  blogs db !! up_id r = Some b → author b = up_user r →
  up_file r = None → Blog_updateValid (up_body r) = true →
  let stored := applyBody (up_body r) (appendGallery b (up_files r)) in
  updateBlog db r
  = (withBlogs db (<[up_id r := stored]> (blogs db)),
     Respond 200 {| msg := "updated successfully";
                    m_data := Some (up_id r, stored) |}).
Proof.
  intros Hb Ha Hfile Hvalid stored. unfold updateBlog. rewrite Hfile, Hb.
  case_bool_decide as Hfiles.
  - rewrite (findOneAndUpdate_match _ _ _ _ (appendGallery b (up_files r)));
      [|done|simpl; apply lookup_insert_eq
       |by destruct (appendGallery_fields b (up_files r)) as (_&_&_&->&_)].
    simpl. by rewrite insert_insert_eq.
  - rewrite (findOneAndUpdate_match _ _ _ _ b) by done.
    destruct (up_files r); [done|simpl in Hfiles; lia].
Qed.

(** X15: the author's update without a cover file is answered with status
    200 and the stored post: every field the body carries replaces the
    stored one and every other field is kept, and the images are the stored
    ones followed by the gallery images whose upload succeeded, unless the
    body carries images, which then replace them all. *)
Theorem updateBlog_own_fields (db : Db) (r : UpdateReq) (b : Blog) :
  blogs db !! up_id r = Some b → author b = up_user r →
  up_file r = None → Blog_updateValid (up_body r) = true →
  ∃ stored,
    updateBlog db r
    = (withBlogs db (<[up_id r := stored]> (blogs db)),
       Respond 200 {| msg := "updated successfully";
                      m_data := Some (up_id r, stored) |})
    ∧ images stored
      = default (images b
                 ++ omap uploadMultipleFilesToCloudinary (up_files r))%list
          (b_images (up_body r))
    ∧ title stored = default (title b) (b_title (up_body r))
    ∧ content stored = default (content b) (b_content (up_body r))
    ∧ tags stored = default (tags b) (b_tags (up_body r))
    ∧ author stored = default (author b) (b_author (up_body r))
    ∧ coverImage stored
      = match b_coverImage (up_body r) with
        | Some i => Some i
        | None => coverImage b
        end
    ∧ likes stored = default (likes b) (b_likes (up_body r))
    ∧ dislikes stored = default (dislikes b) (b_dislikes (up_body r))
    ∧ views stored = default (views b) (b_views (up_body r))
    ∧ viewedBy stored = default (viewedBy b) (b_viewedBy (up_body r))
    ∧ createdAt stored = default (createdAt b) (b_createdAt (up_body r)).
Proof.
  intros Hb Ha Hfile Hvalid. eexists.
  split; [by apply updateBlog_own_result|]. simpl.
  rewrite images_appendGallery.
  destruct (appendGallery_fields b (up_files r))
    as (-> & -> & -> & -> & -> & -> & -> & -> & -> & ->).
  repeat (split; [done|]). done.
Qed.

Lemma applyBody_idem body b :
  applyBody body (applyBody body b) = applyBody body b.
Proof.
  unfold applyBody. simpl.
  destruct body as [t c ts a ci im l d v vb ca]; simpl.
  by destruct t, c, ts, a, ci, im, l, d, v, vb, ca.
Qed.

(** X16: without files, the author's update applied a second time gives
    the store and the answer of the first time, as long as the body does not
    name another author; when it does, the post is handed over: the next
    update or deletion by the former author ends with the 404 error and
    changes nothing. *)
Theorem updateBlog_again (db : Db) (r : UpdateReq) (b : Blog) :
  blogs db !! up_id r = Some b → author b = up_user r →
  up_file r = None → up_files r = [] →
  Blog_updateValid (up_body r) = true →
  (default (up_user r) (b_author (up_body r)) = up_user r →
     updateBlog (updateBlog db r).1 r = updateBlog db r)
  ∧ (default (up_user r) (b_author (up_body r)) ≠ up_user r →
     updateBlog (updateBlog db r).1 r
     = ((updateBlog db r).1, Next UpdateNotFound)
     ∧ deleteBlog (updateBlog db r).1
         {| del_id := up_id r; del_user := up_user r |}
       = ((updateBlog db r).1, Next DeleteNotFound)).
Proof.
  intros Hb Ha Hfile Hfiles Hvalid.
  pose proof (updateBlog_own_result db r b Hb Ha Hfile Hvalid) as Hfirst.
  rewrite Hfiles, appendGallery_nil in Hfirst. simpl in Hfirst.
  rewrite Hfirst. simpl.
  set (db1 := withBlogs db (<[up_id r := applyBody (up_body r) b]> (blogs db))).
  assert (blogs db1 !! up_id r = Some (applyBody (up_body r) b)) as Hb1
    by apply lookup_insert_eq.
  assert (author (applyBody (up_body r) b)
          = default (up_user r) (b_author (up_body r))) as Hauthor
    by (simpl; by rewrite Ha).
  split.
  - intros Hsame.
    pose proof (updateBlog_own_result db1 r _ Hb1) as Hsecond.
    rewrite Hfiles, appendGallery_nil, applyBody_idem in Hsecond.
    simpl in Hsecond. rewrite Hsecond; [|congruence|done|done].
    unfold db1. simpl. by rewrite insert_insert_eq.
  - intros Hother. split.
    + apply updateBlog_plain_no_match; [done..|].
      intros (b' & Hb' & Ha'). unfold db1 in Hb'. simpl in Hb'.
      rewrite lookup_insert_eq in Hb'. injection Hb' as <-. congruence.
    + apply deleteBlog_no_match. simpl.
      intros (b' & Hb' & Ha'). unfold db1 in Hb'. simpl in Hb'.
      rewrite lookup_insert_eq in Hb'. injection Hb' as <-. congruence.
Qed.

(** The store after an update is the store before it, but for the post the
    request names. *)
Lemma findOneAndUpdate_store db id userId body :
  (findOneAndUpdate db id userId body).1 = db
  ∨ ∃ b b', blogs db !! id = Some b
            ∧ (findOneAndUpdate db id userId body).1
              = withBlogs db (<[id := b']> (blogs db)).
Proof.
  unfold findOneAndUpdate. destruct (negb _); [by left|].
  destruct (blogs db !! id) as [b|] eqn:Hb; [|by left].
  case_bool_decide; [|by left]. right. eauto.
Qed.

Lemma updateBlog_store db r :
  (updateBlog db r).1 = db
  ∨ ∃ b b', blogs db !! up_id r = Some b
            ∧ (updateBlog db r).1
              = withBlogs db (<[up_id r := b']> (blogs db)).
Proof.
  unfold updateBlog.
  destruct (match up_file r with Some _ => _ | None => _ end) as [body|];
    [|by left].
  case_bool_decide.
  - destruct (blogs db !! up_id r) as [b|] eqn:Hb; [|by left].
    right. exists b.
    destruct (findOneAndUpdate_store
                (withBlogs db (<[up_id r := appendGallery b (up_files r)]> (blogs db)))
                (up_id r) (up_user r) body) as [->|(b1 & b' & _ & ->)].
    + eauto.
    + exists b'. simpl. by rewrite insert_insert_eq.
  - destruct (findOneAndUpdate_store db (up_id r) (up_user r) body)
      as [->|(b & b' & Hb & ->)]; [by left|]. right. eauto.
Qed.

(** X17: an update request never touches a comment, a user or a post other
    than the one it names, and it neither adds a post to the store nor takes
    one away. *)
Theorem updateBlog_frame (db : Db) (r : UpdateReq) :
  comments (updateBlog db r).1 = comments db
  ∧ users (updateBlog db r).1 = users db
  ∧ dom (blogs (updateBlog db r).1) = dom (blogs db)
  ∧ (∀ k, k ≠ up_id r → blogs (updateBlog db r).1 !! k = blogs db !! k).
Proof.
  destruct (updateBlog_store db r) as [->|(b & b' & Hb & ->)]; [done|].
  simpl. split; [done|]. split; [done|].
  split; [apply dom_insert_lookup_L; eauto|].
  intros k Hk. by rewrite lookup_insert_ne.
Qed.

(** ** Deleting a post: what follows *)

Lemma filter_none {A} (P : A → Prop) `{∀ x, Decision (P x)} (l : list A) :
  (∀ x, x ∈ l → ¬ P x) → filter P l = [].
Proof.
  induction l as [|x l IH]; intros Hno; [done|].
  rewrite filter_cons, decide_False by (apply Hno; by left).
  apply IH. intros y Hy. apply Hno. by right.
Qed.

(** X18: once a post is deleted by its author, no comment refers to it,
    and every handler that names it leaves the store as it is. A second
    deletion, a request for the post and the listing of its author's posts end
    with a 404 error. A reaction ends with the 404 error when it is in the
    vocabulary and with "Invalid reactions" when it is not. An update ends
    with the 500 error when a cover file is sent, otherwise with a TypeError
    when gallery files are sent, otherwise with a validation error when the
    validators refuse the body, and otherwise with the 404 error. *)
Theorem deleteBlog_gone (db : Db) (r : DeleteReq) (b : Blog) :
  blogs db !! del_id r = Some b → author b = del_user r →
  let db1 := (deleteBlog db r).1 in
  commentsOf db1 (del_id r) = []
  ∧ deleteBlog db1 r = (db1, Next DeleteNotFound)
  ∧ (∀ v, one_id v = del_id r →
       getOneBlog db1 v = (db1, Next (NotFound "No Blog found with this id")))
  ∧ (∀ q, re_blogId q = del_id r →
       reactToblog db1 q
       = (db1, if validReaction (re_reaction q)
               then Next (NotFound "No blog found with this id")
               else Next InvalidReactions))
  ∧ (∀ u, up_id u = del_id r →
       updateBlog db1 u
       = (db1, match up_file u with
               | Some _ => Next (UploadError "Error uploading image to Cloudinary")
               | None =>
                   if bool_decide (0 < length (up_files u))%nat
                   then Throw "TypeError"
                   else if Blog_updateValid (up_body u)
                        then Next UpdateNotFound
                        else Throw "ValidationError"
               end))
  ∧ getAuthorBlogs db1 (del_id r) = Next (NotFound "Blog not found").
Proof.
  intros Hb Ha db1.
  assert (blogs db1 !! del_id r = None) as Hgone.
  { unfold db1. rewrite (deleteBlog_match db r b Hb Ha). simpl.
    apply lookup_delete_eq. }
  split.
  { unfold commentsOf. apply filter_none. intros [k c] Hkc Hblog.
    apply elem_of_map_to_list in Hkc. unfold db1 in Hkc.
    rewrite (deleteBlog_match db r b Hb Ha) in Hkc. simpl in Hkc, Hblog.
    by apply lookup_Comment_deleteMany in Hkc as [_ Hne]. }
  split.
  { apply deleteBlog_no_match. intros (b' & Hb' & _). congruence. }
  split.
  { intros v Hv. apply getOneBlog_missing. by rewrite Hv. }
  split.
  { intros q Hq. unfold reactToblog. rewrite Hq, Hgone.
    by destruct (validReaction (re_reaction q)). }
  split.
  { intros u Hu. unfold updateBlog. rewrite Hu, Hgone.
    destruct (up_file u) as [file|]; [done|].
    case_bool_decide; [done|].
    unfold findOneAndUpdate. rewrite Hgone.
    by destruct (Blog_updateValid (up_body u)). }
  unfold getAuthorBlogs. by rewrite Hgone.
Qed.

(** X19: creating a post and then deleting it as its author gives back the
    store before the two requests, when the new document keeps the author the
    handler set, the cover image, if any, is uploaded, and no comment refers
    to the id of the post. *)
Theorem createBlog_deleteBlog
    (db : Db) (newId : ObjectId) (r : CreateReq) (created : Blog) :
  Blog_new (bodyWithAuthor (cr_body r) (cr_user r)) = Some created →
  author created = cr_user r →
  blogs db !! newId = None →
  (∀ file, cr_file r = Some file → is_Some (uploadFileToCloudinary file)) →
  (∀ k c, comments db !! k = Some c → blog c ≠ newId) →
  deleteBlog (createBlog db newId r).1
    {| del_id := newId; del_user := cr_user r |}
  = (db, Respond 200 {| msg := "deleted successfully"; m_data := None |}).
Proof.
  intros Hnew Hauthor Hfresh Hcover Hcomments.
  rewrite (createBlog_created db newId r created Hnew Hfresh Hcover). simpl.
  erewrite deleteBlog_match; [|simpl; apply lookup_insert_eq|].
  - simpl. rewrite delete_insert_eq, delete_id by done.
    unfold Comment_deleteMany. rewrite map_filter_id; [by destruct db|].
    intros k c Hkc. simpl. by apply (Hcomments k c).
  - simpl.
    destruct (appendGallery_fields
      (match cr_file r ≫= uploadFileToCloudinary with
       | Some result => withCoverImage created result
       | None => created
       end) (cr_files r)) as (_ & _ & _ & -> & _).
    by destruct (cr_file r ≫= uploadFileToCloudinary).
Qed.

(** ** An author's recent posts: the seed only names the author *)

(** X20: two stored seed posts of the same author give the same answer,
    and for a stored seed post the answer is never the error for an author
    without posts. *)
Theorem getAuthorBlogs_same_author (db : Db) (id1 id2 : ObjectId) (b1 b2 : Blog) :
  blogs db !! id1 = Some b1 → blogs db !! id2 = Some b2 →
  author b1 = author b2 →
  getAuthorBlogs db id1 = getAuthorBlogs db id2
  ∧ getAuthorBlogs db id1
    ≠ Next (NotFound "No other blogs found by this author").
Proof.
  intros H1 H2 Ha. split.
  - unfold getAuthorBlogs. by rewrite H1, H2, Ha.
  - unfold getAuthorBlogs. rewrite H1.
    case_bool_decide as Hlen; [|done]. exfalso.
    assert ((id1, b1) ∈ Blog_findByAuthor db (author b1)) as Hin
      by by apply elem_of_Blog_findByAuthor.
    rewrite <- (applySort_perm SortCreatedAt) in Hin.
    rewrite limit_4 in Hlen.
    destruct (applySort SortCreatedAt (Blog_findByAuthor db (author b1)));
      [by apply elem_of_nil in Hin|done].
Qed.

(** ** Splitting and reading query values *)

Lemma split_cons sep c s :
  JS.split sep (String c s)
  = if Ascii.eqb c sep then EmptyString :: JS.split sep s
    else match JS.split sep s with
         | [] => [String c EmptyString]
         | w :: ws => String c w :: ws
         end.
Proof. done. Qed.

Lemma split_not_nil sep s : JS.split sep s ≠ [].
Proof.
  induction s as [|c s IH]; [done|]. rewrite split_cons.
  destruct (Ascii.eqb c sep); [done|]. by destruct (JS.split sep s).
Qed.

Lemma joinWith_cons sep w ws :
  ws ≠ [] →
  joinWith sep (w :: ws) = String.append w (String sep (joinWith sep ws)).
Proof. by destruct ws. Qed.

(** X21: splitting a string at a separator never gives an empty list, no
    member contains the separator, and joining the members with the separator
    gives the string back; and a non-empty list of strings without the
    separator, joined and split again, is the list itself. *)
Theorem split_joinWith (sep : ascii) :
  (∀ s, JS.split sep s ≠ []
        ∧ Forall (λ w, lacks sep w = true) (JS.split sep s)
        ∧ joinWith sep (JS.split sep s) = s)
  ∧ (∀ ws, ws ≠ [] → Forall (λ w, lacks sep w = true) ws →
           JS.split sep (joinWith sep ws) = ws).
Proof.
  split.
  - intros s. split; [apply split_not_nil|].
    induction s as [|c s [IHl IHj]]; [by repeat constructor|].
    rewrite split_cons. destruct (Ascii.eqb c sep) eqn:Hc.
    + apply Ascii.eqb_eq in Hc as ->. split; [by constructor|].
      rewrite joinWith_cons by apply split_not_nil. simpl. by rewrite IHj.
    + pose proof (split_not_nil sep s) as Hne.
      destruct (JS.split sep s) as [|w ws]; [done|].
      apply Forall_cons in IHl as [Hw Hws]. split.
      * constructor; [|done]. simpl. by rewrite Hc, Hw.
      * rewrite <- IHj. by destruct ws.
  - intros ws Hne Hall. induction Hall as [|w ws Hw Hws IH]; [done|].
    destruct ws as [|w' ws].
    + simpl. clear IH Hws Hne. induction w as [|c w IHw]; [done|].
      simpl in Hw. apply andb_true_iff in Hw as [Hc Hw].
      rewrite split_cons. apply negb_true_iff in Hc. rewrite Hc.
      by rewrite (IHw Hw).
    + rewrite joinWith_cons by done.
      specialize (IH ltac:(done)). clear Hws Hne.
      induction w as [|c w IHw].
      * change (JS.split sep (String sep (joinWith sep (w' :: ws)))
                = EmptyString :: w' :: ws).
        rewrite split_cons, Ascii.eqb_refl. by rewrite IH.
      * simpl in Hw. apply andb_true_iff in Hw as [Hc Hw].
        change (String.append (String c w) ?x) with (String c (String.append w x)).
        rewrite split_cons. apply negb_true_iff in Hc. rewrite Hc.
        by rewrite (IHw Hw).
Qed.

Lemma decimalValue_nonneg s acc :
  allDigits s = true → 0 ≤ acc → 0 ≤ decimalValue acc s.
Proof.
  revert acc. induction s as [|c s IH]; intros acc Hs Hacc; [done|].
  simpl in *. apply andb_true_iff in Hs as [Hc Hs]. apply IH; [done|].
  unfold isDigit in Hc. apply bool_decide_eq_true_1 in Hc. lia.
Qed.

Lemma parseDigits_numeric s :
  isNumeric s = true → JS.parseDigits 10 None s = Some (decimalValue 0 s).
Proof.
  destruct s as [|c s]; [done|]. intros Hs.
  change (allDigits (String c s) = true) in Hs.
  pose proof Hs as [Hc Hs']%andb_true_iff.
  simpl JS.parseDigits. rewrite digitValue_10_digit by done. simpl default.
  rewrite parseDigits_allDigits by done.
  by simpl decimalValue.
Qed.

(** A sign before a numeral is read with it. *)
Lemma parseInt_signed (sign : ascii) s :
  sign = "-"%char ∨ sign = "+"%char → isNumeric s = true →
  JS.parseInt (String sign s)
  = JS.toNumber ((if Ascii.eqb sign "-" then -1 else 1) * decimalValue 0 s).
Proof.
  intros Hsign Hs. unfold JS.parseInt.
  assert (JS.trimStart (String sign s) = String sign s) as ->.
  { apply trimStart_ascii; destruct Hsign as [-> | ->];
      first [reflexivity | vm_compute; lia]. }
  assert (JS.stripSign (String sign s)
          = (if Ascii.eqb sign "-" then -1 else 1, s)) as ->.
  { by destruct Hsign as [-> | ->]. }
  rewrite stripPrefix_allDigits by (by destruct s).
  by rewrite parseDigits_numeric.
Qed.

(** A negative page less one, times a positive limit, is negative. *)
Lemma sub_negative a :
  isNegative a = true → isNegative (JS.sub a (JS.Finite 1)) = true.
Proof.
  destruct a as [z|sign|]; simpl; [|done..].
  intros Hz%bool_decide_eq_true_1. apply toNumber_negative. lia.
Qed.

Lemma mul_negative a l :
  isNegative a = true → 0 < l → isNegative (JS.mul a (JS.Finite l)) = true.
Proof.
  destruct a as [z|sign|]; simpl; [| |done].
  - intros Hz%bool_decide_eq_true_1 Hl. apply toNumber_negative. nia.
  - intros -> Hl. rewrite !bool_decide_false by lia. done.
Qed.

(** X22: a page written as a signed decimal numeral is read with its sign,
    and a white-space character before a numeral is skipped: "-n" is read as
    -n, "+n" and white space followed by n as n, each rounded to the nearest
    double, which is the number itself below 2^53, and with 0 falling back to
    page 1; a negative page with a limit that is a positive integer gives an
    offset below zero, a negative integer or the negative infinity. *)
Theorem pagination_signed (q : ListQuery) (s : string) :
  isNumeric s = true →
  let n := decimalValue 0 s in
  (q_page q = Some (String "-" s) →
     pagination q = if bool_decide (n = 0) then JS.Finite 1
                    else JS.toNumber (- n))
  ∧ (q_page q = Some (String "+" s) →
     pagination q = if bool_decide (n = 0) then JS.Finite 1
                    else JS.toNumber n)
  ∧ (∀ w, w ∈ whiteSpace → q_page q = Some (String.append w s) →
     pagination q = if bool_decide (n = 0) then JS.Finite 1
                    else JS.toNumber n)
  ∧ (n < 2 ^ 53 →
     JS.toNumber n = JS.Finite n ∧ JS.toNumber (- n) = JS.Finite (- n))
  ∧ (q_page q = Some (String "-" s) → n ≠ 0 →
     ∀ l, limitation q = JS.Finite l → 0 < l →
     isNegative (startIndex q) = true).
Proof.
  intros Hs n.
  assert (0 ≤ n) as Hpos.
  { apply decimalValue_nonneg; [by destruct s|done]. }
  assert (q_page q = Some (String "-" s) →
          pagination q = if bool_decide (n = 0) then JS.Finite 1
                         else JS.toNumber (- n)) as Hminus.
  { intros Hq. unfold pagination. rewrite Hq. simpl JS.toString.
    rewrite (parseInt_signed "-" s) by auto. simpl Ascii.eqb.
    rewrite orElse_toNumber. fold n.
    replace (-1 * n) with (- n) by lia.
    repeat case_bool_decide; try done; lia. }
  split; [done|].
  split.
  { intros Hq. unfold pagination. rewrite Hq. simpl JS.toString.
    rewrite (parseInt_signed "+" s) by auto. simpl Ascii.eqb.
    rewrite orElse_toNumber. fold n.
    replace (1 * n) with n by lia. done. }
  split.
  { intros w Hw Hq. unfold pagination. rewrite Hq. simpl JS.toString.
    assert (JS.parseInt (String.append w s) = JS.parseInt s) as ->.
    { unfold JS.parseInt. by rewrite trimStart_whiteSpace. }
    rewrite parseInt_numeric by done. apply orElse_toNumber. }
  split.
  { intros Hn. split; apply toNumber_small; lia. }
  intros Hq Hnz l Hl Hlpos. unfold startIndex. rewrite Hl.
  apply mul_negative; [|done]. apply sub_negative.
  rewrite (Hminus Hq). rewrite bool_decide_false by done.
  apply toNumber_negative. lia.
Qed.

(** A decidable way to state that the reaction sets share no member. *)
Lemma exclusiveReactions_Forall b :
  Forall (λ u, u ∉ dislikes b) (likes b) → exclusiveReactions b.
Proof.
  rewrite Forall_forall. intros H u [Hl Hd]. by apply (H u Hl).
Qed.

End Controller.

(** ** The handlers on the sample data *)

(** C9, the claim as stated fails: "2abc" is not a numeric value, yet the
    page is read as 2 and the offset is 10, where the default page gives
    0. *)
Lemma getAllBlog_offset_counterexample :
  isNumeric "2abc" = false
  ∧ pagination (Sample.listQuery None None (Some "2abc") None) = JS.Finite 2
  ∧ startIndex (Sample.listQuery None None (Some "2abc") None) = JS.Finite 10
  ∧ startIndex (Sample.listQuery None None None None) = JS.Finite 0.
Proof. repeat split; vm_compute; reflexivity. Qed.

(** Zero is numeric and still falls back to the default. *)
Example pagination_zero :
  pagination (Sample.listQuery None None (Some "0") (Some "0")) = JS.Finite 1
  ∧ limitation (Sample.listQuery None None (Some "0") (Some "0"))
    = JS.Finite 10.
Proof. split; vm_compute; reflexivity. Qed.

(** A hexadecimal prefix: "0x1A" is page 26 and the offset is 250, and "0x"
    alone is page 1. *)
Example pagination_hexadecimal :
  pagination (Sample.listQuery None None (Some "0x1A") None) = JS.Finite 26
  ∧ startIndex (Sample.listQuery None None (Some "0x1A") None) = JS.Finite 250
  ∧ pagination (Sample.listQuery None None (Some "0xg") None) = JS.Finite 1.
Proof. repeat split; vm_compute; reflexivity. Qed.

(** Past 2^53 a numeral is rounded: 2^53 + 1 is read as 2^53, and 2^53 + 3
    as 2^53 + 4. *)
Example pagination_rounded :
  pagination (Sample.listQuery None None (Some "9007199254740993") None)
  = JS.Finite 9007199254740992
  ∧ pagination (Sample.listQuery None None (Some "9007199254740995") None)
    = JS.Finite 9007199254740996.
Proof. split; vm_compute; reflexivity. Qed.

(** The offset is rounded as well: page 2^52 + 2 with limit 3 gives
    3 * 2^52 + 4, where the product is 3 * 2^52 + 3. *)
Example startIndex_rounded :
  startIndex (Sample.listQuery None None (Some "4503599627370498") (Some "3"))
  = JS.Finite 13510798882111492
  ∧ (4503599627370498 - 1) * 3 = 13510798882111491.
Proof. split; vm_compute; reflexivity. Qed.

(** A line separator, U+2028, before the numeral is skipped. *)
Example pagination_line_separator :
  pagination (Sample.listQuery None None
                (Some (String.append (utf8 [226; 128; 168]%nat) "2")) None)
  = JS.Finite 2.
Proof. vm_compute. reflexivity. Qed.

(** A numeral of 400 digits is an infinity; as the limit of the first page
    it makes the offset 0 * Infinity, which is NaN. *)
Example limitation_infinite :
  let huge := String.concat "" (replicate 40 "1234567890") in
  limitation (Sample.listQuery None None None (Some huge)) = JS.Infinity false
  ∧ startIndex (Sample.listQuery None None None (Some huge)) = JS.NaN
  ∧ startIndex (Sample.listQuery None None (Some "2") (Some huge))
    = JS.Infinity false.
Proof. repeat split; vm_compute; reflexivity. Qed.

(** C5, a defect of the handler. In the store [Sample.orphaned] the most
    liked post, b01, was written by a user that is not stored. The ranking by
    likes puts b01 first, yet the response for the sort key "mostLiked" does
    not carry it: the join with the authors drops the post after the page was
    cut, so that the first page of size 1 is answered with the 404 error. The
    listing in the default order carries b01, with no author. *)
Theorem getAllBlog_mostLiked_orphan :
  rankedByLikes Sample.orphaned {| f_tags := None; f_title := None |}
  = [("b01", Sample.post "carol" ["tech"] 5 101);
     ("b02", Sample.post "alice" ["tech"] 2 102)]
  ∧ getAllBlog Sample.BLOG_TAGS Sample.RegExp_i Sample.nonFiniteCount
      Sample.orphaned (Sample.listQuery None (Some "mostLiked") None None)
    = Respond 200
        {| results := 1;
           data := [ {| l_doc := ("b02", Sample.post "alice" ["tech"] 2 102);
                        l_likesCount := Some 2;
                        l_author := Some (Sample.person "Alice") |} ] |}
  ∧ getAllBlog Sample.BLOG_TAGS Sample.RegExp_i Sample.nonFiniteCount
      Sample.orphaned
      (Sample.listQuery None (Some "mostLiked") (Some "1") (Some "1"))
    = Next {| message := "No blog found"; statusCode := Some 404 |}
  ∧ getAllBlog Sample.BLOG_TAGS Sample.RegExp_i Sample.nonFiniteCount
      Sample.orphaned (Sample.listQuery None None None None)
    = Respond 200
        {| results := 2;
           data := [ {| l_doc := ("b02", Sample.post "alice" ["tech"] 2 102);
                        l_likesCount := None;
                        l_author := Some (Sample.person "Alice") |};
                     {| l_doc := ("b01", Sample.post "carol" ["tech"] 5 101);
                        l_likesCount := None;
                        l_author := None |} ] |}.
Proof. repeat split; vm_compute; reflexivity. Qed.

(** The ranking on the twelve sample posts: page 2 with limit 5 lists the
    posts ranked 6th to 10th. *)
Example getAllBlog_mostLiked_twelve :
  ∃ items,
    getAllBlog Sample.BLOG_TAGS Sample.RegExp_i Sample.nonFiniteCount
      Sample.twelve
      (Sample.listQuery None (Some "mostLiked") (Some "2") (Some "5"))
    = Respond 200 {| results := 5; data := items |}
    ∧ (l_doc <$> items).*1 = ["b02"; "b11"; "b05"; "b09"; "b01"].
Proof.
  destruct (getAllBlog_mostLiked Sample.BLOG_TAGS Sample.RegExp_i
              Sample.nonFiniteCount Sample.twelve
              (Sample.listQuery None (Some "mostLiked") (Some "2") (Some "5"))
              {| f_tags := None; f_title := None |} 5 5)
    as (_ & _ & _ & Hpage & _).
  - reflexivity.
  - reflexivity.
  - vm_compute. reflexivity.
  - vm_compute. reflexivity.
  - lia.
  - lia.
  - compute_done.
  - destruct Hpage as (items & Hget & Hdocs & _).
    + vm_compute. discriminate.
    + exists items. split.
      * exact Hget.
      * rewrite Hdocs. vm_compute. reflexivity.
Defined.

(** C6 on the sample vocabulary: "bogus" is outside it, and the request
    ends with "Invalid tags"; with "tech,life" every listed post carries one
    of the two tags. *)
Lemma getAllBlog_tags_witness :
  getAllBlog Sample.BLOG_TAGS Sample.RegExp_i
             Sample.nonFiniteCount Sample.twelve
    (Sample.listQuery (Some "tech,bogus") None None None)
  = Next {| message := "Invalid tags"; statusCode := None |}
  ∧ ∀ status body,
      getAllBlog Sample.BLOG_TAGS Sample.RegExp_i
                 Sample.nonFiniteCount Sample.twelve
        (Sample.listQuery (Some "tech,life") None None None)
      = Respond status body →
      ∀ item, item ∈ data body →
      ∃ t, t ∈ tags (l_doc item).2 ∧ t ∈ ["tech"; "life"].
Proof.
  split.
  - apply (getAllBlog_tags Sample.BLOG_TAGS Sample.RegExp_i
                           Sample.nonFiniteCount Sample.twelve
             (Sample.listQuery (Some "tech,bogus") None None None)
             "tech,bogus"); [reflexivity|discriminate|].
    exists "bogus". split; compute_done.
  - apply (getAllBlog_tags Sample.BLOG_TAGS Sample.RegExp_i
                           Sample.nonFiniteCount Sample.twelve
             (Sample.listQuery (Some "tech,life") None None None)
             "tech,life"); [reflexivity|discriminate|].
    intros t Ht. vm_compute in Ht.
    apply elem_of_cons in Ht as [->|Ht]; [compute_done|].
    apply list_elem_of_singleton in Ht as ->. compute_done.
Defined.

(** The listing by tag on the sample data, computed. *)
Example getAllBlog_tech_travel :
  match getAllBlog Sample.BLOG_TAGS Sample.RegExp_i
                   Sample.nonFiniteCount Sample.twelve
          (Sample.listQuery (Some "travel") (Some "mostViewed") None (Some "2"))
  with
  | Respond 200 body => results body = 2%nat
  | _ => False
  end.
Proof. vm_compute. reflexivity. Qed.

(** C2 on the sample store: bob views post b01 twice. *)
Lemma getOneBlog_views_witness :
  ∃ b2,
    blogs (getOneBlog
             (getOneBlog Sample.small
                {| one_id := "b01"; one_user := Some "bob";
                   one_ip := "10.0.0.7" |}).1
             {| one_id := "b01"; one_user := Some "bob";
                one_ip := "10.0.0.7" |}).1 !! "b01" = Some b2
    ∧ views b2 = 1
    ∧ occurrences "bob" (viewedBy b2) = 1%nat.
Proof.
  destruct (getOneBlog_views Sample.small
              {| one_id := "b01"; one_user := Some "bob"; one_ip := "10.0.0.7" |}
              (Sample.post "alice" ["tech"] 2 101))
    as (_ & _ & H).
  - vm_compute. reflexivity.
  - destruct H as (_ & H & _); [compute_done|exact H].
Defined.

(** An anonymous viewer is counted by network address, once. *)
Example getOneBlog_by_address :
  let r := {| one_id := "b01"; one_user := None; one_ip := "10.0.0.7" |} in
  (views <$> blogs (getOneBlog Sample.small r).1 !! "b01") = Some 1
  ∧ (viewedBy <$> blogs (getOneBlog (getOneBlog Sample.small r).1 r).1 !! "b01")
    = Some ["10.0.0.7"].
Proof. split; vm_compute; reflexivity. Qed.

(** C3 on the sample store: three reactions on post b01, whose two likes
    and no dislikes share no member. *)
Lemma reactToblog_exclusive_witness :
  ∃ b',
    blogs (reactAll Sample.REACTIONS Sample.small
             [ {| re_blogId := "b01"; re_reaction := Some "like";
                  re_user := "u05" |};
               {| re_blogId := "b01"; re_reaction := Some "dislike";
                  re_user := "u01" |};
               {| re_blogId := "b01"; re_reaction := Some "dislike";
                  re_user := "u05" |} ]) !! "b01" = Some b'
    ∧ exclusiveReactions b'.
Proof.
  apply (proj1 (reactToblog_exclusive Sample.REACTIONS Sample.small "b01"
                  (Sample.post "alice" ["tech"] 2 101)
                  ltac:(vm_compute; reflexivity)
                  ltac:(apply exclusiveReactions_Forall; compute_done))).
Defined.

(** The reaction sets after those three requests, computed. *)
Example reactAll_sample :
  let after :=
    reactAll Sample.REACTIONS Sample.small
      [ {| re_blogId := "b01"; re_reaction := Some "like"; re_user := "u05" |};
        {| re_blogId := "b01"; re_reaction := Some "dislike"; re_user := "u01" |};
        {| re_blogId := "b01"; re_reaction := Some "dislike"; re_user := "u05" |} ] in
  (likes <$> blogs after !! "b01") = Some ["u02"]
  ∧ (dislikes <$> blogs after !! "b01") = Some ["u01"; "u05"].
Proof. split; vm_compute; reflexivity. Qed.

(** C4 on the sample store: the cover image "broken.png" is lost by the
    media host, and the store after the request is the store before it. *)
Lemma createBlog_cover_rollback_witness :
  createBlog Sample.upload Sample.upload Sample.Blog_new Sample.small "b03"
    {| cr_body := Sample.draft; cr_user := "bob";
       cr_file := Some {| originalname := "broken.png" |}; cr_files := [] |}
  = (Sample.small,
     Next {| message := "Error uploading cover image to Cloudinary";
             statusCode := Some 500 |}).
Proof.
  apply (proj1 (createBlog_cover_rollback
                  Sample.upload Sample.upload Sample.Blog_new Sample.small "b03"
                  {| cr_body := Sample.draft; cr_user := "bob";
                     cr_file := Some {| originalname := "broken.png" |};
                     cr_files := [] |}
                  {| originalname := "broken.png" |}
                  (Sample.post "bob" [] 0 0 : Blog)
                  ltac:(vm_compute; reflexivity)
                  ltac:(vm_compute; reflexivity)
                  eq_refl
                  ltac:(vm_compute; reflexivity))).
Defined.

(** A create request with two gallery files, one of which the media host
    loses: the post is stored with the other image. *)
Example createBlog_gallery :
  let out :=
    createBlog Sample.upload Sample.upload Sample.Blog_new Sample.small "b03"
      {| cr_body := Sample.draft; cr_user := "bob"; cr_file := None;
         cr_files := [ {| originalname := "broken.png" |};
                       {| originalname := "sea.png" |} ] |} in
  (images <$> blogs out.1 !! "b03")
  = Some [ {| public_id := "sea.png";
              url := "https://media.example/sea.png" |} ]
  ∧ match out.2 with Respond 201 _ => True | _ => False end.
Proof. split; vm_compute; [reflexivity|exact I]. Qed.

(** C1, the code at a request the claim covers: bob asks to update post
    b01, which alice wrote, and sends one gallery file. The handler ends with
    the 404 error, and the images of alice's post have changed: the uploaded
    image has been appended. *)
Theorem updateBlog_other_author_gallery :
  let r := {| up_id := "b01"; up_user := "bob"; up_body := Sample.draft;
              up_file := None;
              up_files := [ {| originalname := "sea.png" |} ] |} in
  let out :=
    updateBlog Sample.upload Sample.upload Sample.deleteFile
      Sample.Blog_updateValid Sample.small r in
  (author <$> blogs Sample.small !! "b01") = Some "alice"
  ∧ out.2
    = Next {| message := "No comment found with this id or you are not authorized to update this comment";
              statusCode := Some 404 |}
  ∧ (images <$> blogs Sample.small !! "b01") = Some []
  ∧ (images <$> blogs out.1 !! "b01")
    = Some [ {| public_id := "sea.png";
                url := "https://media.example/sea.png" |} ].
Proof. repeat split; vm_compute; reflexivity. Qed.

(** The same request without the file leaves the store as it is. *)
Example updateBlog_other_author_plain :
  updateBlog Sample.upload Sample.upload Sample.deleteFile
    Sample.Blog_updateValid Sample.small
    {| up_id := "b01"; up_user := "bob"; up_body := Sample.draft;
       up_file := None; up_files := [] |}
  = (Sample.small, Next UpdateNotFound).
Proof.
  apply updateBlog_plain_no_match; [done..|].
  intros (b & Hb & Ha). vm_compute in Hb. injection Hb as <-. done.
Qed.

(** An id that is not stored, with a cover file and with a gallery file:
    neither request ends with the 404 error. *)
Example updateBlog_missing_post :
  (updateBlog Sample.upload Sample.upload Sample.deleteFile
     Sample.Blog_updateValid Sample.small
     {| up_id := "b99"; up_user := "bob"; up_body := Sample.draft;
        up_file := Some {| originalname := "sea.png" |}; up_files := [] |}).2
  = Next {| message := "Error uploading image to Cloudinary";
            statusCode := Some 500 |}
  ∧ (updateBlog Sample.upload Sample.upload Sample.deleteFile
       Sample.Blog_updateValid Sample.small
       {| up_id := "b99"; up_user := "bob"; up_body := Sample.draft;
          up_file := None;
          up_files := [ {| originalname := "sea.png" |} ] |}).2
    = Throw "TypeError".
Proof. split; vm_compute; reflexivity. Qed.

(** The author's own update replaces the fields the body carries. *)
Example updateBlog_own :
  let out :=
    updateBlog Sample.upload Sample.upload Sample.deleteFile
      Sample.Blog_updateValid Sample.small
      {| up_id := "b02"; up_user := "bob"; up_body := Sample.draft;
         up_file := Some {| originalname := "sea.png" |}; up_files := [] |} in
  (coverImage <$> blogs out.1 !! "b02")
  = Some (Some {| public_id := "sea.png";
                  url := "https://media.example/sea.png" |})
  ∧ match out.2 with Respond 200 _ => True | _ => False end.
Proof. split; vm_compute; [reflexivity|exact I]. Qed.

(** Deleting post b01 as its author removes its two comments and keeps the
    comment on the other post; bob cannot delete it. *)
Example deleteBlog_sample :
  let out := deleteBlog Sample.small {| del_id := "b01"; del_user := "alice" |} in
  blogs out.1 !! "b01" = None
  ∧ (map_to_list (comments out.1)).*1 = ["c03"]
  ∧ deleteBlog Sample.small {| del_id := "b01"; del_user := "bob" |}
    = (Sample.small, Next DeleteNotFound).
Proof. repeat split; vm_compute; reflexivity. Qed.

(** The most recent four posts of the author of b01 in the twelve sample
    posts; b01 is the oldest of six and is not among them. *)
Example getAuthorBlogs_sample :
  match getAuthorBlogs Sample.twelve "b01" with
  | Respond 200 body => (data body).*1 = ["b11"; "b09"; "b07"; "b05"]
  | _ => False
  end
  ∧ getAuthorBlogs Sample.twelve "b99" = Next (NotFound "Blog not found").
Proof. split; vm_compute; reflexivity. Qed.

(** Liking twice is liking once. *)
Example reactToblog_twice :
  let r := {| re_blogId := "b02"; re_reaction := Some "like"; re_user := "u01" |} in
  (likes <$> blogs (reactToblog Sample.REACTIONS
                      (reactToblog Sample.REACTIONS Sample.small r).1 r).1 !! "b02")
  = Some ["u01"]
  ∧ (reactToblog Sample.REACTIONS Sample.small
       {| re_blogId := "b02"; re_reaction := Some "love"; re_user := "u01" |}).2
    = Next {| message := "Invalid reactions"; statusCode := None |}.
Proof. split; vm_compute; reflexivity. Qed.

(** C9 on sample requests: page "3" with limit "20" starts at 40, a page
    that does not begin with an integer is page 1, and "0x1A" is page 26. *)
Lemma getAllBlog_offset_witness :
  pagination (Sample.listQuery None None (Some "3") (Some "20")) = JS.Finite 3
  ∧ startIndex (Sample.listQuery None None (Some "3") (Some "20"))
    = JS.Finite 40
  ∧ pagination (Sample.listQuery None None (Some "next") None) = JS.Finite 1
  ∧ pagination (Sample.listQuery None None (Some "0x1A") None) = JS.Finite 26.
Proof.
  destruct (getAllBlog_offset Sample.nonFiniteCount Sample.small
              (Sample.listQuery None None (Some "3") (Some "20")))
    as (_ & Hexact & _ & _ & _ & _ & Hpage & _).
  destruct (getAllBlog_offset Sample.nonFiniteCount Sample.small
              (Sample.listQuery None None (Some "next") None))
    as (_ & _ & _ & _ & Hnext & _).
  destruct (getAllBlog_offset Sample.nonFiniteCount Sample.small
              (Sample.listQuery None None (Some "0x1A") None))
    as (_ & _ & _ & _ & _ & _ & _ & _ & Hhex & _).
  split; [|split; [|split]].
  - exact (Hpage "3" "" eq_refl eq_refl I).
  - apply (Hexact 3 20); vm_compute; reflexivity.
  - exact (Hnext "next" eq_refl eq_refl).
  - exact (Hhex "x"%char "1A" "" eq_refl (or_introl eq_refl) eq_refl I).
Defined.

(** C7 on the sample store: alice deletes her post b01 and its comments go
    with it; bob's request for the same post ends with the 404 error. *)
Lemma deleteBlog_cascade_witness :
  (blogs (deleteBlog Sample.small {| del_id := "b01"; del_user := "alice" |}).1
   = delete "b01" (blogs Sample.small)
   ∧ ∀ k c,
       comments (deleteBlog Sample.small
                   {| del_id := "b01"; del_user := "alice" |}).1 !! k = Some c
       ↔ comments Sample.small !! k = Some c ∧ blog c ≠ "b01")
  ∧ deleteBlog Sample.small {| del_id := "b01"; del_user := "bob" |}
    = (Sample.small,
       Next {| message := "No blog found with this id or you are not authorized to delete this blog";
               statusCode := Some 404 |}).
Proof.
  split.
  - destruct (proj1 (deleteBlog_cascade Sample.small
                       {| del_id := "b01"; del_user := "alice" |}))
      as (_ & Hblogs & Hcomments & _).
    + exists (Sample.post "alice" ["tech"] 2 101).
      split; [vm_compute; reflexivity|reflexivity].
    + split; [exact Hblogs|exact Hcomments].
  - apply (proj1 (proj2 (deleteBlog_cascade Sample.small
                           {| del_id := "b01"; del_user := "bob" |}))).
    intros (b & Hb & Ha). vm_compute in Hb. injection Hb as <-.
    discriminate Ha.
Defined.

(** C8 on the twelve sample posts: b11 is alice's most recent post, so the
    list for the seed b11 contains it. *)
Lemma getAuthorBlogs_recent_witness :
  ∃ posts,
    getAuthorBlogs Sample.twelve "b11"
    = Respond 200 {| results := length posts; data := posts |}
    ∧ (length posts ≤ 4)%nat
    ∧ ("b11", Sample.post "alice" ["tech"] 6 111) ∈ posts.
Proof.
  destruct (proj1 (proj2 (getAuthorBlogs_recent Sample.twelve "b11"))
              (Sample.post "alice" ["tech"] 6 111))
    as (posts & Hget & [_ Hlen] & _ & _ & _ & Hseed).
  - vm_compute. reflexivity.
  - exists posts. split; [exact Hget|]. split; [exact Hlen|].
    apply Hseed. vm_compute. lia.
Defined.

(** C10 on the sample store: a second like by the same user leaves the
    likes of post b02 as the first like left them. *)
Lemma reactToblog_idempotent_witness :
  reactToblog Sample.REACTIONS
    (reactToblog Sample.REACTIONS Sample.small
       {| re_blogId := "b02"; re_reaction := Some "like"; re_user := "u01" |}).1
    {| re_blogId := "b02"; re_reaction := Some "like"; re_user := "u01" |}
  = reactToblog Sample.REACTIONS Sample.small
      {| re_blogId := "b02"; re_reaction := Some "like"; re_user := "u01" |}.
Proof.
  apply (proj1 (reactToblog_idempotent Sample.REACTIONS Sample.small
                  {| re_blogId := "b02"; re_reaction := Some "like";
                     re_user := "u01" |})).
Defined.

(** A negative page gives a negative offset, which the database refuses:
    the exception reaches the error handler. *)
Example getAllBlog_negative_page :
  startIndex (Sample.listQuery None (Some "mostLiked") (Some "-1") None)
  = JS.Finite (-20)
  ∧ getAllBlog Sample.BLOG_TAGS Sample.RegExp_i Sample.nonFiniteCount
      Sample.twelve
      (Sample.listQuery None (Some "mostLiked") (Some "-1") None)
    = Throw "MongoServerError"
  ∧ getAllBlog Sample.BLOG_TAGS Sample.RegExp_i Sample.nonFiniteCount
      Sample.twelve (Sample.listQuery None None (Some "-1") None)
    = Throw "MongoServerError".
Proof. repeat split; vm_compute; reflexivity. Qed.

(** ** Further runs on the sample data *)

(** X1 on the twelve sample posts with limit "5". *)
Lemma getAllBlog_page_size_witness :
  match getAllBlog Sample.BLOG_TAGS Sample.RegExp_i Sample.nonFiniteCount
          Sample.twelve (Sample.listQuery None None None (Some "5")) with
  | Respond status body =>
      status = 200
      ∧ results body = length (data body)
      ∧ (0 < results body)%nat
      ∧ Z.of_nat (results body) ≤ 5
      ∧ NoDup (l_doc <$> data body)
  | _ => False
  end.
Proof.
  destruct (getAllBlog Sample.BLOG_TAGS Sample.RegExp_i Sample.nonFiniteCount
              Sample.twelve (Sample.listQuery None None None (Some "5")))
    as [status body| |] eqn:H.
  - destruct (getAllBlog_page_size Sample.BLOG_TAGS Sample.RegExp_i
                Sample.nonFiniteCount Sample.twelve _ status body H)
      as (H1 & H2 & H3 & H4 & H5).
    split; [exact H1|]. split; [exact H2|]. split; [exact H3|].
    split; [exact (H4 5 eq_refl)|exact H5].
  - vm_compute in H. discriminate H.
  - vm_compute in H. discriminate H.
Defined.

(** X2 on the posts tagged "tech": newest first. *)
Lemma getAllBlog_find_order_witness :
  match getAllBlog Sample.BLOG_TAGS Sample.RegExp_i Sample.nonFiniteCount
          Sample.twelve (Sample.listQuery (Some "tech") None None None) with
  | Respond status body =>
      (l_doc <$> data body).*1 = ["b11"; "b08"; "b05"; "b03"; "b01"]
      ∧ ∀ item, item ∈ data body → l_likesCount item = None
  | _ => False
  end.
Proof.
  destruct (getAllBlog Sample.BLOG_TAGS Sample.RegExp_i Sample.nonFiniteCount
              Sample.twelve (Sample.listQuery (Some "tech") None None None))
    as [status body| |] eqn:H.
  - destruct (getAllBlog_find_order Sample.BLOG_TAGS Sample.RegExp_i
                Sample.nonFiniteCount Sample.twelve
                (Sample.listQuery (Some "tech") None None None)
                status body eq_refl H)
      as ((f & start & size & Hf & _ & _ & _ & _ & Hdocs) & _ & Hitems).
    split.
    + rewrite (Hdocs 0 10 eq_refl eq_refl).
      vm_compute in Hf. injection Hf as <-.
      vm_compute. reflexivity.
    + intros item Hitem. exact (proj2 (Hitems item Hitem)).
  - vm_compute in H. discriminate H.
  - vm_compute in H. discriminate H.
Defined.

(** X3 on the store with an author that is not stored: only b02 is
    listed. *)
Lemma getAllBlog_mostLiked_listed_witness :
  ∃ items,
    getAllBlog Sample.BLOG_TAGS Sample.RegExp_i Sample.nonFiniteCount
      Sample.orphaned (Sample.listQuery None (Some "mostLiked") None None)
    = Respond 200 {| results := 1; data := items |}
    ∧ (l_doc <$> items).*1 = ["b02"].
Proof.
  destruct (getAllBlog_mostLiked_listed Sample.BLOG_TAGS Sample.RegExp_i
              Sample.nonFiniteCount Sample.orphaned
              (Sample.listQuery None (Some "mostLiked") None None)
              {| f_tags := None; f_title := None |} 0 10)
    as (_ & Hkept).
  - reflexivity.
  - reflexivity.
  - reflexivity.
  - reflexivity.
  - lia.
  - lia.
  - destruct Hkept as (items & Hget & Hdocs & _).
    + vm_compute. discriminate.
    + exists items. split; [exact Hget|].
      rewrite Hdocs. vm_compute. reflexivity.
Defined.

(** X4 on the twelve sample posts: page 4 with limit 5 starts at 15 and is
    answered with the 404 error; with the sort key "mostLiked" and limit -5
    the pipeline is refused. *)
Lemma getAllBlog_past_end_witness :
  getAllBlog Sample.BLOG_TAGS Sample.RegExp_i Sample.nonFiniteCount
    Sample.twelve (Sample.listQuery None None (Some "4") (Some "5"))
  = Next (NotFound "No blog found")
  ∧ getAllBlog Sample.BLOG_TAGS Sample.RegExp_i Sample.nonFiniteCount
      Sample.twelve
      (Sample.listQuery (Some "tech") (Some "mostLiked") (Some "-1")
         (Some "-5"))
    = Throw "MongoServerError".
Proof.
  split.
  - apply (getAllBlog_past_end Sample.BLOG_TAGS Sample.RegExp_i
             Sample.nonFiniteCount Sample.twelve
             (Sample.listQuery None None (Some "4") (Some "5"))
             {| f_tags := None; f_title := None |} 15 5).
    + reflexivity.
    + reflexivity.
    + reflexivity.
    + vm_compute. discriminate.
  - apply (getAllBlog_past_end Sample.BLOG_TAGS Sample.RegExp_i
             Sample.nonFiniteCount Sample.twelve
             (Sample.listQuery (Some "tech") (Some "mostLiked") (Some "-1")
                (Some "-5"))
             {| f_tags := Some ["tech"]; f_title := None |} 10 (-5)).
    + reflexivity.
    + reflexivity.
    + reflexivity.
    + vm_compute. discriminate.
Defined.

(** X5 on the twelve sample posts: page "-3". *)
Lemma getAllBlog_negative_offset_witness :
  getAllBlog Sample.BLOG_TAGS Sample.RegExp_i Sample.nonFiniteCount
    Sample.twelve (Sample.listQuery None None (Some "-3") None)
  = Throw "MongoServerError".
Proof.
  apply (proj2 (proj2 (proj2 (proj2
           (getAllBlog_negative_offset Sample.BLOG_TAGS Sample.RegExp_i
              Sample.nonFiniteCount Sample.twelve
              (Sample.listQuery None None (Some "-3") None)
              {| f_tags := None; f_title := None |})))) eq_refl (-40)).
  - reflexivity.
  - lia.
Defined.

(** X6 with the engine that refuses "(": with no tags and with tags of the
    vocabulary the exception of the pattern ends the request, with a tag
    outside the vocabulary the tag error does. *)
Lemma getAllBlog_title_witness :
  getAllBlog Sample.BLOG_TAGS Sample.RegExp_checked Sample.nonFiniteCount
    Sample.twelve
    {| q_tags := None; q_title := Some "("; q_sortBy := None;
       q_page := None; q_limit := None |}
  = Throw "SyntaxError"
  ∧ getAllBlog Sample.BLOG_TAGS Sample.RegExp_checked Sample.nonFiniteCount
      Sample.twelve
      {| q_tags := Some "tech"; q_title := Some "("; q_sortBy := None;
         q_page := None; q_limit := None |}
    = Throw "SyntaxError"
  ∧ getAllBlog Sample.BLOG_TAGS Sample.RegExp_checked Sample.nonFiniteCount
      Sample.twelve
      {| q_tags := Some "bogus"; q_title := Some "("; q_sortBy := None;
         q_page := None; q_limit := None |}
    = Next InvalidTags.
Proof.
  split; [|split].
  - apply (proj2 (proj1 (getAllBlog_title Sample.BLOG_TAGS
                           Sample.RegExp_checked Sample.nonFiniteCount
                           Sample.twelve
                           {| q_tags := None; q_title := Some "(";
                              q_sortBy := None; q_page := None;
                              q_limit := None |}
                           "(" eq_refl ltac:(discriminate)) eq_refl)).
    left. reflexivity.
  - apply (proj2 (proj1 (getAllBlog_title Sample.BLOG_TAGS
                           Sample.RegExp_checked Sample.nonFiniteCount
                           Sample.twelve
                           {| q_tags := Some "tech"; q_title := Some "(";
                              q_sortBy := None; q_page := None;
                              q_limit := None |}
                           "(" eq_refl ltac:(discriminate)) eq_refl)).
    right. right. exists "tech". split; [reflexivity|].
    intros tag Htag. vm_compute in Htag.
    apply list_elem_of_singleton in Htag as ->. compute_done.
  - apply (proj1 (proj1 (getAllBlog_title Sample.BLOG_TAGS
                           Sample.RegExp_checked Sample.nonFiniteCount
                           Sample.twelve
                           {| q_tags := Some "bogus"; q_title := Some "(";
                              q_sortBy := None; q_page := None;
                              q_limit := None |}
                           "(" eq_refl ltac:(discriminate)) eq_refl)
             "bogus" eq_refl ltac:(discriminate)).
    exists "bogus". split; compute_done.
Defined.

(** X8 on the sample store: four requests by three distinct viewers. *)
Lemma viewAll_counts_witness :
  ∃ b', blogs (viewAll Sample.small Sample.viewers) !! "b01" = Some b'
        ∧ views b' = 3
        ∧ viewsConsistent b'.
Proof.
  destruct (viewAll_counts Sample.viewers Sample.small "b01"
              (Sample.post "alice" ["tech"] 2 101))
    as (b' & Hb' & _ & Hviews & Hcons).
  - vm_compute. reflexivity.
  - repeat constructor.
  - exists b'. split; [exact Hb'|]. split.
    + rewrite Hviews. vm_compute. reflexivity.
    + apply Hcons. split; [constructor|reflexivity].
Defined.

(** X9 on the sample store: u01 likes and then dislikes post b02. *)
Lemma reactToblog_toggle_witness :
  ∃ b2,
    blogs (reactToblog Sample.REACTIONS
             (reactToblog Sample.REACTIONS Sample.small
                {| re_blogId := "b02"; re_reaction := Some "like";
                   re_user := "u01" |}).1
             {| re_blogId := "b02"; re_reaction := Some "dislike";
                re_user := "u01" |}).1 !! "b02" = Some b2
    ∧ "u01" ∈ dislikes b2 ∧ ("u01" ∉ likes b2).
Proof.
  destruct (reactToblog_toggle Sample.REACTIONS Sample.small "b02"
              (Sample.post "bob" ["life"] 0 102) "u01")
    as ((b2 & Hb2 & Hin & Hout & _) & _).
  - vm_compute. reflexivity.
  - compute_done.
  - compute_done.
  - exists b2. split; [exact Hb2|]. split; [exact Hin|exact Hout].
Defined.

(** X11 on the sample store: u05 likes post b01. *)
Lemma reactToblog_response_witness :
  ∃ body,
    (reactToblog Sample.REACTIONS Sample.small
       {| re_blogId := "b01"; re_reaction := Some "like"; re_user := "u05" |}).2
    = Respond 200 body
    ∧ isLiked body = true ∧ isDisliked body = false
    ∧ length (r_likes body) = 3%nat.
Proof.
  destruct (reactToblog_response Sample.REACTIONS Sample.small
              {| re_blogId := "b01"; re_reaction := Some "like";
                 re_user := "u05" |}
              (Sample.post "alice" ["tech"] 2 101))
    as (b' & body & _ & Hout & Hlikes & _ & _ & _ & Hlike & _).
  - vm_compute. reflexivity.
  - vm_compute. reflexivity.
  - exists body. destruct (Hlike eq_refl) as (Hl & Hd & Hlen).
    split; [exact Hout|]. split; [exact Hl|]. split; [exact Hd|].
    rewrite Hlikes, Hlen. vm_compute. reflexivity.
Defined.

(** X12 on the sample store: a cover image and two gallery files, one of
    which the media host loses. *)
Lemma createBlog_attachments_witness :
  ∃ stored,
    blogs (createBlog Sample.upload Sample.upload Sample.Blog_new Sample.small
             "b03"
             {| cr_body := Sample.draft; cr_user := "bob";
                cr_file := Some Sample.sea;
                cr_files := [Sample.broken; Sample.sky] |}).1 !! "b03"
    = Some stored
    ∧ images stored
      = [ {| public_id := "sky.png"; url := "https://media.example/sky.png" |} ]
    ∧ coverImage stored
      = Some {| public_id := "sea.png";
                url := "https://media.example/sea.png" |}.
Proof.
  destruct (createBlog_attachments Sample.upload Sample.upload Sample.Blog_new
              Sample.small "b03"
              {| cr_body := Sample.draft; cr_user := "bob";
                 cr_file := Some Sample.sea;
                 cr_files := [Sample.broken; Sample.sky] |}
              (Sample.post "bob" [] 0 0))
    as (stored & Hget & Himages & _ & Hcover & _).
  - vm_compute. reflexivity.
  - vm_compute. reflexivity.
  - intros file [= <-]. vm_compute. eauto.
  - exists stored. rewrite Hget. simpl. rewrite lookup_insert_eq.
    split; [reflexivity|]. split.
    + rewrite Himages. vm_compute. reflexivity.
    + rewrite Hcover. vm_compute. reflexivity.
Defined.

(** X14 on the sample store: alice sends a cover file that the media host
    loses, together with a gallery file. *)
Lemma updateBlog_cover_failure_witness :
  updateBlog Sample.upload Sample.upload Sample.deleteFile
    Sample.Blog_updateValid Sample.small
    {| up_id := "b01"; up_user := "alice"; up_body := Sample.draft;
       up_file := Some Sample.broken; up_files := [Sample.sky] |}
  = (Sample.small,
     Next {| message := "Error uploading image to Cloudinary";
             statusCode := Some 500 |}).
Proof.
  apply (proj1 (updateBlog_cover_failure Sample.upload Sample.upload
                  Sample.deleteFile Sample.Blog_updateValid Sample.small
                  {| up_id := "b01"; up_user := "alice";
                     up_body := Sample.draft;
                     up_file := Some Sample.broken;
                     up_files := [Sample.sky] |}
                  Sample.broken eq_refl)).
  vm_compute. reflexivity.
Defined.

(** X15 on the sample store: bob updates his post b02 and sends a gallery
    file. *)
Lemma updateBlog_own_fields_witness :
  ∃ stored,
    blogs (updateBlog Sample.upload Sample.upload Sample.deleteFile
             Sample.Blog_updateValid Sample.small
             {| up_id := "b02"; up_user := "bob"; up_body := Sample.draft;
                up_file := None; up_files := [Sample.sky] |}).1 !! "b02"
    = Some stored
    ∧ images stored
      = [ {| public_id := "sky.png"; url := "https://media.example/sky.png" |} ]
    ∧ tags stored = ["life"].
Proof.
  destruct (updateBlog_own_fields Sample.upload Sample.upload Sample.deleteFile
              Sample.Blog_updateValid Sample.small
              {| up_id := "b02"; up_user := "bob"; up_body := Sample.draft;
                 up_file := None; up_files := [Sample.sky] |}
              (Sample.post "bob" ["life"] 0 102))
    as (stored & Hget & Himages & _ & _ & Htags & _).
  - vm_compute. reflexivity.
  - reflexivity.
  - reflexivity.
  - reflexivity.
  - exists stored. rewrite Hget. simpl. rewrite lookup_insert_eq.
    split; [reflexivity|]. split.
    + rewrite Himages. vm_compute. reflexivity.
    + rewrite Htags. reflexivity.
Defined.

(** X16 on the sample store: bob's update of b02, twice. *)
Lemma updateBlog_again_witness :
  updateBlog Sample.upload Sample.upload Sample.deleteFile
    Sample.Blog_updateValid
    (updateBlog Sample.upload Sample.upload Sample.deleteFile
       Sample.Blog_updateValid Sample.small
       {| up_id := "b02"; up_user := "bob"; up_body := Sample.draft;
          up_file := None; up_files := [] |}).1
    {| up_id := "b02"; up_user := "bob"; up_body := Sample.draft;
       up_file := None; up_files := [] |}
  = updateBlog Sample.upload Sample.upload Sample.deleteFile
      Sample.Blog_updateValid Sample.small
      {| up_id := "b02"; up_user := "bob"; up_body := Sample.draft;
         up_file := None; up_files := [] |}.
Proof.
  apply (proj1 (updateBlog_again Sample.upload Sample.upload Sample.deleteFile
                  Sample.Blog_updateValid Sample.small
                  {| up_id := "b02"; up_user := "bob";
                     up_body := Sample.draft;
                     up_file := None; up_files := [] |}
                  (Sample.post "bob" ["life"] 0 102)
                  ltac:(vm_compute; reflexivity)
                  eq_refl eq_refl eq_refl eq_refl)).
  reflexivity.
Defined.

(** X18 on the sample store: alice deletes her post b01; afterwards no
    comment refers to it, the listing of its author's posts ends with the 404
    error, a like of it too, and the reaction "love" ends with "Invalid
    reactions". *)
Lemma deleteBlog_gone_witness :
  let gone := (deleteBlog Sample.small
                 {| del_id := "b01"; del_user := "alice" |}).1 in
  commentsOf gone "b01" = []
  ∧ getAuthorBlogs gone "b01" = Next (NotFound "Blog not found")
  ∧ reactToblog Sample.REACTIONS gone
      {| re_blogId := "b01"; re_reaction := Some "like"; re_user := "bob" |}
    = (gone, Next (NotFound "No blog found with this id"))
  ∧ reactToblog Sample.REACTIONS gone
      {| re_blogId := "b01"; re_reaction := Some "love"; re_user := "bob" |}
    = (gone, Next InvalidReactions).
Proof.
  destruct (deleteBlog_gone Sample.REACTIONS Sample.upload Sample.upload
              Sample.deleteFile Sample.Blog_updateValid Sample.small
              {| del_id := "b01"; del_user := "alice" |}
              (Sample.post "alice" ["tech"] 2 101))
    as (Hcomments & _ & _ & Hreact & _ & Hauthor).
  - vm_compute. reflexivity.
  - reflexivity.
  - split; [exact Hcomments|]. split; [exact Hauthor|]. split.
    + exact (Hreact {| re_blogId := "b01"; re_reaction := Some "like";
                       re_user := "bob" |} eq_refl).
    + exact (Hreact {| re_blogId := "b01"; re_reaction := Some "love";
                       re_user := "bob" |} eq_refl).
Defined.

(** X19 on the sample store: bob creates post b03 and deletes it. *)
Lemma createBlog_deleteBlog_witness :
  deleteBlog
    (createBlog Sample.upload Sample.upload Sample.Blog_new Sample.small "b03"
       {| cr_body := Sample.draft; cr_user := "bob";
          cr_file := Some Sample.sea; cr_files := [Sample.sky] |}).1
    {| del_id := "b03"; del_user := "bob" |}
  = (Sample.small,
     Respond 200 {| msg := "deleted successfully"; m_data := None |}).
Proof.
  apply (createBlog_deleteBlog Sample.upload Sample.upload Sample.Blog_new
           Sample.small "b03"
           {| cr_body := Sample.draft; cr_user := "bob";
              cr_file := Some Sample.sea; cr_files := [Sample.sky] |}
           (Sample.post "bob" [] 0 0)).
  - vm_compute. reflexivity.
  - reflexivity.
  - vm_compute. reflexivity.
  - intros file [= <-]. vm_compute. eauto.
  - change (map_Forall (λ _ c, blog c ≠ "b03") (comments Sample.small)).
    compute_done.
Defined.

(** X20 on the twelve sample posts: b01 and b03 are both alice's. *)
Lemma getAuthorBlogs_same_author_witness :
  getAuthorBlogs Sample.twelve "b01" = getAuthorBlogs Sample.twelve "b03".
Proof.
  apply (proj1 (getAuthorBlogs_same_author Sample.twelve "b01" "b03"
                  (Sample.post "alice" ["tech"] 3 101)
                  (Sample.post "alice" ["tech"] 1 103)
                  ltac:(vm_compute; reflexivity)
                  ltac:(vm_compute; reflexivity)
                  eq_refl)).
Defined.

(** X22 on sample requests: page "-2" is read as -2 and gives the offset
    -30; page "-0" is page 1. *)
Lemma pagination_signed_witness :
  pagination (Sample.listQuery None None (Some "-2") None) = JS.Finite (-2)
  ∧ isNegative (startIndex (Sample.listQuery None None (Some "-2") None))
    = true
  ∧ pagination (Sample.listQuery None None (Some "-0") None) = JS.Finite 1.
Proof.
  destruct (pagination_signed
              (Sample.listQuery None None (Some "-2") None) "2" eq_refl)
    as (Hminus & _ & _ & _ & Hstart).
  destruct (pagination_signed
              (Sample.listQuery None None (Some "-0") None) "0" eq_refl)
    as (Hzero & _).
  split; [exact (Hminus eq_refl)|]. split.
  - apply (Hstart eq_refl ltac:(discriminate) 10); [reflexivity|lia].
  - exact (Hzero eq_refl).
Defined.
